(** * sci_analysis.analysis: the test-selection engine

    A shallow embedding of [sci_analysis/analysis/analysis.py]: the
    [Analysis]/[Test] class hierarchy, the cleaning hooks ([data_prep]),
    the variant selection inside the composite tests and the [analyze]
    dispatcher, followed by the properties of the specification that
    concern them.

    Python values are a small universe [pyobj]; Python floats are IEEE
    binary64 numbers (Rocq's primitive [float]), so that [p > alpha]
    behaves on not-a-number as it does in Python.  Exceptions are an
    explicit [result]; the calls made to the numeric library and the
    objects constructed are collected in a trace. *)

From Stdlib Require Import Floats ZArith.
From stdpp Require Import base option list strings gmap pretty.

Set Warnings "-register-all".
Local Open Scope Z_scope.

(** ** Values *)

(** Dictionary keys that occur in the module: strings and integers. *)
Inductive pykey :=
| KStr (s : string)
| KInt (z : Z).

#[global] Instance pykey_eq_dec : EqDecision pykey.
Proof. solve_decision. Defined.

#[global] Instance pykey_countable : Countable pykey.
Proof.
  refine (inj_countable'
            (λ k, match k with KStr s => inl s | KInt z => inr z end)
            (λ x, match x with inl s => KStr s | inr z => KInt z end) _).
  by intros [].
Defined.

(** The objects the module handles.  [PList] stands for lists and
    tuples, [PVector] for an instance of the package's [Vector] class,
    [PDict] for a dict in insertion order. *)
Inductive pyobj :=
| PNone
| PFloat (f : float)
| PInt (z : Z)
| PStr (s : string)
| PList (l : list pyobj)
| PVector (v : list float)
| PDict (d : list (pykey * pyobj)).

(** The exceptions: those Python raises by itself in this module, and
    the three that the package's tests import from it
    ([EmptyVectorError], [MinimumSizeError], [UnequalVectorLengthError]);
    the module has no [raise] statement. *)
Inductive exn :=
| KeyError
| IndexError
| TypeError
| ValueError
| UnboundLocalError
| EmptyVectorError
| MinimumSizeError
| UnequalVectorLengthError.

#[global] Instance exn_eq_dec : EqDecision exn.
Proof. solve_decision. Defined.

Inductive result (A : Type) :=
| Ok (a : A)
| Raise (e : exn).
Arguments Ok {A} a.
Arguments Raise {A} e.

#[global] Instance result_ret : MRet result := λ A a, Ok a.
#[global] Instance result_bind : MBind result :=
  λ A B k r, match r with Ok a => k a | Raise e => Raise e end.
#[global] Instance result_fmap : FMap result :=
  λ A B f r, match r with Ok a => Ok (f a) | Raise e => Raise e end.

(** ** Effects: exceptions and a trace of calls *)

(** The functions imported from [scipy.stats]. *)
Inductive scipy_fn :=
| fn_shapiro
| fn_kstest
| fn_ttest_1samp
| fn_ttest_ind (equal_var : bool)
| fn_linregress
| fn_pearsonr
| fn_spearmanr
| fn_f_oneway
| fn_kruskal
| fn_bartlett
| fn_levene.

#[global] Instance scipy_fn_eq_dec : EqDecision scipy_fn.
Proof. solve_decision. Defined.

Inductive event :=
| EvNew (cls : string) (args : list pyobj)
| EvCall (fn : scipy_fn) (args : list pyobj)
| EvGraph (cls : string) (args : list pyobj).

Definition trace := list event.

Definition M (A : Type) : Type := trace → result A * trace.

#[global] Instance M_ret : MRet M := λ A a t, (Ok a, t).
#[global] Instance M_bind : MBind M :=
  λ A B k m t, match m t with
               | (Ok a, t') => k a t'
               | (Raise e, t') => (Raise e, t')
               end.

Definition lift {A} (r : result A) : M A := λ t, (r, t).
Definition emit (e : event) : M unit := λ t, (Ok tt, t ++ [e]).

(** ** Python built-ins *)

(** The built-ins whose result is a matter of text: [float] applied to
    a string and the two format specifications the module uses. *)
Record builtins := {
  float_of_str : string → option float;
  format_4f : float → string;
  format_5f : float → string;
  str_of_float : float → string
}.

(** The float nearest to an integer, ties to even, as [float(int)]
    rounds; an integer beyond the range of a double gives an
    infinity. *)
Definition float_of_Z (z : Z) : float :=
  SF2Prim (SpecFloat.binary_normalize prec emax z 0 false).

Definition nan : float := PrimFloat.nan.

(** [len(o)] *)
Definition len (o : pyobj) : result Z :=
  match o with
  | PList l => Ok (Z.of_nat (length l))
  | PVector v => Ok (Z.of_nat (length v))
  | PDict d => Ok (Z.of_nat (length d))
  | PStr s => Ok (Z.of_nat (String.length s))
  | PNone | PFloat _ | PInt _ => Raise TypeError
  end.

Definition key_obj (k : pykey) : pyobj :=
  match k with KStr s => PStr s | KInt z => PInt z end.

Definition chars (s : string) : list pyobj :=
  (λ a, PStr (String a EmptyString)) <$> String.list_ascii_of_string s.

(** [iter(o)], all at once. *)
Definition py_iter (o : pyobj) : result (list pyobj) :=
  match o with
  | PList l => Ok l
  | PVector v => Ok (PFloat <$> v)
  | PDict d => Ok (key_obj ∘ fst <$> d)
  | PStr s => Ok (chars s)
  | PNone | PFloat _ | PInt _ => Raise TypeError
  end.

(** [bool(o)] *)
Definition truthy (o : pyobj) : bool :=
  match o with
  | PNone => false
  | PFloat f => negb (PrimFloat.eqb f PrimFloat.zero)
  | PInt z => negb (z =? 0)
  | PStr s => negb (String.eqb s "")
  | PList l => negb (Nat.eqb (length l) 0)
  | PVector v => negb (Nat.eqb (length v) 0)
  | PDict d => negb (Nat.eqb (length d) 0)
  end.

Definition nth_item {A} (l : list A) (i : Z) : result A :=
  let n := Z.of_nat (length l) in
  let j := if i <? 0 then i + n else i in
  if (j <? 0) || (n <=? j) then Raise IndexError
  else match l !! Z.to_nat j with
       | Some a => Ok a
       | None => Raise IndexError
       end.

Fixpoint assoc (k : pykey) (d : list (pykey * pyobj)) : option pyobj :=
  match d with
  | [] => None
  | (k', v) :: d' => if decide (k = k') then Some v else assoc k d'
  end.

(** [o[k]] *)
Definition getitem (o k : pyobj) : result pyobj :=
  match o, k with
  | PList l, PInt i => nth_item l i
  | PVector v, PInt i => PFloat <$> nth_item v i
  | PStr s, PInt i => nth_item (chars s) i
  | PDict d, PStr s =>
      match assoc (KStr s) d with Some v => Ok v | None => Raise KeyError end
  | PDict d, PInt z =>
      match assoc (KInt z) d with Some v => Ok v | None => Raise KeyError end
  | PDict d, (PNone | PFloat _) => Raise KeyError
  | _, _ => Raise TypeError
  end.

(** [d[k]] on a results dict. *)
Definition item (d : gmap pykey pyobj) (k : pykey) : result pyobj :=
  match d !! k with
  | Some v => Ok v
  | None => Raise KeyError
  end.

(** [d.update(e)] for another dict [e]: the entries of [e] win. *)
Definition update (d e : gmap pykey pyobj) : gmap pykey pyobj := e ∪ d.

(** [a > b] on numbers. *)
Definition as_number (o : pyobj) : result float :=
  match o with
  | PFloat f => Ok f
  | PInt z => Ok (float_of_Z z)
  | _ => Raise TypeError
  end.

Definition gt (a : pyobj) (b : float) : result bool :=
  f ← as_number a; Ok (PrimFloat.ltb b f).

(** [s * n] on a string. *)
Fixpoint str_repeat (s : string) (n : nat) : string :=
  match n with
  | O => ""
  | S n' => s +:+ str_repeat s n'
  end.

Definition str_mul (s : string) (n : Z) : string := str_repeat s (Z.to_nat n).

(** ["\n".join(lines)] *)
Definition newline : string := String (Ascii.ascii_of_nat 10) EmptyString.
Definition join_lines (lines : list string) : string := String.concat newline lines.

(** [try: r except (es): h] *)
Definition try_except {A} (r : result A) (es : list exn) (h : result A) : result A :=
  match r with
  | Ok a => Ok a
  | Raise e => if decide (e ∈ es) then h else Raise e
  end.

(** ** The collaborators *)

(** [scipy.stats], at its interface: each routine maps its samples to
    a pair (statistic, p-value); [linregress] returns five numbers.
    A routine is described where it returns.  The exception a
    routine raises on a degenerate sample (the Shapiro-Wilk routine on
    fewer than three numbers, the regression on empty vectors) ends
    the run that called it and is not modelled: of such a sample the
    model tells the call that is made, not its outcome. *)
Record scipy_stats := {
  shapiro : pyobj → float * float;
  kstest : list pyobj → float * float;
  ttest_1samp : pyobj → pyobj → float * float;
  ttest_ind : list pyobj → bool → float * float;
  linregress : pyobj → pyobj → float * float * float * float * float;
  pearsonr : pyobj → pyobj → float * float;
  spearmanr : pyobj → pyobj → float * float;
  f_oneway : list pyobj → float * float;
  kruskal : list pyobj → float * float;
  bartlett : list pyobj → float * float;
  levene : list pyobj → float * float;
  skew : pyobj → float;
  kurtosis : pyobj → float;
  sem : pyobj → Z → Z → float
}.

(** The reductions imported from [numpy]; [std] takes [ddof],
    [percentile] the percentage.  They too are described where they
    return ([amax] of an empty vector raises). *)
Record numpy := {
  mean : pyobj → float;
  std : pyobj → Z → float;
  median : pyobj → float;
  amin : pyobj → float;
  amax : pyobj → float;
  percentile : pyobj → Z → float
}.

(** *** The package's own helpers

    The module imports [is_dict], [is_iterable], [is_vector],
    [is_group], [is_dict_group], [drop_nan] and [drop_nan_intersect]
    from [sci_analysis.operations.data_operations] and [Vector] from
    [sci_analysis.data.vector]; neither file is among the sources.
    They are modelled from the contract the specification gives for
    them.  A Vector is a [PVector] holding its entries. *)

(** Modelled from the spec: [is_vector], missing from the sources; true
    of an instance of the package's Vector ("DataSample/Vector
    collaborator"). *)
Definition is_vector (o : pyobj) : bool :=
  match o with PVector _ => true | _ => false end.

(** Modelled from the spec: [is_dict], missing from the sources; true
    of "a mapping of label to sample". *)
Definition is_dict (o : pyobj) : bool :=
  match o with PDict _ => true | _ => false end.

(** Modelled from the spec: [is_iterable], missing from the sources;
    what separates a sample ("any iterable of numbers") from a scalar
    ("a scalar (non-iterable) comparison value").  A string counts as a
    scalar. *)
Definition is_iterable (o : pyobj) : bool :=
  match o with
  | PList _ | PVector _ | PDict _ => true
  | PNone | PFloat _ | PInt _ | PStr _ => false
  end.

(** Modelled from the spec: [is_group], missing from the sources; true
    of "a collection of samples": a list or tuple that holds a sample.
    The members of a Vector, of a dict seen as a sequence (its labels)
    and of a string are scalars. *)
Definition is_group (seq : pyobj) : bool :=
  match seq with
  | PList l => existsb is_iterable l
  | _ => false
  end.

(** Modelled from the spec: [is_dict_group], missing from the sources;
    true of "a mapping of label to sample". *)
Definition is_dict_group (seq : pyobj) : bool :=
  match seq with
  | PDict d => existsb (is_iterable ∘ snd) d
  | _ => false
  end.

(** Modelled from the spec: [drop_nan], missing from the sources; "a
    NaN-filtering operation" on a Vector, here on its entries. *)
Definition drop_nan (v : list float) : list float :=
  filter (λ f, PrimFloat.is_nan f = false) v.

(** Modelled from the spec: [drop_nan_intersect], missing from the
    sources; "jointly drop any index where either vector holds NaN". *)
Definition drop_nan_intersect (x y : list float) : list float * list float :=
  let keep := filter (λ p, PrimFloat.is_nan p.1 = false ∧ PrimFloat.is_nan p.2 = false)
                (zip x y) in
  (fst <$> keep, snd <$> keep).

(** The entries of a Vector. *)
Definition values (o : pyobj) : list float :=
  match o with PVector v => v | _ => [] end.

(** Modelled from the spec: the methods [is_empty] and [__len__] of
    Vector, missing from the sources ("exposes length, emptiness
    check"). *)
Definition is_empty (v : list float) : bool := Nat.eqb (length v) 0.
Definition vlen (v : list float) : Z := Z.of_nat (length v).

Section Embedding.

Variable py : builtins.
Variable lib : scipy_stats.
Variable np : numpy.

(** [float(o)].  On an integer beyond the range of a double Python
    raises OverflowError; here the result is the infinity of
    [float_of_Z], and the properties that convert integers take them
    [convertible]. *)
Definition float_ (o : pyobj) : result float :=
  match o with
  | PFloat f => Ok f
  | PInt z => Ok (float_of_Z z)
  | PStr s => match float_of_str py s with
              | Some f => Ok f
              | None => Raise ValueError
              end
  | PNone | PList _ | PVector _ | PDict _ => Raise TypeError
  end.

(** Modelled from the spec: the coercion of one entry by the
    constructor of Vector, missing from the sources ("best-effort
    coercion to floating point, discarding values that cannot be
    coerced": such a value becomes not-a-number, which [drop_nan]
    removes). *)
Definition to_float (o : pyobj) : float :=
  match float_ o with
  | Ok f => f
  | Raise _ => nan
  end.

(** Modelled from the spec: the constructor of Vector, missing from
    the sources ("constructible from any iterable of numbers or
    numeric-like strings"); the result is the list of entries.  What
    cannot be iterated is rejected. *)
Definition Vector (o : pyobj) : result (list float) :=
  match o with
  | PVector v => Ok v
  | _ => fmap (M:=list) to_float <$> py_iter o
  end.

(** ["{:.4f}".format(o)] *)
Definition format4 (o : pyobj) : result string :=
  match o with
  | PFloat f => Ok (format_4f py f)
  | PInt z => Ok (format_4f py (float_of_Z z))
  | PStr _ => Raise ValueError
  | _ => Raise TypeError
  end.

(** [str(o)] for the objects that are printed. *)
Definition str (o : pyobj) : result string :=
  match o with
  | PInt z => Ok (pretty z)
  | PStr s => Ok s
  | PFloat f => Ok (str_of_float py f)
  | PNone => Ok "None"
  | _ => Raise TypeError
  end.

(** ** Objects and classes *)

(** The class attributes an object sees through [self]. *)
Record attrs := {
  cls : string;
  _name : pyobj;
  _statistic_name : pyobj;
  _h0 : string;
  _ha : string;
  _min_size : Z
}.

(** An instance of [Analysis] or of one of its subclasses. *)
Record instance := {
  klass : attrs;
  _data : pyobj;
  _display : bool;
  _results : gmap pykey pyobj;
  _alpha : float;
  _mu : pyobj;
  _distribution : string;
  _parms : pyobj;
  _sample : bool
}.

(** The methods a subclass may override; calls through [self] go
    through this table. *)
Record methods := {
  data_prep : instance → pyobj → result pyobj;
  run : instance → M instance;
  output : instance → result string
}.

Record kwargs := {
  kw_alpha : option float;
  kw_display : option bool
}.

Definition alloc (k : attrs) : instance :=
  {| klass := k; _data := PNone; _display := true; _results := ∅;
     _alpha := nan; _mu := PNone; _distribution := ""; _parms := PNone;
     _sample := true |}.

Definition set_alpha (self : instance) (a : float) : instance :=
  {| klass := klass self; _data := _data self; _display := _display self;
     _results := _results self; _alpha := a; _mu := _mu self;
     _distribution := _distribution self; _parms := _parms self;
     _sample := _sample self |}.

Definition set_results (self : instance) (r : gmap pykey pyobj) : instance :=
  {| klass := klass self; _data := _data self; _display := _display self;
     _results := r; _alpha := _alpha self; _mu := _mu self;
     _distribution := _distribution self; _parms := _parms self;
     _sample := _sample self |}.

Definition set_mu (self : instance) (mu : pyobj) : instance :=
  {| klass := klass self; _data := _data self; _display := _display self;
     _results := _results self; _alpha := _alpha self; _mu := mu;
     _distribution := _distribution self; _parms := _parms self;
     _sample := _sample self |}.

Definition set_klass (self : instance) (k : attrs) : instance :=
  {| klass := k; _data := _data self; _display := _display self;
     _results := _results self; _alpha := _alpha self; _mu := _mu self;
     _distribution := _distribution self; _parms := _parms self;
     _sample := _sample self |}.

Definition set_sample (self : instance) (b : bool) : instance :=
  {| klass := klass self; _data := _data self; _display := _display self;
     _results := _results self; _alpha := _alpha self; _mu := _mu self;
     _distribution := _distribution self; _parms := _parms self;
     _sample := b |}.

Definition set_distribution (self : instance) (d : string) (parms : pyobj) : instance :=
  {| klass := klass self; _data := _data self; _display := _display self;
     _results := _results self; _alpha := _alpha self; _mu := _mu self;
     _distribution := d; _parms := parms; _sample := _sample self |}.

(** 0.05 as Python reads it. *)
Definition default_alpha : float := 0x1.999999999999ap-5%float.

(** *** class Analysis *)

(** [Analysis.__init__(self, data, display)] *)
Definition Analysis___init__ (self : instance) (data : pyobj) (display : bool) : instance :=
  {| klass := klass self; _data := data; _display := display; _results := ∅;
     _alpha := _alpha self; _mu := _mu self;
     _distribution := _distribution self; _parms := _parms self;
     _sample := _sample self |}.

(** [Analysis.logic]: the truth value of the data is looked at and
    dropped, the analysis is run and, on display, [str(self)] calls
    [output] and drops the text. *)
Definition Analysis_logic (m : methods) (self : instance) : M instance :=
  let _ := truthy (_data self) in
  self ← run m self;
  if _display self then _ ← lift (output m self); mret self
  else mret self.

(** *** class Test *)

(** The property [Test.statistic] *)
Definition statistic (self : instance) : result pyobj :=
  try_except (item (_results self) (KStr "statistic")) [KeyError] (Ok (PFloat nan)).

(** The property [Test.p_value] *)
Definition p_value (self : instance) : result pyobj :=
  try_except (item (_results self) (KStr "p_value")) [KeyError] (Ok (PFloat nan)).

Fixpoint Test_data_prep_loop (min_size : Z) (ds clean_list : list pyobj)
  : result (list pyobj) :=
  match ds with
  | [] => Ok clean_list
  | d :: ds' =>
      if negb (is_iterable d) then
        match float_ d with
        | Ok f => Test_data_prep_loop min_size ds' (clean_list ++ [PFloat f])
        | Raise ValueError | Raise TypeError =>
            Test_data_prep_loop min_size ds' clean_list
        | Raise e => Raise e
        end
      else
        v ← (if is_vector d then Ok (drop_nan (values d))
             else drop_nan <$> Vector d);
        if is_empty v || (vlen v <=? min_size)
        then Test_data_prep_loop min_size ds' clean_list
        else Test_data_prep_loop min_size ds' (clean_list ++ [PVector v])
  end.

(** [Test.data_prep(self, data)] *)
Definition Test_data_prep (self : instance) (data : pyobj) : result pyobj :=
  ds ← py_iter data;
  PList <$> Test_data_prep_loop (_min_size (klass self)) ds [].

(** [a + b] on strings. *)
Definition str_add (a b : pyobj) : result pyobj :=
  match a, b with
  | PStr x, PStr y => Ok (PStr (x +:+ y))
  | _, _ => Raise TypeError
  end.

(** ["-" * len(o)] *)
Definition rule (o : pyobj) : result pyobj :=
  n ← len o; Ok (PStr (str_mul "-" n)).

Fixpoint strings_of (l : list pyobj) : result (list string) :=
  match l with
  | [] => Ok []
  | PStr s :: l' => cons s <$> strings_of l'
  | _ :: _ => Raise TypeError
  end.

(** ["\n".join(items)]: every item has to be a string. *)
Definition join (items : list pyobj) : result string :=
  join_lines <$> strings_of items.

(** [name + " = " + "{:.4f}".format(value)] *)
Definition labelled (name : pyobj) (value : result pyobj) : result pyobj :=
  lhs ← str_add name (PStr " = ");
  v ← value;
  s ← format4 v;
  str_add lhs (PStr s).

(** [self._h0 if self.p_value > self._alpha else self._ha] *)
Definition hypothesis (self : instance) : result pyobj :=
  p ← p_value self;
  b ← gt p (_alpha self);
  Ok (PStr (if b : bool then _h0 (klass self) else _ha (klass self))).

(** [Test.output(self)] *)
Definition Test_output (self : instance) : result string :=
  line3 ← rule (_name (klass self));
  line5 ← labelled (_statistic_name (klass self)) (statistic self);
  line6 ← labelled (PStr "p value") (p_value self);
  line8 ← hypothesis self;
  join [PStr " "; _name (klass self); line3; PStr " "; line5; line6;
        PStr " "; line8; PStr " "].

(** [Test.__init__(self, *args, **kwargs)] *)
Definition Test___init__ (m : methods) (self : instance) (args : list pyobj)
  (kw : kwargs) : M instance :=
  let self := set_alpha self (default default_alpha (kw_alpha kw)) in
  data ← lift (if is_group (PList args) then data_prep m self (PList args)
               else match args with
                    | [d] => data_prep m self d
                    | _ => Raise TypeError
                    end);
  n ← lift (len data);
  data ← lift (if n <=? 1
               then try_except (getitem data (PInt 0)) [IndexError] (Ok data)
               else Ok data);
  let self := Analysis___init__ self data (default true (kw_display kw)) in
  Analysis_logic m self.

(** Calling a class: the object is allocated and initialised. *)
Definition new (k : attrs) (args : list pyobj) (init : instance → M instance) : M instance :=
  _ ← emit (EvNew (cls k) args);
  init (alloc k).

Definition call (fn : scipy_fn) (args : list pyobj) : M unit := emit (EvCall fn args).

(** *** class Comparison *)

(** [Comparison.data_prep(self, data)] *)
Definition Comparison_data_prep (self : instance) (data : pyobj) : result pyobj :=
  d0 ← getitem data (PInt 0);
  xdata ← (if is_vector d0 then Ok (values d0) else Vector d0);
  d1 ← getitem data (PInt 1);
  ydata ← (if is_vector d1 then Ok (values d1) else Vector d1);
  let min_size := _min_size (klass self) in
  if negb (vlen xdata =? vlen ydata) then Ok (PList [PVector xdata; PVector ydata])
  else if (vlen xdata <=? min_size) || (vlen xdata <=? min_size)
       then Ok (PList [PVector xdata; PVector ydata])
  else if is_empty xdata || is_empty ydata
       then Ok (PList [PVector xdata; PVector ydata])
  else let '(xdata, ydata) := drop_nan_intersect xdata ydata in
       Ok (PList [PVector xdata; PVector ydata]).

(** The properties [Comparison.xdata] and [Comparison.ydata] *)
Definition xdata (self : instance) : result pyobj := getitem (_data self) (PInt 0).
Definition ydata (self : instance) : result pyobj := getitem (_data self) (PInt 1).

(** A dict display [{k1: v1, ...}]. *)
Definition dict_of (l : list (string * pyobj)) : gmap pykey pyobj :=
  list_to_map (prod_map KStr id <$> l).

(** [self._results.update({...})] *)
Definition results_update (self : instance) (l : list (string * pyobj)) : instance :=
  set_results self (update (_results self) (dict_of l)).

Definition Test_methods (run : instance → M instance)
  (output : instance → result string) : methods :=
  {| data_prep := Test_data_prep; run := run; output := output |}.

Definition Comparison_methods (run : instance → M instance)
  (output : instance → result string) : methods :=
  {| data_prep := Comparison_data_prep; run := run; output := output |}.

(** *** class NormTest *)

Definition NormTest_attrs : attrs :=
  {| cls := "NormTest";
     _name := PStr "Shapiro-Wilk test for normality";
     _statistic_name := PStr "W value";
     _h0 := "H0: Data is normally distributed";
     _ha := "HA: Data is not normally distributed";
     _min_size := 2 |}.

(** [min(l)] on a list of floats: the first entry is kept until a
    later one is [<] it. *)
Definition py_min (l : list float) : result float :=
  match l with
  | [] => Raise ValueError
  | x :: l' => Ok (fold_left (λ cur y, if PrimFloat.ltb y cur then y else cur) l' x)
  end.

(** What [list.index] tests: identity, then [==].  A float is
    identical to itself only; for the value found by [min] in the same
    list this is the case of a not-a-number. *)
Definition same (x y : float) : bool :=
  (PrimFloat.is_nan x && PrimFloat.is_nan y) || PrimFloat.eqb y x.

(** [l.index(x)] *)
Fixpoint index (l : list float) (x : float) : result Z :=
  match l with
  | [] => Raise ValueError
  | y :: l' => if same x y then Ok 0 else Z.succ <$> index l' x
  end.

Fixpoint NormTest_run_loop (ds : list pyobj) (w_value p_value : list float)
  : M (list float * list float) :=
  match ds with
  | [] => mret (w_value, p_value)
  | d :: ds' =>
      _ ← call fn_shapiro [d];
      let '(_w, _p) := shapiro lib d in
      NormTest_run_loop ds' (w_value ++ [_w]) (p_value ++ [_p])
  end.

(** [NormTest.run(self)] *)
Definition NormTest_run (self : instance) : M instance :=
  r ← (if negb (is_group (_data self)) then
         _ ← call fn_shapiro [_data self];
         mret (shapiro lib (_data self))
       else
         ds ← lift (py_iter (_data self));
         wp ← NormTest_run_loop ds [] [];
         min_p ← lift (py_min wp.2);
         i ← lift (index wp.2 min_p);
         w_value ← lift (nth_item wp.1 i);
         mret (w_value, min_p));
  mret (results_update self [("statistic", PFloat r.1); ("p_value", PFloat r.2)]).

Definition NormTest (args : list pyobj) (kw : kwargs) : M instance :=
  new NormTest_attrs args
    (λ self, Test___init__ (Test_methods NormTest_run Test_output) self args kw).

(** *** class KSTest *)

Definition KSTest_attrs : attrs :=
  {| cls := "KSTest";
     _name := PStr "Kolmogorov-Smirnov Test";
     _statistic_name := PStr "D value";
     _h0 := "H0: ";
     _ha := "HA: ";
     _min_size := 2 |}.

(** [KSTest.run(self)] *)
Definition KSTest_run (self : instance) : M instance :=
  let args := [_data self; PStr (_distribution self)] in
  let args := if truthy (_parms self) then args ++ [_parms self] else args in
  _ ← call fn_kstest args;
  let '(d_value, p_value) := kstest lib args in
  mret (results_update self [("statistic", PFloat d_value); ("p_value", PFloat p_value)]).

(** [KSTest.__init__]: the two hypothesis texts become attributes of
    the object. *)
Definition KSTest (data : pyobj) (distribution : string) (parms : pyobj)
  (alpha : float) (display : bool) : M instance :=
  new KSTest_attrs [data; PStr distribution; parms]
    (λ self,
       let self := set_distribution self distribution parms in
       let self := set_klass self
         {| cls := cls (klass self);
            _name := _name (klass self);
            _statistic_name := _statistic_name (klass self);
            _h0 := "H0: Data is matched to the " +:+ distribution +:+ " distribution";
            _ha := "HA: Data is not from the " +:+ distribution +:+ " distribution";
            _min_size := _min_size (klass self) |} in
       Test___init__ (Test_methods KSTest_run Test_output) self [data]
         {| kw_alpha := Some alpha; kw_display := Some display |}).

(** *** class Anova *)

Definition Anova_attrs : attrs :=
  {| cls := "Anova";
     _name := PStr "Oneway ANOVA";
     _statistic_name := PStr "f value";
     _h0 := "H0: Group means are matched";
     _ha := "HA: Group means are not matched";
     _min_size := 2 |}.

(** [Anova.run(self)] *)
Definition Anova_run (self : instance) : M instance :=
  args ← lift (py_iter (_data self));
  _ ← call fn_f_oneway args;
  let '(f_value, p_value) := f_oneway lib args in
  mret (results_update self [("p_value", PFloat p_value); ("f_value", PFloat f_value)]).

(** The property [Anova.f_value] *)
Definition f_value (self : instance) : result pyobj :=
  item (_results self) (KStr "f_value").

Definition Anova (args : list pyobj) (kw : kwargs) : M instance :=
  new Anova_attrs args
    (λ self, Test___init__ (Test_methods Anova_run Test_output) self args kw).

(** *** class Kruskal *)

Definition Kruskal_attrs : attrs :=
  {| cls := "Kruskal";
     _name := PStr "Kruskal-Wallis";
     _statistic_name := PStr "H value";
     _h0 := "H0: Group means are matched";
     _ha := "HA: Group means are not matched";
     _min_size := 2 |}.

(** [Kruskal.run(self)] *)
Definition Kruskal_run (self : instance) : M instance :=
  args ← lift (py_iter (_data self));
  _ ← call fn_kruskal args;
  let '(h_value, p_value) := kruskal lib args in
  mret (results_update self [("p_value", PFloat p_value); ("h_value", PFloat h_value)]).

(** The property [Kruskal.h_value] *)
Definition h_value (self : instance) : result pyobj :=
  item (_results self) (KStr "h_value").

Definition Kruskal (args : list pyobj) (kw : kwargs) : M instance :=
  new Kruskal_attrs args
    (λ self, Test___init__ (Test_methods Kruskal_run Test_output) self args kw).

(** *** class EqualVariance *)

Definition EqualVariance_attrs : attrs :=
  {| cls := "EqualVariance";
     _name := PDict [(KStr "Bartlett", PStr "Bartlett Test");
                     (KStr "Levene", PStr "Levene Test")];
     _statistic_name := PDict [(KStr "Bartlett", PStr "T value");
                               (KStr "Levene", PStr "W value")];
     _h0 := "H0: Variances are equal";
     _ha := "HA: Variances are not equal";
     _min_size := 2 |}.

(** [EqualVariance.run(self)] *)
Definition EqualVariance_run (self : instance) : M instance :=
  n ← lift (len (_data self));
  let _ := n <? _min_size (klass self) in
  args ← lift (py_iter (_data self));
  norm ← NormTest args {| kw_alpha := Some (_alpha self); kw_display := Some false |};
  normal ← lift (p ← p_value norm; gt p (_alpha self));
  if normal : bool then
    _ ← call fn_bartlett args;
    let '(statistic, p_value) := bartlett lib args in
    mret (results_update self [("p_value", PFloat p_value);
                               ("statistic", PFloat statistic);
                               ("test", PStr "Bartlett")])
  else
    _ ← call fn_levene args;
    let '(statistic, p_value) := levene lib args in
    mret (results_update self [("p_value", PFloat p_value);
                               ("statistic", PFloat statistic);
                               ("test", PStr "Levene")]).

(** [EqualVariance.output(self)] *)
Definition EqualVariance_output (self : instance) : result string :=
  test ← item (_results self) (KStr "test");
  line2 ← getitem (_name (klass self)) test;
  test ← item (_results self) (KStr "test");
  name ← getitem (_name (klass self)) test;
  line3 ← rule name;
  test ← item (_results self) (KStr "test");
  sname ← getitem (_statistic_name (klass self)) test;
  line5 ← labelled sname (statistic self);
  line6 ← labelled (PStr "p value") (p_value self);
  line8 ← hypothesis self;
  join [PStr " "; line2; line3; PStr " "; line5; line6; PStr " "; line8; PStr " "].

Definition EqualVariance (args : list pyobj) (kw : kwargs) : M instance :=
  new EqualVariance_attrs args
    (λ self, Test___init__ (Test_methods EqualVariance_run EqualVariance_output)
               self args kw).

(** *** class TTest *)

Definition TTest_attrs : attrs :=
  {| cls := "TTest";
     _name := PDict [(KStr "1_sample", PStr "1 Sample T Test");
                     (KStr "t_test", PStr "T Test");
                     (KStr "welch_t", PStr "Welch's T Test")];
     _statistic_name := PStr "t value";
     _h0 := "H0: Means are matched";
     _ha := "HA: Means are significantly different";
     _min_size := 2 |}.

(** [TTest.run(self)] *)
Definition TTest_run (self : instance) : M instance :=
  r ← (if truthy (_mu self) then
         _ ← call fn_ttest_1samp [_data self; _mu self];
         mret (ttest_1samp lib (_data self) (_mu self), "1_sample")
       else
         args ← lift (py_iter (_data self));
         ev ← EqualVariance args
                {| kw_alpha := Some (_alpha self); kw_display := Some false |};
         equal ← lift (p ← p_value ev; gt p (_alpha self));
         if equal : bool then
           args ← lift (py_iter (_data self));
           _ ← call (fn_ttest_ind true) args;
           mret (ttest_ind lib args true, "t_test")
         else
           args ← lift (py_iter (_data self));
           _ ← call (fn_ttest_ind false) args;
           mret (ttest_ind lib args false, "welch_t"));
  let '(t, p, test) := r in
  mret (results_update self [("p_value", PFloat p); ("t_value", PFloat t);
                             ("test", PStr test)]).

(** [TTest.output(self)] *)
Definition TTest_output (self : instance) : result string :=
  test ← item (_results self) (KStr "test");
  line2 ← getitem (_name (klass self)) test;
  test ← item (_results self) (KStr "test");
  name ← getitem (_name (klass self)) test;
  line3 ← rule name;
  test ← item (_results self) (KStr "test");
  sname ← getitem (_statistic_name (klass self)) test;
  line5 ← labelled sname (item (_results self) (KStr "t_value"));
  line6 ← labelled (PStr "p value") (p_value self);
  line8 ← hypothesis self;
  join [PStr " "; line2; line3; PStr " "; line5; line6; PStr " "; line8; PStr " "].

(** [TTest.__init__(self, xdata, ydata, alpha, display)] *)
Definition TTest___init__ (self : instance) (xdata ydata : pyobj)
  (alpha : float) (display : bool) : M instance :=
  let self := set_mu self PNone in
  if negb (is_iterable ydata) then
    mu ← lift (float_ ydata);
    let self := set_mu self (PFloat mu) in
    Test___init__ (Test_methods TTest_run TTest_output) self [xdata]
      {| kw_alpha := Some alpha; kw_display := Some display |}
  else
    Test___init__ (Test_methods TTest_run TTest_output) self [xdata]
      {| kw_alpha := Some alpha; kw_display := Some display |}.

Definition TTest (xdata ydata : pyobj) (alpha : float) (display : bool) : M instance :=
  new TTest_attrs [xdata; ydata]
    (λ self, TTest___init__ self xdata ydata alpha display).

(** *** class LinearRegression *)

Definition LinearRegression_attrs : attrs :=
  {| cls := "LinearRegression";
     _name := PStr "Linear Regression";
     _statistic_name := PStr "test";
     _h0 := "H0: There is no significant relationship between predictor and response";
     _ha := "HA: There is a significant relationship between predictor and response";
     _min_size := 3 |}.

(** [LinearRegression.run(self)] *)
Definition LinearRegression_run (self : instance) : M instance :=
  x1 ← lift (xdata self);
  x2 ← lift (xdata self);
  _ ← call fn_linregress [x1; x2];
  let '(slope, intercept, r2, p_value, std_err) := linregress lib x1 x2 in
  x ← lift (xdata self);
  count ← lift (len x);
  mret (results_update self [("count", PInt count);
                             ("slope", PFloat slope);
                             ("intercept", PFloat intercept);
                             ("r2", PFloat r2);
                             ("std_err", PFloat std_err);
                             ("p_value", PFloat p_value)]).

(** ["label" + "{:.4f}".format(self.results[key])] *)
Definition field4 (self : instance) (label : string) (key : string) : result pyobj :=
  v ← item (_results self) (KStr key);
  s ← format4 v;
  Ok (PStr (label +:+ s)).

(** [LinearRegression.output(self)] *)
Definition LinearRegression_output (self : instance) : result string :=
  line3 ← rule (_name (klass self));
  count ← item (_results self) (KStr "count");
  count ← str count;
  line6 ← field4 self "slope     = " "slope";
  line7 ← field4 self "intercept = " "intercept";
  line8 ← field4 self "R^2       = " "r2";
  line9 ← field4 self "std err   = " "std_err";
  line10 ← field4 self "p value   = " "p_value";
  line12 ← hypothesis self;
  join [PStr " "; _name (klass self); line3; PStr " ";
        PStr ("count     = " +:+ count);
        line6; line7; line8; line9; line10; PStr " "; line12; PStr " "].

Definition LinearRegression (args : list pyobj) (kw : kwargs) : M instance :=
  new LinearRegression_attrs args
    (λ self, Test___init__
               (Comparison_methods LinearRegression_run LinearRegression_output)
               self args kw).

(** *** class Correlation *)

Definition Correlation_attrs : attrs :=
  {| cls := "Correlation";
     _name := PStr "Correlation";
     _statistic_name := PStr "r value";
     _h0 := "H0: There is no significant relationship between predictor and response";
     _ha := "HA: There is a significant relationship between predictor and response";
     _min_size := 3 |}.

(** [numpy.concatenate(arrays)]: a new array, not a Vector. *)
Definition concatenate (arrays : list pyobj) : result pyobj :=
  (λ ls, PList (concat ls)) <$> mapM py_iter arrays.

(** [Correlation.run(self)] *)
Definition Correlation_run (self : instance) : M instance :=
  x ← lift (xdata self);
  y ← lift (ydata self);
  both ← lift (concatenate [x; y]);
  norm ← NormTest [both] {| kw_alpha := Some (_alpha self); kw_display := Some false |};
  normal ← lift (p ← p_value norm; gt p (_alpha self));
  x ← lift (xdata self);
  y ← lift (ydata self);
  if normal : bool then
    _ ← call fn_pearsonr [x; y];
    let '(r_value, p_value) := pearsonr lib x y in
    mret (results_update self [("r_value", PFloat r_value); ("p_value", PFloat p_value);
                               ("type", PStr "pearson")])
  else
    _ ← call fn_spearmanr [x; y];
    let '(r_value, p_value) := spearmanr lib x y in
    mret (results_update self [("r_value", PFloat r_value); ("p_value", PFloat p_value);
                               ("type", PStr "spearman")]).

Definition str_eq (o : pyobj) (s : string) : bool :=
  match o with
  | PStr s' => String.eqb s' s
  | _ => false
  end.

(** [Correlation.output(self)] *)
Definition Correlation_output (self : instance) : result string :=
  line3 ← rule (_name (klass self));
  type ← item (_results self) (KStr "type");
  line6 ← field4 self "r value = " "r_value";
  line7 ← field4 self "p value = " "p_value";
  line9 ← hypothesis self;
  join [PStr " "; _name (klass self); line3; PStr " ";
        PStr (if str_eq type "pearson" then "Pearson Coeff: " else "Spearman Coeff: ");
        line6; line7; PStr " "; line9; PStr " "].

Definition Correlation (args : list pyobj) (kw : kwargs) : M instance :=
  new Correlation_attrs args
    (λ self, Test___init__ (Comparison_methods Correlation_run Correlation_output)
               self args kw).

(** *** class VectorStatistics *)

Definition VectorStatistics_attrs : attrs :=
  {| cls := "VectorStatistics";
     _name := PStr "Statistics";
     _statistic_name := PNone;
     _h0 := "";
     _ha := "";
     _min_size := 2 |}.

(** [VectorStatistics.data_prep(self, data)] *)
Definition VectorStatistics_data_prep (self : instance) (data : pyobj) : result pyobj :=
  v ← (if is_vector data then Ok (drop_nan (values data))
       else drop_nan <$> Vector data);
  Ok (if is_empty v || (vlen v <? _min_size (klass self)) then PNone else PVector v).

(** [VectorStatistics.run(self)] *)
Definition VectorStatistics_run (self : instance) : M instance :=
  let dof := if _sample self then 1 else 0 in
  count ← lift (len (_data self));
  let d := _data self in
  let vmin := amin np d in
  let vmax := amax np d in
  let q1 := percentile np d 25 in
  let q3 := percentile np d 75 in
  mret (set_results self (dict_of
    [("count", PInt count);
     ("mean", PFloat (mean np d));
     ("std", PFloat (std np d dof));
     ("error", PFloat (sem lib d 0 dof));
     ("median", PFloat (median np d));
     ("min", PFloat vmin);
     ("max", PFloat vmax);
     ("range", PFloat (PrimFloat.sub vmax vmin));
     ("skew", PFloat (skew lib d));
     ("kurtosis", PFloat (kurtosis lib d));
     ("q1", PFloat q1);
     ("q3", PFloat q3);
     ("iqr", PFloat (PrimFloat.sub q3 q1))])).

(** [VectorStatistics.output(self)] *)
Definition VectorStatistics_output (self : instance) : result string :=
  line3 ← rule (_name (klass self));
  count ← item (_results self) (KStr "count");
  count ← str count;
  l6 ← field4 self "Mean      = " "mean";
  l7 ← field4 self "Std Dev   = " "std";
  l8 ← field4 self "Std Error = " "error";
  l9 ← field4 self "Skewness  = " "skew";
  l10 ← field4 self "Kurtosis  = " "kurtosis";
  l11 ← field4 self "Max       = " "max";
  l12 ← field4 self "75%       = " "q3";
  l13 ← field4 self "50%       = " "median";
  l14 ← field4 self "25%       = " "q1";
  l15 ← field4 self "Min       = " "min";
  l16 ← field4 self "IQR       = " "iqr";
  l17 ← field4 self "Range     = " "range";
  join [PStr " "; _name (klass self); line3; PStr " ";
        PStr ("Count     = " +:+ count);
        l6; l7; l8; l9; l10; l11; l12; l13; l14; l15; l16; l17].

(** [VectorStatistics.__init__(self, data, sample, display)] *)
Definition VectorStatistics (data : pyobj) (sample display : bool) : M instance :=
  new VectorStatistics_attrs [data]
    (λ self,
       let self := set_sample self sample in
       d ← lift (VectorStatistics_data_prep self data);
       let self := Analysis___init__ self d display in
       Analysis_logic {| data_prep := VectorStatistics_data_prep;
                         run := VectorStatistics_run;
                         output := VectorStatistics_output |} self).

(** *** class GroupStatistics *)

(** An instance of [GroupStatistics]: its data is a dict of vectors
    and its results a list of rows. *)
Record group_statistics := {
  gs_data : list (pykey * pyobj);
  gs_display : bool;
  gs_results : list (gmap pykey pyobj)
}.

Definition GroupStatistics_min_size : Z := 1.
Definition GroupStatistics_name : string := "Group Statistics".

(** [d.update({k: v})] on a dict in insertion order: a known key keeps
    its place. *)
Fixpoint dict_set (d : list (pykey * pyobj)) (k : pykey) (v : pyobj)
  : list (pykey * pyobj) :=
  match d with
  | [] => [(k, v)]
  | (k', v') :: d' => if decide (k = k') then (k, v) :: d'
                      else (k', v') :: dict_set d' k v
  end.

(** [dict(zip(keys, values))] *)
Definition dict_zip (keys : list pykey) (vals : list pyobj) : list (pykey * pyobj) :=
  fold_left (λ d kv, dict_set d kv.1 kv.2) (zip keys vals) [].

(** The loop of [GroupStatistics.data_prep]; [v] is the local variable
    of that name, [None] as long as it is unbound. *)
Fixpoint GroupStatistics_data_prep_loop (items : list (pykey * pyobj))
  (v : option (list float)) (clean_data : list (pykey * pyobj))
  : result (list (pykey * pyobj)) :=
  match items with
  | [] => Ok clean_data
  | (i, d) :: items' =>
      n ← len d;
      if n =? 0 then GroupStatistics_data_prep_loop items' v clean_data
      else
        v ← (if negb (is_vector d) then Some <$> Vector d else Ok v);
        match v with
        | None => Raise UnboundLocalError
        | Some vec =>
            if vlen vec <? GroupStatistics_min_size
            then GroupStatistics_data_prep_loop items' v clean_data
            else GroupStatistics_data_prep_loop items' v
                   (dict_set clean_data i (PVector (drop_nan vec)))
        end
  end.

(** [GroupStatistics.data_prep(self, data)] *)
Definition GroupStatistics_data_prep (data : list (pykey * pyobj))
  : result (list (pykey * pyobj)) :=
  GroupStatistics_data_prep_loop data None [].

(** [GroupStatistics.run(self)] *)
Definition GroupStatistics_run (self : group_statistics) : result group_statistics :=
  rows ← mapM (λ gv : pykey * pyobj,
                 count ← len gv.2;
                 Ok (dict_of [("group", key_obj gv.1);
                              ("count", PInt count);
                              ("mean", PFloat (mean np gv.2));
                              ("std", PFloat (std np gv.2 1));
                              ("max", PFloat (amax np gv.2));
                              ("median", PFloat (median np gv.2));
                              ("min", PFloat (amin np gv.2))]))
              (gs_data self);
  Ok {| gs_data := gs_data self; gs_display := gs_display self;
        gs_results := gs_results self ++ rows |}.

(** [spacing.format(o)] with [spacing = "{:.5f}"] *)
Definition format5 (o : pyobj) : result string :=
  match o with
  | PFloat f => Ok (format_5f py f)
  | PInt z => Ok (format_5f py (float_of_Z z))
  | PStr _ => Raise ValueError
  | _ => Raise TypeError
  end.

Definition pad (s : string) (width : Z) : string :=
  s +:+ str_mul " " (width - Z.of_nat (String.length s)).

(** [stats[i + 1][0] == "-"], for the cells after the current one. *)
Definition next_is_minus (rest : list string) : result bool :=
  match rest with
  | [] => Raise IndexError
  | EmptyString :: _ => Raise IndexError
  | String c _ :: _ => Ok (String.eqb (String c EmptyString) "-")
  end.

(** The cells of one row; [offset] and [shift] live across rows. *)
Fixpoint GroupStatistics_output_cells (size : Z) (stats : list string)
  (line : string) (offset : Z) (shift : bool) : string * Z * bool :=
  match stats with
  | [] => (line, offset, shift)
  | s :: rest =>
      let '(offset, shift) :=
        if (offset =? 1) || shift then (-1, false) else (0, shift) in
      let '(offset, shift) :=
        match next_is_minus rest with
        | Ok true => if offset =? -1 then (0, true) else (1, shift)
        | _ => (offset, shift)
        end in
      GroupStatistics_output_cells size rest
        (line +:+ pad s (size - offset)) offset shift
  end.

Fixpoint GroupStatistics_output_rows (size : Z) (results : list (gmap pykey pyobj))
  (rows : list string) (offset : Z) (shift : bool) : result (list string) :=
  match results with
  | [] => Ok rows
  | v :: results' =>
      c ← item v (KStr "count"); c ← str c;
      m ← item v (KStr "mean"); m ← format5 m;
      sd ← item v (KStr "std"); sd ← format5 sd;
      lo ← item v (KStr "min"); lo ← format5 lo;
      q2 ← item v (KStr "median"); q2 ← format5 q2;
      hi ← item v (KStr "max"); hi ← format5 hi;
      g ← item v (KStr "group"); g ← str g;
      let '(line, offset, shift) :=
        GroupStatistics_output_cells size [c; m; sd; lo; q2; hi; g] "" offset shift in
      GroupStatistics_output_rows size results' (rows ++ [line]) offset shift
  end.

(** [GroupStatistics.output(self)] *)
Definition GroupStatistics_output (self : group_statistics) : result string :=
  let size := 12 in
  let labels := ["Count"; "Mean"; "Std."; "Min"; "Q2"; "Max"; "Group"] in
  let header := fold_left (λ header s, header +:+ pad s size) labels "" in
  rows ← GroupStatistics_output_rows size (gs_results self) [] 0 false;
  Ok (join_lines [" "; GroupStatistics_name; " "; header;
                  str_mul "-" (Z.of_nat (String.length header));
                  join_lines rows; " "]).

(** [GroupStatistics.logic(self)] *)
Definition GroupStatistics_logic (self : group_statistics) : result group_statistics :=
  let self := {| gs_data := gs_data self; gs_display := gs_display self;
                 gs_results := [] |} in
  self ← GroupStatistics_run self;
  if gs_display self then _ ← GroupStatistics_output self; Ok self
  else Ok self.

(** [GroupStatistics.__init__(self, data, groups, display)]; [groups]
    is [None] or a list of labels. *)
Definition GroupStatistics (data : pyobj) (groups : option (list pykey))
  (display : bool) : M group_statistics :=
  _ ← emit (EvNew "GroupStatistics" [data]);
  lift (
    data ← (match data with
            | PDict d => Ok d
            | _ =>
                match groups with
                | Some ((_ :: _) as groups) =>
                    vals ← py_iter data; Ok (dict_zip groups vals)
                | _ =>
                    n ← len data;
                    vals ← py_iter data;
                    Ok (dict_zip (KInt <$> seqZ 1 n) vals)
                end
            end);
    clean ← GroupStatistics_data_prep data;
    GroupStatistics_logic {| gs_data := clean; gs_display := display;
                             gs_results := [] |}).

(** ** analyze *)

(** The truth value of an optional label: [None] and [""] are false. *)
Definition given (o : option string) : bool :=
  match o with
  | Some s => negb (String.eqb s "")
  | None => false
  end.

Definition label_obj (o : option string) : pyobj :=
  match o with Some s => PStr s | None => PNone end.

Definition groups_obj (o : option (list pykey)) : pyobj :=
  match o with Some l => PList (key_obj <$> l) | None => PNone end.

Definition no_kwargs : kwargs := {| kw_alpha := None; kw_display := None |}.

(** [analyze(xdata, ydata, groups, name, xname, yname, alpha,
    categories)]; the result is [None] unless no branch applies, and
    then the pair [(xdata, ydata)]. *)
Definition analyze (xdata ydata : pyobj) (groups : option (list pykey))
  (name xname yname : option string) (alpha : float) (categories : string)
  : M (option (pyobj * pyobj)) :=
  if is_group xdata || is_dict_group xdata then
    let '(groups, xdata) :=
      match xdata with
      | PDict d => (Some (fst <$> d), PList (snd <$> d))
      | _ => (groups, xdata)
      end in
    let yname := if given yname then yname
                 else if given name then name
                 else Some "Values" in
    let label := if given xname then xname else Some categories in
    _ ← emit (EvGraph "GraphBoxplot" [xdata; groups_obj groups; label_obj label;
                                      label_obj yname]);
    _ ← GroupStatistics xdata groups true;
    args ← lift (py_iter xdata);
    ev ← EqualVariance args no_kwargs;
    p ← lift (item (_results ev) (KInt 0));
    args ← lift (py_iter xdata);
    norm ← NormTest args {| kw_alpha := Some alpha; kw_display := Some false |};
    n ← lift (item (_results norm) (KInt 0));
    normal ← lift (gt n alpha);
    parametric ← (if normal : bool then lift (gt p alpha) else mret false);
    if parametric : bool then
      n ← lift (len xdata);
      if n =? 2 then
        x0 ← lift (getitem xdata (PInt 0));
        x1 ← lift (getitem xdata (PInt 1));
        _ ← TTest x0 x1 default_alpha true;
        mret None
      else
        args ← lift (py_iter xdata);
        _ ← Anova args no_kwargs;
        mret None
    else
      n ← lift (len xdata);
      if n =? 2 then
        x0 ← lift (getitem xdata (PInt 0));
        x1 ← lift (getitem xdata (PInt 1));
        _ ← TTest x0 x1 default_alpha true;
        mret None
      else
        args ← lift (py_iter xdata);
        _ ← Kruskal args no_kwargs;
        mret None
  else if is_iterable xdata && is_iterable ydata then
    let label := if given xname then xname else Some "Predictor" in
    let yname := if given yname then yname
                 else if given name then name
                 else Some "Response" in
    xdata ← lift (if negb (is_vector xdata) then PVector <$> Vector xdata
                  else Ok xdata);
    ydata ← lift (if negb (is_vector ydata) then PVector <$> Vector ydata
                  else Ok ydata);
    _ ← emit (EvGraph "GraphScatter" [xdata; ydata; label_obj label; label_obj yname]);
    _ ← LinearRegression [xdata; ydata] no_kwargs;
    _ ← Correlation [xdata; ydata] no_kwargs;
    mret None
  else if is_iterable xdata then
    let label := if given name then name
                 else if given xname then xname
                 else Some "Data" in
    xdata ← lift (if negb (is_vector xdata) then PVector <$> Vector xdata
                  else Ok xdata);
    _ ← emit (EvGraph "GraphHisto" [xdata; label_obj label]);
    _ ← VectorStatistics xdata true true;
    _ ← NormTest [xdata] {| kw_alpha := Some alpha; kw_display := None |};
    mret None
  else mret (Some (xdata, ydata)).

End Embedding.

(** ** Collaborators for the examples *)

(** Built-ins that read no string as a number and print every float
    as its sign. *)
Definition sign_text (f : float) : string :=
  if PrimFloat.ltb f PrimFloat.zero then "-" else "+".

Definition plain_builtins : builtins :=
  {| float_of_str := λ _, None;
     format_4f := sign_text;
     format_5f := sign_text;
     str_of_float := sign_text |}.

(** The first and the second number held by an object. *)
Definition entry (n : nat) (o : pyobj) : float :=
  match o with
  | PVector v => default nan (v !! n)
  | PList l => match l !! n with Some (PFloat f) => f | _ => nan end
  | PFloat f => f
  | _ => nan
  end.

(** A numeric library that reads its answer off the data: the
    statistic is the second entry of the first sample and the p-value
    its first entry; the regression reports entries of both samples. *)
Definition probe (args : list pyobj) : float * float :=
  match args with
  | [] => (nan, nan)
  | d :: _ => (entry 1 d, entry 0 d)
  end.

Definition probe_stats : scipy_stats :=
  {| shapiro := λ d, probe [d];
     kstest := probe;
     ttest_1samp := λ d _, probe [d];
     ttest_ind := λ args _, probe args;
     linregress := λ x y, (entry 0 y, entry 1 y, entry 2 y, entry 0 x, entry 1 x);
     pearsonr := λ x y, probe [x; y];
     spearmanr := λ x y, probe [x; y];
     f_oneway := probe;
     kruskal := probe;
     bartlett := probe;
     levene := probe;
     skew := entry 0;
     kurtosis := entry 0;
     sem := λ d _ _, entry 0 d |}.

Definition probe_numpy : numpy :=
  {| mean := entry 0;
     std := λ d _, entry 0 d;
     median := entry 0;
     amin := entry 0;
     amax := entry 0;
     percentile := λ d _, entry 0 d |}.

(** A sample written as a list of floats. *)
Definition sample (l : list float) : pyobj := PList (PFloat <$> l).

(** * Vocabulary of the properties *)

(** ** Traces *)

Definition shapiro_calls (ds : list pyobj) : trace := (λ d, EvCall fn_shapiro [d]) <$> ds.

(** [emits P Q m]: whatever the trace before, [m] only appends events
    that satisfy [P], and a value it returns satisfies [Q]. *)
Definition emits {A} (P : event → Prop) (Q : A → Prop) (m : M A) : Prop :=
  ∀ t, ∃ r es, m t = (r, t ++ es) ∧ Forall P es ∧ ∀ a, r = Ok a → Q a.

Definition NormTest_event (e : event) : Prop :=
  match e with
  | EvNew c _ => c = "NormTest"
  | EvCall fn _ => fn = fn_shapiro
  | EvGraph _ _ => False
  end.

Definition NormTest_results (obj : instance) : Prop :=
  ∃ w p, _results obj = dict_of [("statistic", PFloat w); ("p_value", PFloat p)].

(** The calls to one of the two equal-variance routines. *)
Definition variance_call (e : event) : bool :=
  match e with
  | EvCall fn_bartlett _ | EvCall fn_levene _ => true
  | _ => false
  end.

(** The constructions the group branch is meant to end in. *)
Definition dispatch (e : event) : bool :=
  match e with
  | EvNew c _ => bool_decide (c ∈ ["TTest"; "Anova"; "Kruskal"])
  | _ => false
  end.

Definition quiet (e : event) : Prop := dispatch e = false.

Definition string_keys (obj : instance) : Prop :=
  ∀ z, _results obj !! KInt z = None.

(** ** Cleaning and regression *)

(** The vector [Comparison.data_prep] makes of one of its two inputs. *)
Definition as_vector py (d : pyobj) : result (list float) :=
  if is_vector d then Ok (values d) else Vector py d.

Definition LinearRegression_results lib (x : pyobj) (count : Z) : gmap pykey pyobj :=
  let '(slope, intercept, r2, p_value, std_err) := linregress lib x x in
  dict_of [("count", PInt count); ("slope", PFloat slope);
           ("intercept", PFloat intercept); ("r2", PFloat r2);
           ("std_err", PFloat std_err); ("p_value", PFloat p_value)].

(** ** The hypothesis tests *)

Inductive hypothesis_test :=
| HNormTest
| HKSTest
| HEqualVariance
| HTTest
| HAnova
| HKruskal.

(** The [run] method of each. *)
Definition run_of py lib (c : hypothesis_test) : instance → M instance :=
  match c with
  | HNormTest => NormTest_run lib
  | HKSTest => KSTest_run lib
  | HEqualVariance => EqualVariance_run py lib
  | HTTest => TTest_run py lib
  | HAnova => Anova_run lib
  | HKruskal => Kruskal_run lib
  end.

(** The key under which each stores its statistic. *)
Definition statistic_key (c : hypothesis_test) : string :=
  match c with
  | HNormTest | HKSTest | HEqualVariance => "statistic"
  | HTTest => "t_value"
  | HAnova => "f_value"
  | HKruskal => "h_value"
  end.

(** ** Group mappings *)

(** A member that has a length, as a sample does. *)
Definition sized (d : pyobj) : Prop := ∃ n, len d = Ok n.

Definition nonempty (d : pyobj) : bool :=
  match len d with
  | Ok n => negb (n =? 0)
  | Raise _ => false
  end.

(** The most recent member of [pre] that is not empty and not a Vector. *)
Definition last_raw (pre : list (pykey * pyobj)) : option pyobj :=
  last (filter (λ d, nonempty d && negb (is_vector d)) (snd <$> pre)).

(** The most recent member of [pre] that is not a Vector, empty or not. *)
Definition last_non_vector (pre : list (pykey * pyobj)) : option pyobj :=
  last (filter (λ d, negb (is_vector d)) (snd <$> pre)).

(** The first member that is not empty. *)
Definition first_nonempty (data : list (pykey * pyobj)) : option pyobj :=
  head (filter (λ d, nonempty d) (snd <$> data)).

(** ** Data of the examples *)

Definition kw_quiet : kwargs := {| kw_alpha := None; kw_display := Some false |}.

(** Three samples; with [probe_stats] the first entry of a sample is
    its p-value and the second its statistic. *)
Definition sample_a : list float := [0.5; 2; 3; 4]%float.
Definition sample_b : list float := [0.015625; 7; 3; 4]%float.
Definition sample_c : list float := [0.25; 1; 8; 2; 6]%float.

Definition three_groups : pyobj :=
  PList [sample sample_a; sample sample_b; sample sample_c].

(** An object as [Test.__init__] leaves it before [run]. *)
Definition before_run (k : attrs) (data : pyobj) : instance :=
  Analysis___init__ (set_alpha (alloc k) default_alpha) data false.

Definition two_vectors : pyobj := PList [PVector sample_a; PVector sample_b].

(** A NormTest object whose run has stored the p-value [p]. *)
Definition reported (p : float) : instance :=
  set_results (before_run NormTest_attrs (PVector sample_a))
    (dict_of [("statistic", PFloat 2); ("p_value", PFloat p)]).

(** A group mapping with an empty member before a Vector member. *)
Definition stale_group : list (pykey * pyobj) :=
  [(KStr "a", sample [1; 2]%float); (KStr "b", sample []);
   (KStr "c", PVector [5%float])].

Definition one_to_five : list float := [1; 2; 3; 4; 5]%float.
Definition five : pyobj := sample one_to_five.
Definition six : pyobj := sample (one_to_five ++ [100%float]).

(** ** Vocabulary of the further properties *)

(** *** Cleaned data *)

(** The objects on which the embedding of [float] is Python's: all but
    the integers whose nearest float is an infinity, where Python
    raises OverflowError. *)
Definition convertible (o : pyobj) : Prop :=
  match o with
  | PInt z => PrimFloat.is_infinity (float_of_Z z) = false
  | _ => True
  end.

(** What [Test.__init__] stores as data when it is given one sample
    whose entries are [v]: the cleaned vector, or the empty list when
    the sample does not survive the cleaning. *)
Definition cleaned (min_size : Z) (v : list float) : pyobj :=
  if is_empty (drop_nan v) || (vlen (drop_nan v) <=? min_size)
  then PList [] else PVector (drop_nan v).

(** An entry of a cleaned list: a number, or a Vector with more than
    [min_size] entries, none of them not-a-number. *)
Definition clean_entry (min_size : Z) (o : pyobj) : Prop :=
  match o with
  | PFloat _ => True
  | PVector v => v ≠ [] ∧ min_size < vlen v
                 ∧ Forall (λ f, PrimFloat.is_nan f = false) v
  | _ => False
  end.

(** What [Comparison.data_prep] returns for the two vectors [vx] and
    [vy]: the pair as it is when a guard applies, and the pair cleaned
    of the positions where either holds not-a-number otherwise. *)
Definition paired (min_size : Z) (vx vy : list float) : list float * list float :=
  if negb (vlen vx =? vlen vy) then (vx, vy)
  else if (vlen vx <=? min_size) || (vlen vx <=? min_size) then (vx, vy)
  else if is_empty vx || is_empty vy then (vx, vy)
  else drop_nan_intersect vx vy.

(** *** The table of GroupStatistics *)

(** The list [stats] that [GroupStatistics.output] makes of a row: the
    texts of its seven cells. *)
Definition stats_of py (v : gmap pykey pyobj) : result (list string) :=
  c ← item v (KStr "count"); c ← str py c;
  m ← item v (KStr "mean"); m ← format5 py m;
  sd ← item v (KStr "std"); sd ← format5 py sd;
  lo ← item v (KStr "min"); lo ← format5 py lo;
  q2 ← item v (KStr "median"); q2 ← format5 py q2;
  hi ← item v (KStr "max"); hi ← format5 py hi;
  g ← item v (KStr "group"); g ← str py g;
  Ok [c; m; sd; lo; q2; hi; g].

(** The column the next cell has lost to a minus sign: 1 when the
    cell before was made one column narrower and the column has not
    been given back. *)
Definition debt (offset : Z) (shift : bool) : Z :=
  if (offset =? 1) || shift then 1 else 0.

(** The header of the table. *)
Definition table_header : string :=
  "Count       Mean        Std.        Min         Q2          Max         Group       ".

(** The row [GroupStatistics.run] stores for the vector [v] under the
    label [g]. *)
Definition group_row np (g : pykey) (v : list float) : gmap pykey pyobj :=
  dict_of [("group", key_obj g);
           ("count", PInt (vlen v));
           ("mean", PFloat (mean np (PVector v)));
           ("std", PFloat (std np (PVector v) 1));
           ("max", PFloat (amax np (PVector v)));
           ("median", PFloat (median np (PVector v)));
           ("min", PFloat (amin np (PVector v)))].

(** The labels [1, 2, ..., n] that [GroupStatistics.__init__] gives to
    [n] members without labels. *)
Definition numbered (n : nat) : list pykey := KInt <$> seqZ 1 (Z.of_nat n).

(** The labels [GroupStatistics.__init__] gives to [n] members: the
    ones given, unless there is none. *)
Definition labels_of (groups : option (list pykey)) (n : nat) : list pykey :=
  match groups with
  | Some (g :: gs) => g :: gs
  | _ => numbered n
  end.

(** A table of one row with negative cells, two of them side by
    side. *)
Definition one_row : group_statistics :=
  {| gs_data := []; gs_display := true;
     gs_results := [dict_of [("group", PStr "a"); ("count", PInt 3);
                             ("mean", PFloat (-1)); ("std", PFloat 1);
                             ("max", PFloat 2); ("median", PFloat (-1));
                             ("min", PFloat (-2))]] |}.

(** A LinearRegression object after its run. *)
Definition regressed : instance :=
  set_results (before_run LinearRegression_attrs two_vectors)
    (LinearRegression_results probe_stats (PVector sample_a) 4).

(** * Properties *)

(** ** The effect monad *)

Section Monad_facts.
Context {A B : Type}.

Lemma bind_ok (m : M A) (k : A → M B) t a t' :
  m t = (Ok a, t') → (m ≫= k) t = k a t'.
Proof. intros H. unfold mbind, M_bind. by rewrite H. Qed.

Lemma bind_raise (m : M A) (k : A → M B) t e t' :
  m t = (Raise e, t') → (m ≫= k) t = (Raise e, t').
Proof. intros H. unfold mbind, M_bind. by rewrite H. Qed.

Lemma bind_inv (m : M A) (k : A → M B) t b t2 :
  (m ≫= k) t = (Ok b, t2) → ∃ a t1, m t = (Ok a, t1) ∧ k a t1 = (Ok b, t2).
Proof.
  unfold mbind, M_bind. destruct (m t) as [[a|e] t1]; [eauto | discriminate].
Qed.
End Monad_facts.

Lemma result_bind_inv {A B} (r : result A) (k : A → result B) b :
  r ≫= k = Ok b → ∃ a, r = Ok a ∧ k a = Ok b.
Proof. destruct r; simpl; [eauto | discriminate]. Qed.

(** Inversion of a successful computation in [result]. *)
Ltac inv_result H :=
  repeat match type of H with
         | (_ ≫= _) = Ok _ =>
             let a := fresh "a" in
             let Ha := fresh "Ha" in
             apply result_bind_inv in H as (a & Ha & H)
         end.

(** Inversion of a successful computation in [M]. *)
Ltac inv_M H :=
  repeat match type of H with
         | (_ ≫= _) _ = (Ok _, _) =>
             let a := fresh "a" in
             let t := fresh "t" in
             let Ha := fresh "Ha" in
             apply bind_inv in H as (a & t & Ha & H)
         end.

Section Run_facts.
Context {A B : Type}.

Lemma bind_lift (r : result A) (k : A → M B) t :
  (lift r ≫= k) t = match r with Ok a => k a t | Raise e => (Raise e, t) end.
Proof. unfold mbind, M_bind, lift. by destruct r. Qed.

Lemma bind_mret (a : A) (k : A → M B) t : (mret a ≫= k) t = k a t.
Proof. done. Qed.

Lemma bind_emit (e : event) (k : unit → M B) t : (emit e ≫= k) t = k tt (t ++ [e]).
Proof. done. Qed.

Lemma bind_call fn args (k : unit → M B) t :
  (call fn args ≫= k) t = k tt (t ++ [EvCall fn args]).
Proof. done. Qed.

Lemma bind_assoc {C} (m : M A) (f : A → M B) (g : B → M C) t :
  ((m ≫= f) ≫= g) t = (m ≫= λ a, f a ≫= g) t.
Proof. unfold mbind, M_bind. by destruct (m t) as [[]]. Qed.
End Run_facts.

Ltac mstep :=
  first [ rewrite bind_assoc | rewrite bind_lift | rewrite bind_emit
        | rewrite bind_call | rewrite bind_mret ]; cbv beta.

(** ** What a computation adds to the trace *)

Section Emits.
Context {A B : Type} (P : event → Prop).

Lemma emits_mret (Q : A → Prop) a : Q a → emits P Q (mret a).
Proof.
  intros HQ t. exists (Ok a), []. rewrite app_nil_r.
  repeat split; [constructor|]. by intros ? [= <-].
Qed.

Lemma emits_lift (Q : A → Prop) (r : result A) :
  (∀ a, r = Ok a → Q a) → emits P Q (lift r).
Proof.
  intros HQ t. exists r, []. rewrite app_nil_r. repeat split; [constructor|done].
Qed.

Lemma emits_emit (Q : unit → Prop) e : P e → Q tt → emits P Q (emit e).
Proof.
  intros HP HQ t. exists (Ok tt), [e]. repeat split; [by repeat constructor|].
  by intros [] _.
Qed.

Lemma emits_bind (Q : A → Prop) (R : B → Prop) (m : M A) (k : A → M B) :
  emits P Q m → (∀ a, Q a → emits P R (k a)) → emits P R (m ≫= k).
Proof.
  intros Hm Hk t. destruct (Hm t) as (r & es & Hr & Hes & HQ).
  destruct r as [a|e].
  - destruct (Hk a (HQ a eq_refl) (t ++ es)) as (r' & es' & Hr' & Hes' & HR).
    exists r', (es ++ es'). rewrite (bind_ok _ _ _ _ _ Hr), Hr', app_assoc.
    repeat split; [by apply Forall_app|done].
  - exists (Raise e), es. rewrite (bind_raise _ _ _ _ _ Hr).
    repeat split; [done|]. intros ? [=].
Qed.

Lemma emits_weaken (Q Q' : A → Prop) (m : M A) :
  emits P Q m → (∀ a, Q a → Q' a) → emits P Q' m.
Proof.
  intros Hm HQ t. destruct (Hm t) as (r & es & Hr & Hes & Hq).
  exists r, es. repeat split; auto.
Qed.
End Emits.

Lemma emits_call P (Q : unit → Prop) fn args :
  P (EvCall fn args) → Q tt → emits P Q (call fn args).
Proof. apply emits_emit. Qed.

Lemma emits_events {A} (P P' : event → Prop) (Q : A → Prop) (m : M A) :
  (∀ e, P e → P' e) → emits P Q m → emits P' Q m.
Proof.
  intros HP Hm t. destruct (Hm t) as (r & es & Hr & Hes & HQ).
  exists r, es. repeat split; [done| |done]. by eapply Forall_impl.
Qed.

Lemma Analysis_logic_emits P (Q : instance → Prop) m self :
  emits P Q (run m self) → emits P Q (Analysis_logic m self).
Proof.
  intros Hrun. unfold Analysis_logic. cbv zeta.
  eapply emits_bind; [exact Hrun|]. intros s Hs.
  destruct (_display s).
  - eapply emits_bind; [by apply (emits_lift P (λ _, True))|].
    intros _ _. by apply emits_mret.
  - by apply emits_mret.
Qed.

Lemma Test___init___emits P (Q : instance → Prop) m self args kw :
  (∀ s, _results s = ∅ → klass s = klass self → emits P Q (run m s)) →
  emits P Q (Test___init__ m self args kw).
Proof.
  intros Hrun. unfold Test___init__. cbv zeta.
  eapply emits_bind; [by apply (emits_lift P (λ _, True))|]. intros data _.
  eapply emits_bind; [by apply (emits_lift P (λ _, True))|]. intros n _.
  eapply emits_bind; [by apply (emits_lift P (λ _, True))|]. intros data' _.
  apply Analysis_logic_emits. by apply Hrun.
Qed.

Lemma new_emits P (Q : instance → Prop) k args init :
  P (EvNew (cls k) args) → emits P Q (init (alloc k)) → emits P Q (new k args init).
Proof.
  intros HP Hinit. unfold new.
  eapply emits_bind; [by apply (emits_emit P (λ _, True))|]. by intros.
Qed.

(** The trace of a construction starts with its [EvNew]. *)
Lemma new_emits_head P (Q : instance → Prop) k args init t :
  emits P Q (init (alloc k)) →
  ∃ r es, new k args init t = (r, t ++ EvNew (cls k) args :: es)
          ∧ Forall P es ∧ ∀ a, r = Ok a → Q a.
Proof.
  intros Hinit. unfold new. rewrite bind_emit.
  destruct (Hinit (t ++ [EvNew (cls k) args])) as (r & es & Hr & Hes & HQ).
  exists r, es. by rewrite Hr, <- app_assoc.
Qed.

(** ** Floats: the order [<] *)

Ltac compare_cases :=
  repeat match goal with
         | H : context [Pos.compare_cont Eq ?p ?q] |- _ =>
             change (Pos.compare_cont Eq p q) with (Pos.compare p q) in H
         | |- context [Pos.compare_cont Eq ?p ?q] =>
             change (Pos.compare_cont Eq p q) with (Pos.compare p q)
         end;
  repeat match goal with
         | H : context [Z.compare ?x ?y] |- _ => destruct (Z.compare_spec x y)
         | |- context [Z.compare ?x ?y] => destruct (Z.compare_spec x y)
         | H : context [Pos.compare ?x ?y] |- _ => destruct (Pos.compare_spec x y)
         | |- context [Pos.compare ?x ?y] => destruct (Pos.compare_spec x y)
         end;
  simpl in *; try done; try lia.

Lemma SFltb_trans a b c :
  SFltb a b = true → SFltb b c = true → SFltb a c = true.
Proof.
  unfold SFltb, SFcompare.
  destruct a as [[]| []| |[] ma ea], b as [[]| []| |[] mb eb], c as [[]| []| |[] mc ec];
    try done; intros H1 H2; compare_cases.
Qed.

Lemma SFltb_irrefl a : SFltb a a = false.
Proof.
  unfold SFltb, SFcompare. destruct a as [[]| []| |[] ma ea]; try done; compare_cases.
Qed.

Lemma ltb_trans a b c :
  PrimFloat.ltb a b = true → PrimFloat.ltb b c = true → PrimFloat.ltb a c = true.
Proof. rewrite !ltb_spec. apply SFltb_trans. Qed.

Lemma ltb_irrefl a : PrimFloat.ltb a a = false.
Proof. rewrite ltb_spec. apply SFltb_irrefl. Qed.

Lemma same_refl x : same x x = true.
Proof.
  unfold same, PrimFloat.is_nan. by destruct (PrimFloat.eqb x x).
Qed.

(** ** Lists, strings and dicts *)

Lemma fold_min_spec (l : list float) (cur : float) (seen : list float) :
  cur ∈ seen →
  (∀ x, x ∈ seen → PrimFloat.ltb x cur = false) →
  let m := fold_left (λ cur y, if PrimFloat.ltb y cur then y else cur) l cur in
  m ∈ seen ++ l ∧ ∀ x, x ∈ seen ++ l → PrimFloat.ltb x m = false.
Proof.
  revert cur seen. induction l as [|y l IH]; intros cur seen Hin Hmin; simpl.
  - rewrite app_nil_r. done.
  - replace (seen ++ y :: l) with ((seen ++ [y]) ++ l) by by rewrite <- app_assoc.
    destruct (PrimFloat.ltb y cur) eqn:E; apply IH.
    + apply elem_of_app. right. by apply list_elem_of_singleton.
    + intros x [Hx | ->%list_elem_of_singleton]%elem_of_app.
      * destruct (PrimFloat.ltb x y) eqn:E'; [|done].
        rewrite <- (Hmin x Hx). symmetry. by eapply ltb_trans.
      * apply ltb_irrefl.
    + apply elem_of_app. by left.
    + intros x [Hx | ->%list_elem_of_singleton]%elem_of_app; auto.
Qed.

Lemma py_min_spec (l : list float) :
  l ≠ [] →
  ∃ m, py_min l = Ok m ∧ m ∈ l ∧ ∀ x, x ∈ l → PrimFloat.ltb x m = false.
Proof.
  destruct l as [|x l]; [done|]. intros _. eexists. split; [done|].
  apply (fold_min_spec l x [x]).
  - by apply list_elem_of_singleton.
  - intros y ->%list_elem_of_singleton. apply ltb_irrefl.
Qed.

Lemma index_spec (l : list float) (x : float) :
  (∃ y, y ∈ l ∧ same x y = true) →
  ∃ i y, index l x = Ok (Z.of_nat i) ∧ l !! i = Some y ∧ same x y = true
         ∧ ∀ j z, l !! j = Some z → same x z = true → (i ≤ j)%nat.
Proof.
  induction l as [|y l IH]; intros (z & Hz & Hs).
  - by apply elem_of_nil in Hz.
  - simpl. destruct (same x y) eqn:E.
    + exists 0%nat, y. repeat split; auto. intros. lia.
    + apply elem_of_cons in Hz as [->|Hz]; [congruence|].
      destruct IH as (i & y' & Hi & Hl & Hsame & Hfirst); [eauto|].
      exists (S i), y'. rewrite Hi. simpl. repeat split; auto.
      * f_equal. lia.
      * intros [|j] z' Hj Hz'; simpl in Hj; [congruence|].
        apply Hfirst in Hj; auto. lia.
Qed.

Lemma nth_item_lookup {A} (l : list A) (i : nat) (a : A) :
  l !! i = Some a → nth_item l (Z.of_nat i) = Ok a.
Proof.
  intros H. unfold nth_item. cbv zeta.
  pose proof (lookup_lt_Some _ _ _ H) as Hlt.
  destruct (Z.ltb_spec (Z.of_nat i) 0) as [|_]; [lia|].
  destruct (Z.ltb_spec (Z.of_nat i) 0) as [|_]; [lia|].
  destruct (Z.leb_spec (Z.of_nat (length l)) (Z.of_nat i)); [lia|].
  simpl. by rewrite Nat2Z.id, H.
Qed.

Lemma first_or_self l :
  ∃ d, try_except (getitem (PList l) (PInt 0)) [IndexError] (Ok (PList l)) = Ok d.
Proof. destruct l as [|d l]; [by exists (PList [])|by exists d]. Qed.

Lemma strings_of_inv l ss :
  strings_of l = Ok ss → l = PStr <$> ss.
Proof.
  revert ss. induction l as [|o l IH]; intros ss H; simpl in H.
  - by simplify_eq.
  - destruct o; try discriminate.
    destruct (strings_of l) as [ss'|] eqn:E; simpl in H; [|discriminate].
    simplify_eq. simpl. f_equal. by apply IH.
Qed.

Lemma length_chars s : length (chars s) = String.length s.
Proof.
  unfold chars. rewrite length_fmap.
  induction s as [|a s IH]; simpl; [done|]. by rewrite IH.
Qed.

Lemma len_of_iterable o args : py_iter o = Ok args → ∃ n, len o = Ok n.
Proof. destruct o; simpl; intros; simplify_eq; eauto. Qed.

Lemma existsb_scalars (fs : list float) : existsb is_iterable (PFloat <$> fs) = false.
Proof. induction fs as [|f fs IH]; [done|]. csimpl. by rewrite IH. Qed.

Lemma update_empty (e : gmap pykey pyobj) : update ∅ e = e.
Proof. unfold update. apply (right_id _ _). Qed.

(** The results of a run that starts from the empty dict hold exactly
    the keys of the dict display. *)
Lemma results_update_fresh self l :
  _results self = ∅ → _results (results_update self l) = dict_of l.
Proof. intros H. unfold results_update. simpl. rewrite H. apply update_empty. Qed.

Lemma lookup_results_update self l k :
  _results (results_update self l) !! k
  = match dict_of l !! k with Some v => Some v | None => _results self !! k end.
Proof.
  unfold results_update, update. simpl. rewrite lookup_union.
  destruct (dict_of l !! k), (_results self !! k); done.
Qed.

Lemma dict_of_int_key l z : dict_of l !! KInt z = None.
Proof.
  unfold dict_of. induction l as [|[s v] l IH]; csimpl; [done|].
  by rewrite lookup_insert_ne.
Qed.

Lemma assoc_dict_set d k v : assoc k (dict_set d k v) = Some v.
Proof.
  induction d as [|[k' v'] d IH]; simpl.
  - by rewrite decide_True.
  - destruct (decide (k = k')) as [->|Hne]; simpl.
    + by rewrite decide_True.
    + by rewrite decide_False.
Qed.

Lemma assoc_dict_set_ne d k k' v : k ≠ k' → assoc k (dict_set d k' v) = assoc k d.
Proof.
  intros Hne. induction d as [|[k0 v0] d IH]; simpl.
  - by rewrite decide_False.
  - destruct (decide (k' = k0)) as [->|Hne']; simpl.
    + by rewrite !decide_False.
    + destruct (decide (k = k0)); [done|]. apply IH.
Qed.

(** ** Test: the accessors and the generic output (C9) *)

Lemma statistic_absent obj :
  _results obj !! KStr "statistic" = None → statistic obj = Ok (PFloat nan).
Proof. intros H. unfold statistic, item. by rewrite H. Qed.

Lemma p_value_absent obj :
  _results obj !! KStr "p_value" = None → p_value obj = Ok (PFloat nan).
Proof. intros H. unfold p_value, item. by rewrite H. Qed.

Lemma statistic_present obj v :
  _results obj !! KStr "statistic" = Some v → statistic obj = Ok v.
Proof. intros H. unfold statistic, item. by rewrite H. Qed.

Lemma p_value_present obj v :
  _results obj !! KStr "p_value" = Some v → p_value obj = Ok v.
Proof. intros H. unfold p_value, item. by rewrite H. Qed.

Lemma hypothesis_eq self p :
  _results self !! KStr "p_value" = Some (PFloat p) →
  hypothesis self
  = Ok (PStr (if PrimFloat.ltb (_alpha self) p then _h0 (klass self) else _ha (klass self))).
Proof.
  intros Hp. unfold hypothesis, p_value, item. rewrite Hp. simpl. done.
Qed.

Lemma Test_output_total py self p :
  _results self !! KStr "p_value" = Some (PFloat p) →
  (∃ name, _name (klass self) = PStr name) →
  (∃ sname, _statistic_name (klass self) = PStr sname) →
  (∀ v, _results self !! KStr "statistic" = Some v → ∃ f, v = PFloat f) →
  ∃ text, Test_output py self = Ok text.
Proof.
  intros Hp [name Hn] [sname Hs] Hst.
  unfold Test_output. rewrite (hypothesis_eq _ _ Hp), Hn, Hs. simpl.
  unfold labelled, statistic, p_value, item. rewrite Hp. simpl.
  destruct (_results self !! KStr "statistic") as [v|] eqn:E; simpl.
  - destruct (Hst v eq_refl) as [f ->]. simpl. eauto.
  - eauto.
Qed.

(** C9. For a test whose results hold a p-value, the generic output
    prints the null-hypothesis text exactly when the p-value is greater
    than alpha and the alternate text otherwise.  The choice is made
    from the results and alpha when the text is produced: [output]
    returns the text and nothing else, and it does produce one when the
    name and the statistic name are strings and the statistic, if
    present, is a float. *)
Theorem Test_output_selects_hypothesis py self p :
  _results self !! KStr "p_value" = Some (PFloat p) →
  let chosen := if PrimFloat.ltb (_alpha self) p
                then _h0 (klass self) else _ha (klass self) in
  hypothesis self = Ok (PStr chosen)
  ∧ (∀ text, Test_output py self = Ok text →
       ∃ name line3 line5 line6,
         text = join_lines [" "; name; line3; " "; line5; line6; " "; chosen; " "])
  ∧ (∀ name sname,
       _name (klass self) = PStr name →
       _statistic_name (klass self) = PStr sname →
       (∀ v, _results self !! KStr "statistic" = Some v → ∃ f, v = PFloat f) →
       ∃ text, Test_output py self = Ok text).
Proof.
  intros Hp chosen.
  assert (Hh : hypothesis self = Ok (PStr chosen)) by by apply hypothesis_eq.
  split; [done|]. split.
  - intros text H. unfold Test_output in H. inv_result H.
    rewrite Hh in Ha2. simplify_eq.
    unfold join in H.
    destruct (strings_of _) as [ss|] eqn:E; simpl in H; [|discriminate].
    simplify_eq. apply strings_of_inv in E.
    do 10 (destruct ss as [|? ss]; try discriminate).
    simpl in E. simplify_eq. eauto 10.
  - intros name sname Hn Hs Hst. eapply Test_output_total; eauto.
Qed.

Lemma Test_output_selects_hypothesis_witness :
  _results (reported 0.5) !! KStr "p_value" = Some (PFloat 0.5)
  ∧ hypothesis (reported 0.5) = Ok (PStr "H0: Data is normally distributed")
  ∧ ∃ text, Test_output plain_builtins (reported 0.5) = Ok text.
Proof.
  split; [reflexivity|].
  destruct (Test_output_selects_hypothesis plain_builtins (reported 0.5) 0.5 eq_refl)
    as (H1 & _ & H3).
  split; [exact H1|].
  eapply H3; [reflexivity|reflexivity|].
  intros v Hv. exists 2%float. vm_compute in Hv. congruence.
Defined.

(** ** Test: the cleaning of samples (C4) *)

Lemma float__raises py d e : float_ py d = Raise e → e = ValueError ∨ e = TypeError.
Proof.
  destruct d; simpl; try (intros [= <-]; auto).
  destruct (float_of_str py s); intros [= <-]; auto.
Qed.

Lemma as_vector_iterable py d : is_iterable d = true → ∃ v, as_vector py d = Ok v.
Proof. unfold as_vector. destruct d; try discriminate; simpl; eauto. Qed.

Lemma Test_data_prep_single py self d v :
  is_iterable d = true →
  as_vector py d = Ok v →
  Test_data_prep py self (PList [d])
  = Ok (PList (if is_empty (drop_nan v) || (vlen (drop_nan v) <=? _min_size (klass self))
               then [] else [PVector (drop_nan v)])).
Proof.
  unfold as_vector. intros Hit Hv. unfold Test_data_prep.
  cbn [py_iter mbind result_bind Test_data_prep_loop]. rewrite Hit. cbn [negb].
  destruct (is_vector d).
  - injection Hv as <-. cbn [mbind result_bind]. by case_match.
  - rewrite Hv. cbn [fmap result_fmap mbind result_bind]. by case_match.
Qed.

(** C4, as the code has it.  Cleaning a single sample raises nothing:
    the sample is coerced and its not-a-number entries are dropped;
    when nothing is left, or when what is left has no more entries than
    the minimum size, the sample is left out of the cleaned list, and
    otherwise it is the one entry of that list. *)
Theorem Test_data_prep_drops_small_sample py self d :
  is_iterable d = true →
  ∃ v, as_vector py d = Ok v
       ∧ Test_data_prep py self (PList [d])
         = Ok (PList (if is_empty (drop_nan v)
                         || (vlen (drop_nan v) <=? _min_size (klass self))
                      then [] else [PVector (drop_nan v)])).
Proof.
  intros Hit. destruct (as_vector_iterable py d Hit) as [v Hv].
  exists v. split; [done|]. by apply Test_data_prep_single.
Qed.

Lemma Test_data_prep_drops_small_sample_witness :
  is_iterable (sample [1; 2; 3]%float) = true
  ∧ ∃ v, as_vector plain_builtins (sample [1; 2; 3]%float) = Ok v
         ∧ Test_data_prep plain_builtins (alloc NormTest_attrs)
             (PList [sample [1; 2; 3]%float])
           = Ok (PList (if is_empty (drop_nan v)
                           || (vlen (drop_nan v) <=? _min_size (klass (alloc NormTest_attrs)))
                        then [] else [PVector (drop_nan v)])).
Proof.
  split; [reflexivity|].
  apply (Test_data_prep_drops_small_sample plain_builtins (alloc NormTest_attrs)
           (sample [1; 2; 3]%float)).
  reflexivity.
Defined.

(** Against C4 as stated: with the minimum size 2, cleaning [[1, 2]]
    returns the empty list and cleaning an empty sample does too;
    neither raises. *)
Lemma Test_data_prep_raises_nothing :
  Test_data_prep plain_builtins (alloc NormTest_attrs) (PList [sample [1; 2]%float])
  = Ok (PList [])
  ∧ Test_data_prep plain_builtins (alloc NormTest_attrs) (PList [sample [1; 2]%float])
    ≠ Raise MinimumSizeError
  ∧ Test_data_prep plain_builtins (alloc NormTest_attrs) (PList [sample []])
    = Ok (PList [])
  ∧ Test_data_prep plain_builtins (alloc NormTest_attrs) (PList [sample []])
    ≠ Raise EmptyVectorError.
Proof. repeat split; by vm_compute. Qed.

(** [[1, 2, 3]] is kept, with its three entries. *)
Example Test_data_prep_keeps_three :
  Test_data_prep plain_builtins (alloc NormTest_attrs) (PList [sample [1; 2; 3]%float])
  = Ok (PList [PVector [1; 2; 3]%float]).
Proof. by vm_compute. Qed.

Lemma Test_data_prep_loop_total py min_size ds clean_list :
  ∃ clean, Test_data_prep_loop py min_size ds clean_list = Ok clean.
Proof.
  revert clean_list. induction ds as [|d ds IH]; intros clean_list; [simpl; eauto|].
  cbn [Test_data_prep_loop]. destruct (is_iterable d) eqn:Hit; cbn [negb].
  - destruct (as_vector_iterable py d Hit) as [v Hv]. unfold as_vector in Hv.
    destruct (is_vector d).
    + cbn [mbind result_bind]. destruct (_ || _); apply IH.
    + rewrite Hv. cbn [fmap result_fmap mbind result_bind].
      destruct (_ || _); apply IH.
  - destruct (float_ py d) as [f|e] eqn:E; [apply IH|].
    destruct (float__raises py d e E) as [-> | ->]; apply IH.
Qed.

Lemma Test_data_prep_loop_scalars py min_size ds fs0 :
  Forall (λ d, is_iterable d = false) ds →
  ∃ fs, Test_data_prep_loop py min_size ds (PFloat <$> fs0) = Ok (PFloat <$> (fs0 ++ fs)).
Proof.
  intros Hds. revert fs0. induction Hds as [|d ds Hd _ IH]; intros fs0.
  - exists []. by rewrite app_nil_r.
  - cbn [Test_data_prep_loop]. rewrite Hd. cbn [negb].
    destruct (float_ py d) as [f|e] eqn:E.
    + destruct (IH (fs0 ++ [f])) as [fs Hfs]. exists (f :: fs).
      rewrite fmap_app in Hfs. csimpl in Hfs. rewrite Hfs.
      by rewrite <- app_assoc.
    + destruct (IH fs0) as [fs Hfs]. exists fs.
      by destruct (float__raises py d e E) as [-> | ->].
Qed.

(** ** NormTest on a group (C8) *)

Lemma NormTest_run_loop_eq lib ds w_value p_value t :
  NormTest_run_loop lib ds w_value p_value t
  = (Ok (w_value ++ ((λ d, (shapiro lib d).1) <$> ds),
         p_value ++ ((λ d, (shapiro lib d).2) <$> ds)),
     t ++ shapiro_calls ds).
Proof.
  revert w_value p_value t. induction ds as [|d ds IH]; intros w_value p_value t.
  - simpl. by rewrite !app_nil_r.
  - cbn [NormTest_run_loop]. mstep. destruct (shapiro lib d) as [w p] eqn:E.
    rewrite IH. csimpl. rewrite E. simpl. by rewrite <- !app_assoc.
Qed.

(** The run on a group, in full. *)
Lemma NormTest_run_group lib self t :
  is_group (_data self) = true →
  ∃ ds i w p p_i,
    _data self = PList ds
    ∧ let ws := (λ d, (shapiro lib d).1) <$> ds in
      let ps := (λ d, (shapiro lib d).2) <$> ds in
      py_min ps = Ok p
      ∧ (∀ j p_j, ps !! j = Some p_j → PrimFloat.ltb p_j p = false)
      ∧ ps !! i = Some p_i ∧ same p p_i = true
      ∧ (∀ j p_j, ps !! j = Some p_j → same p p_j = true → (i ≤ j)%nat)
      ∧ ws !! i = Some w
      ∧ NormTest_run lib self t
        = (Ok (results_update self [("statistic", PFloat w); ("p_value", PFloat p)]),
           t ++ shapiro_calls ds).
Proof.
  intros Hg. destruct (_data self) as [| | | |ds| |] eqn:Hd; try discriminate.
  set (ws := (λ d, (shapiro lib d).1) <$> ds).
  set (ps := (λ d, (shapiro lib d).2) <$> ds).
  assert (Hne : ps ≠ []).
  { subst ps. destruct ds; [discriminate|done]. }
  destruct (py_min_spec ps Hne) as (p & Hmin & Hin & Hlow).
  destruct (index_spec ps p) as (i & p_i & Hidx & Hi & Hsame & Hfirst).
  { exists p. split; [done|]. apply same_refl. }
  assert (Hw : is_Some (ws !! i)).
  { apply lookup_lt_is_Some. subst ws. rewrite length_fmap.
    apply lookup_lt_Some in Hi. subst ps. by rewrite length_fmap in Hi. }
  destruct Hw as [w Hw].
  exists ds, i, w, p, p_i. split; [done|]. cbv zeta. fold ws ps.
  split; [done|]. split.
  { intros j p_j Hj. apply Hlow. by eapply list_elem_of_lookup_2. }
  do 4 (split; [done|]).
  unfold NormTest_run. rewrite Hd, Hg. cbn [negb].
  do 2 mstep. cbn [py_iter]. mstep.
  erewrite bind_ok by apply NormTest_run_loop_eq. cbn [app fst snd]. fold ws ps.
  mstep. rewrite Hmin. do 2 mstep. rewrite Hidx. do 2 mstep.
  rewrite (nth_item_lookup _ _ _ Hw). by mstep.
Qed.

(** C8. On a group, [NormTest.run] applies the Shapiro-Wilk routine to
    each sample in turn and reports the minimum of the p-values (no
    sample has a p-value below the reported one) together with the W
    statistic of the sample that has it: the first member whose
    p-value equals the minimum. *)
Theorem NormTest_run_reports_worst_member lib self t :
  is_group (_data self) = true →
  ∃ ds i w p p_i,
    _data self = PList ds
    ∧ let ws := (λ d, (shapiro lib d).1) <$> ds in
      let ps := (λ d, (shapiro lib d).2) <$> ds in
      py_min ps = Ok p
      ∧ (∀ j p_j, ps !! j = Some p_j → PrimFloat.ltb p_j p = false)
      ∧ ps !! i = Some p_i ∧ same p p_i = true
      ∧ (∀ j p_j, ps !! j = Some p_j → same p p_j = true → (i ≤ j)%nat)
      ∧ ws !! i = Some w
      ∧ NormTest_run lib self t
        = (Ok (results_update self [("statistic", PFloat w); ("p_value", PFloat p)]),
           t ++ shapiro_calls ds).
Proof. apply NormTest_run_group. Qed.

Lemma NormTest_run_reports_worst_member_witness :
  is_group (_data (before_run NormTest_attrs two_vectors)) = true
  ∧ ∃ ds i w p p_i,
      _data (before_run NormTest_attrs two_vectors) = PList ds
      ∧ let ws := (λ d, (shapiro probe_stats d).1) <$> ds in
        let ps := (λ d, (shapiro probe_stats d).2) <$> ds in
        py_min ps = Ok p
        ∧ (∀ j p_j, ps !! j = Some p_j → PrimFloat.ltb p_j p = false)
        ∧ ps !! i = Some p_i ∧ same p p_i = true
        ∧ (∀ j p_j, ps !! j = Some p_j → same p p_j = true → (i ≤ j)%nat)
        ∧ ws !! i = Some w
        ∧ NormTest_run probe_stats (before_run NormTest_attrs two_vectors) []
          = (Ok (results_update (before_run NormTest_attrs two_vectors)
                   [("statistic", PFloat w); ("p_value", PFloat p)]),
             [] ++ shapiro_calls ds).
Proof.
  split; [reflexivity|].
  apply (NormTest_run_reports_worst_member probe_stats
           (before_run NormTest_attrs two_vectors) []).
  reflexivity.
Defined.

(** On the two vectors the run reports the p-value and the statistic
    of the second one. *)
Example NormTest_run_two_vectors :
  NormTest_run probe_stats (before_run NormTest_attrs two_vectors) []
  = (Ok (results_update (before_run NormTest_attrs two_vectors)
           [("statistic", PFloat 7); ("p_value", PFloat 0.015625)]),
     [EvCall fn_shapiro [PVector sample_a]; EvCall fn_shapiro [PVector sample_b]]).
Proof. reflexivity. Qed.

(** [NormTest.run] always returns. *)
Lemma NormTest_run_total lib self t :
  ∃ w p t',
    NormTest_run lib self t
    = (Ok (results_update self [("statistic", PFloat w); ("p_value", PFloat p)]), t').
Proof.
  destruct (is_group (_data self)) eqn:Hg.
  - destruct (NormTest_run_group lib self t Hg)
      as (ds & i & w & p & p_i & _ & _ & _ & _ & _ & _ & _ & H).
    eauto.
  - unfold NormTest_run. rewrite Hg. cbn [negb]. do 3 mstep. eauto.
Qed.

Lemma NormTest_run_emits lib self :
  _results self = ∅ → emits NormTest_event NormTest_results (NormTest_run lib self).
Proof.
  intros Hres. unfold NormTest_run.
  eapply (emits_bind _ (λ _, True)).
  - destruct (negb (is_group (_data self))).
    + eapply emits_bind; [by apply (emits_call _ (λ _, True))|].
      intros. by apply emits_mret.
    + eapply emits_bind; [by apply (emits_lift _ (λ _, True))|]. intros ds _.
      eapply (emits_bind _ (λ _, True)).
      { intros t. eexists _, _. split; [apply NormTest_run_loop_eq|].
        split; [|done]. unfold shapiro_calls. apply Forall_fmap.
        by apply Forall_true. }
      intros wp _.
      eapply emits_bind; [by apply (emits_lift _ (λ _, True))|]. intros ? _.
      eapply emits_bind; [by apply (emits_lift _ (λ _, True))|]. intros ? _.
      eapply emits_bind; [by apply (emits_lift _ (λ _, True))|]. intros ? _.
      by apply emits_mret.
  - intros r _. apply emits_mret. exists r.1, r.2. by apply results_update_fresh.
Qed.

Lemma NormTest_emits py lib args kw :
  emits NormTest_event NormTest_results (NormTest py lib args kw).
Proof.
  unfold NormTest. apply new_emits; [done|].
  apply Test___init___emits. intros s Hs _. by apply NormTest_run_emits.
Qed.

Lemma NormTest_results_p_value obj :
  NormTest_results obj → ∃ p, p_value obj = Ok (PFloat p).
Proof.
  intros (w & p & H). exists p. unfold p_value, item. rewrite H. done.
Qed.

Lemma NormTest_event_quiet e : NormTest_event e → quiet e.
Proof. destruct e; simpl; [intros ->| |]; done. Qed.

Lemma NormTest_group_total py lib args kw t :
  is_group (PList args) = true →
  ∃ norm tn, NormTest py lib args kw t = (Ok norm, tn).
Proof.
  intros Hg. unfold NormTest, new. mstep. unfold Test___init__. cbv zeta.
  rewrite Hg. cbn [data_prep Test_methods]. unfold Test_data_prep.
  cbn [py_iter mbind result_bind].
  destruct (Test_data_prep_loop_total py
              (_min_size (klass (set_alpha (alloc NormTest_attrs)
                                   (default default_alpha (kw_alpha kw)))))
              args []) as [clean ->].
  cbn [fmap result_fmap]. mstep. cbn [len]. mstep.
  assert (∃ data, (if Z.of_nat (length clean) <=? 1
                   then try_except (getitem (PList clean) (PInt 0)) [IndexError]
                          (Ok (PList clean))
                   else Ok (PList clean)) = Ok data) as [data ->].
  { destruct (_ <=? _); [apply first_or_self|eauto]. }
  mstep. unfold Analysis_logic. cbv zeta. cbn [run output Test_methods].
  set (self := Analysis___init__ _ data _).
  destruct (NormTest_run_total lib self (t ++ [EvNew (cls NormTest_attrs) args]))
    as (w & p & t' & Hrun).
  erewrite bind_ok by exact Hrun.
  destruct (_display _); [|eauto].
  destruct (Test_output_total py
              (results_update self [("statistic", PFloat w); ("p_value", PFloat p)]) p)
    as [text Htext].
  - by rewrite lookup_results_update.
  - by eexists.
  - by eexists.
  - intros v. rewrite lookup_results_update. intros [= <-]. eauto.
  - mstep. rewrite Htext. eauto.
Qed.

(** ** EqualVariance delegates to Bartlett or to Levene (C7) *)

Lemma NormTest_events_no_variance_call es :
  Forall NormTest_event es → filter variance_call es = [].
Proof.
  induction 1 as [|e es He _ IH]; [done|].
  rewrite filter_cons, IH. destruct e as [c a|fn a|c a]; simpl in *; try done.
  by subst fn.
Qed.

(** [EqualVariance.run] once its NormTest is constructed. *)
Lemma EqualVariance_run_after_NormTest py lib self args norm t tn :
  py_iter (_data self) = Ok args →
  NormTest py lib args {| kw_alpha := Some (_alpha self); kw_display := Some false |} t
  = (Ok norm, tn) →
  ∃ p es,
    p_value norm = Ok (PFloat p)
    ∧ tn = t ++ es
    ∧ filter variance_call es = []
    ∧ EqualVariance_run py lib self t
      = if PrimFloat.ltb (_alpha self) p
        then (Ok (results_update self
                    [("p_value", PFloat (bartlett lib args).2);
                     ("statistic", PFloat (bartlett lib args).1);
                     ("test", PStr "Bartlett")]),
              tn ++ [EvCall fn_bartlett args])
        else (Ok (results_update self
                    [("p_value", PFloat (levene lib args).2);
                     ("statistic", PFloat (levene lib args).1);
                     ("test", PStr "Levene")]),
              tn ++ [EvCall fn_levene args]).
Proof.
  intros Hargs Hnorm.
  destruct (NormTest_emits py lib args
              {| kw_alpha := Some (_alpha self); kw_display := Some false |} t)
    as (r & es & Hr & Hes & Hpost).
  rewrite Hnorm in Hr. injection Hr as <- ->.
  destruct (NormTest_results_p_value norm (Hpost _ eq_refl)) as [p Hp].
  exists p, es. split; [done|]. split; [done|].
  split; [by apply NormTest_events_no_variance_call|].
  destruct (len_of_iterable _ _ Hargs) as [n Hn].
  unfold EqualVariance_run. rewrite Hn, Hargs. do 2 mstep. cbv zeta.
  erewrite bind_ok by exact Hnorm. rewrite Hp. mstep. cbn [mbind result_bind gt as_number].
  destruct (PrimFloat.ltb (_alpha self) p).
  - mstep. by destruct (bartlett lib args).
  - mstep. by destruct (levene lib args).
Qed.

(** C7. On a group, [EqualVariance.run] constructs a NormTest over the
    members (alpha passed on, display off), which succeeds and calls
    neither routine; the run then calls exactly one of the two routines
    on the members, Bartlett when the NormTest p-value is greater than
    alpha and Levene otherwise, and stores the routine's p-value and
    statistic with the tag of the routine that was called. *)
Theorem EqualVariance_run_delegates py lib self t :
  is_group (_data self) = true →
  ∃ args norm tn p es,
    _data self = PList args
    ∧ NormTest py lib args
        {| kw_alpha := Some (_alpha self); kw_display := Some false |} t
      = (Ok norm, tn)
    ∧ p_value norm = Ok (PFloat p)
    ∧ tn = t ++ es
    ∧ filter variance_call es = []
    ∧ EqualVariance_run py lib self t
      = if PrimFloat.ltb (_alpha self) p
        then (Ok (results_update self
                    [("p_value", PFloat (bartlett lib args).2);
                     ("statistic", PFloat (bartlett lib args).1);
                     ("test", PStr "Bartlett")]),
              tn ++ [EvCall fn_bartlett args])
        else (Ok (results_update self
                    [("p_value", PFloat (levene lib args).2);
                     ("statistic", PFloat (levene lib args).1);
                     ("test", PStr "Levene")]),
              tn ++ [EvCall fn_levene args]).
Proof.
  intros Hg. destruct (_data self) as [| | | |args| |] eqn:Hd; try discriminate.
  destruct (NormTest_group_total py lib args
              {| kw_alpha := Some (_alpha self); kw_display := Some false |} t Hg)
    as (norm & tn & Hnorm).
  destruct (EqualVariance_run_after_NormTest py lib self args norm t tn)
    as (p & es & H); [by rewrite Hd|done|].
  by exists args, norm, tn, p, es.
Qed.

Lemma EqualVariance_run_delegates_witness :
  is_group (_data (before_run EqualVariance_attrs two_vectors)) = true
  ∧ ∃ args norm tn p es,
      _data (before_run EqualVariance_attrs two_vectors) = PList args
      ∧ NormTest plain_builtins probe_stats args
          {| kw_alpha := Some (_alpha (before_run EqualVariance_attrs two_vectors));
             kw_display := Some false |} []
        = (Ok norm, tn)
      ∧ p_value norm = Ok (PFloat p)
      ∧ tn = [] ++ es
      ∧ filter variance_call es = []
      ∧ EqualVariance_run plain_builtins probe_stats
          (before_run EqualVariance_attrs two_vectors) []
        = if PrimFloat.ltb (_alpha (before_run EqualVariance_attrs two_vectors)) p
          then (Ok (results_update (before_run EqualVariance_attrs two_vectors)
                      [("p_value", PFloat (bartlett probe_stats args).2);
                       ("statistic", PFloat (bartlett probe_stats args).1);
                       ("test", PStr "Bartlett")]),
                tn ++ [EvCall fn_bartlett args])
          else (Ok (results_update (before_run EqualVariance_attrs two_vectors)
                      [("p_value", PFloat (levene probe_stats args).2);
                       ("statistic", PFloat (levene probe_stats args).1);
                       ("test", PStr "Levene")]),
                tn ++ [EvCall fn_levene args]).
Proof.
  split; [reflexivity|].
  apply (EqualVariance_run_delegates plain_builtins probe_stats
           (before_run EqualVariance_attrs two_vectors) []).
  reflexivity.
Defined.

(** On the two vectors the minimum p-value is below alpha: Levene. *)
Example EqualVariance_run_two_vectors :
  ∃ obj t, EqualVariance_run plain_builtins probe_stats
             (before_run EqualVariance_attrs two_vectors) [] = (Ok obj, t)
           ∧ _results obj !! KStr "test" = Some (PStr "Levene")
           ∧ filter variance_call t
             = [EvCall fn_levene [PVector sample_a; PVector sample_b]].
Proof. eexists _, _. split; [by vm_compute|]. split; by vm_compute. Qed.

Lemma EqualVariance_run_quiet py lib self :
  _results self = ∅ → emits quiet string_keys (EqualVariance_run py lib self).
Proof.
  intros Hres. unfold EqualVariance_run. cbv zeta.
  eapply emits_bind; [by apply (emits_lift _ (λ _, True))|]. intros n _.
  eapply emits_bind; [by apply (emits_lift _ (λ _, True))|]. intros args _.
  eapply (emits_bind _ (λ _, True)).
  { eapply emits_events; [apply NormTest_event_quiet|].
    eapply emits_weaken; [apply NormTest_emits|done]. }
  intros norm _.
  eapply emits_bind; [by apply (emits_lift _ (λ _, True))|]. intros normal _.
  destruct normal.
  - eapply emits_bind; [by apply (emits_call _ (λ _, True))|]. intros _ _.
    destruct (bartlett lib args). apply emits_mret.
    intros z. by rewrite results_update_fresh, dict_of_int_key.
  - eapply emits_bind; [by apply (emits_call _ (λ _, True))|]. intros _ _.
    destruct (levene lib args). apply emits_mret.
    intros z. by rewrite results_update_fresh, dict_of_int_key.
Qed.

Lemma EqualVariance_quiet py lib args kw :
  emits quiet string_keys (EqualVariance py lib args kw).
Proof.
  unfold EqualVariance. apply new_emits; [done|].
  apply Test___init___emits. intros s Hs _. by apply EqualVariance_run_quiet.
Qed.

Lemma EqualVariance_head py lib args kw t :
  ∃ r es, EqualVariance py lib args kw t = (r, t ++ EvNew "EqualVariance" args :: es).
Proof.
  destruct (new_emits_head quiet string_keys EqualVariance_attrs args
              (λ self, Test___init__
                         (Test_methods py (EqualVariance_run py lib)
                            (EqualVariance_output py))
                         self args kw) t) as (r & es & Hr & _).
  { apply Test___init___emits. intros s Hs _. by apply EqualVariance_run_quiet. }
  by exists r, es.
Qed.

(** Called on scalars only, and not on exactly one, a Test subclass
    that inherits [Test.__init__] fails on the arity of [data_prep]. *)
Lemma EqualVariance_scalars py lib args kw t :
  existsb is_iterable args = false →
  length args ≠ 1%nat →
  EqualVariance py lib args kw t = (Raise TypeError, t ++ [EvNew "EqualVariance" args]).
Proof.
  intros Hsc Hlen. unfold EqualVariance, new. mstep.
  unfold Test___init__. cbv zeta. cbn [is_group]. rewrite Hsc.
  destruct args as [|d [|d' args]]; [| done |]; by rewrite bind_lift.
Qed.

(** ** The keys of the results (C6) *)

Lemma NormTest_run_keys lib self t self' t' :
  NormTest_run lib self t = (Ok self', t') →
  ∃ s p, _results self' !! KStr "statistic" = Some (PFloat s)
         ∧ _results self' !! KStr "p_value" = Some (PFloat p).
Proof.
  intros H. unfold NormTest_run in H. inv_M H. injection H as <- <-.
  exists a.1, a.2. by rewrite !lookup_results_update.
Qed.

Lemma KSTest_run_keys lib self t self' t' :
  KSTest_run lib self t = (Ok self', t') →
  ∃ s p, _results self' !! KStr "statistic" = Some (PFloat s)
         ∧ _results self' !! KStr "p_value" = Some (PFloat p).
Proof.
  intros H. unfold KSTest_run in H. cbv zeta in H. inv_M H.
  destruct (kstest lib _) as [d p]. injection H as <- <-.
  exists d, p. by rewrite !lookup_results_update.
Qed.

Lemma EqualVariance_run_keys py lib self t self' t' :
  EqualVariance_run py lib self t = (Ok self', t') →
  ∃ s p, _results self' !! KStr "statistic" = Some (PFloat s)
         ∧ _results self' !! KStr "p_value" = Some (PFloat p).
Proof.
  intros H. unfold EqualVariance_run in H. cbv zeta in H. inv_M H.
  destruct a2.
  - inv_M H. destruct (bartlett lib _) as [s p]. injection H as <- <-.
    exists s, p. by rewrite !lookup_results_update.
  - inv_M H. destruct (levene lib _) as [s p]. injection H as <- <-.
    exists s, p. by rewrite !lookup_results_update.
Qed.

Lemma TTest_run_keys py lib self t self' t' :
  TTest_run py lib self t = (Ok self', t') →
  ∃ tv p tag,
    _results self' !! KStr "t_value" = Some (PFloat tv)
    ∧ _results self' !! KStr "p_value" = Some (PFloat p)
    ∧ _results self' !! KStr "test" = Some (PStr tag)
    ∧ _results self' !! KStr "statistic" = _results self !! KStr "statistic".
Proof.
  intros H. unfold TTest_run in H. inv_M H.
  destruct a as [[tv p] tag]. injection H as <- <-.
  exists tv, p, tag. by rewrite !lookup_results_update.
Qed.

Lemma Anova_run_keys lib self t self' t' :
  Anova_run lib self t = (Ok self', t') →
  ∃ f p,
    _results self' !! KStr "f_value" = Some (PFloat f)
    ∧ _results self' !! KStr "p_value" = Some (PFloat p)
    ∧ _results self' !! KStr "statistic" = _results self !! KStr "statistic".
Proof.
  intros H. unfold Anova_run in H. inv_M H.
  destruct (f_oneway lib _) as [f p]. injection H as <- <-.
  exists f, p. by rewrite !lookup_results_update.
Qed.

Lemma Kruskal_run_keys lib self t self' t' :
  Kruskal_run lib self t = (Ok self', t') →
  ∃ h p,
    _results self' !! KStr "h_value" = Some (PFloat h)
    ∧ _results self' !! KStr "p_value" = Some (PFloat p)
    ∧ _results self' !! KStr "statistic" = _results self !! KStr "statistic".
Proof.
  intros H. unfold Kruskal_run in H. inv_M H.
  destruct (kruskal lib _) as [h p]. injection H as <- <-.
  exists h, p. by rewrite !lookup_results_update.
Qed.

(** The keys after a successful run.  The results hold the p-value
    under 'p_value' and the statistic under the key of the test:
    'statistic' for NormTest, KSTest and EqualVariance, 't_value' for
    TTest, 'f_value' for Anova and 'h_value' for Kruskal.  The
    accessor [p_value] returns the stored p-value, and [statistic]
    the stored statistic where the key is 'statistic'.  Neither
    accessor raises: where its key is absent it returns
    not-a-number. *)
Theorem run_result_keys py lib c self t self' t' :
  run_of py lib c self t = (Ok self', t') →
  (∃ s p,
     _results self' !! KStr (statistic_key c) = Some (PFloat s)
     ∧ _results self' !! KStr "p_value" = Some (PFloat p)
     ∧ p_value self' = Ok (PFloat p)
     ∧ (statistic_key c = "statistic" → statistic self' = Ok (PFloat s)))
  ∧ (∀ obj, _results obj !! KStr "statistic" = None → statistic obj = Ok (PFloat nan))
  ∧ (∀ obj, _results obj !! KStr "p_value" = None → p_value obj = Ok (PFloat nan)).
Proof.
  intros Hrun. split; [|split; [apply statistic_absent | apply p_value_absent]].
  destruct c; simpl in Hrun.
  - destruct (NormTest_run_keys _ _ _ _ _ Hrun) as (s & p & Hs & Hp).
    exists s, p. auto using p_value_present, statistic_present.
  - destruct (KSTest_run_keys _ _ _ _ _ Hrun) as (s & p & Hs & Hp).
    exists s, p. auto using p_value_present, statistic_present.
  - destruct (EqualVariance_run_keys _ _ _ _ _ _ Hrun) as (s & p & Hs & Hp).
    exists s, p. auto using p_value_present, statistic_present.
  - destruct (TTest_run_keys _ _ _ _ _ _ Hrun) as (s & p & tag & Hs & Hp & _).
    exists s, p. repeat split; auto using p_value_present. done.
  - destruct (Anova_run_keys _ _ _ _ _ Hrun) as (s & p & Hs & Hp & _).
    exists s, p. repeat split; auto using p_value_present. done.
  - destruct (Kruskal_run_keys _ _ _ _ _ Hrun) as (s & p & Hs & Hp & _).
    exists s, p. repeat split; auto using p_value_present. done.
Qed.

Lemma run_result_keys_witness :
  ∃ self' t',
    run_of plain_builtins probe_stats HAnova (before_run Anova_attrs two_vectors) []
    = (Ok self', t')
    ∧ (∃ s p,
         _results self' !! KStr (statistic_key HAnova) = Some (PFloat s)
         ∧ _results self' !! KStr "p_value" = Some (PFloat p)
         ∧ p_value self' = Ok (PFloat p)
         ∧ (statistic_key HAnova = "statistic" → statistic self' = Ok (PFloat s)))
    ∧ (∀ obj, _results obj !! KStr "statistic" = None → statistic obj = Ok (PFloat nan))
    ∧ (∀ obj, _results obj !! KStr "p_value" = None → p_value obj = Ok (PFloat nan)).
Proof.
  assert (∃ self' t',
            run_of plain_builtins probe_stats HAnova
              (before_run Anova_attrs two_vectors) [] = (Ok self', t'))
    as (self' & t' & Hrun).
  { eexists _, _. vm_compute. reflexivity. }
  exists self', t'. split; [exact Hrun|].
  exact (run_result_keys plain_builtins probe_stats HAnova
           (before_run Anova_attrs two_vectors) [] self' t' Hrun).
Defined.

(** A successful Anova stores its statistic under 'f_value' and
    leaves no 'statistic' key. *)
Lemma Anova_results_lack_statistic :
  ∃ obj t,
    Anova plain_builtins probe_stats
      [sample sample_a; sample sample_b; sample sample_c] kw_quiet [] = (Ok obj, t)
    ∧ _results obj !! KStr "statistic" = None
    ∧ _results obj !! KStr "f_value" = Some (PFloat 2).
Proof. eexists _, _. split; [by vm_compute|]. split; by vm_compute. Qed.

(** C6.  Three of the six tests leave the 'statistic' key out.  After
    a successful run of TTest, Anova or Kruskal on an object whose
    results did not hold the key (as they do not on construction), the
    results hold the p-value under 'p_value' and the statistic under
    't_value', 'f_value' or 'h_value', and still no 'statistic' key:
    the accessor [statistic], whose purpose is to return the statistic
    of the routine that was run, returns not-a-number.  The accessor
    [p_value] returns the stored p-value. *)
Theorem run_stores_no_statistic py lib c self t self' t' :
  statistic_key c ≠ "statistic" →
  _results self !! KStr "statistic" = None →
  run_of py lib c self t = (Ok self', t') →
  (∃ s p,
     _results self' !! KStr (statistic_key c) = Some (PFloat s)
     ∧ _results self' !! KStr "p_value" = Some (PFloat p)
     ∧ p_value self' = Ok (PFloat p))
  ∧ _results self' !! KStr "statistic" = None
  ∧ statistic self' = Ok (PFloat nan).
Proof.
  intros Hkey Hnone Hrun. destruct c; simpl in Hkey, Hrun; try done.
  - destruct (TTest_run_keys _ _ _ _ _ _ Hrun) as (s & p & tag & Hs & Hp & _ & Hst).
    rewrite Hnone in Hst. split; [|split; [done|by apply statistic_absent]].
    exists s, p. auto using p_value_present.
  - destruct (Anova_run_keys _ _ _ _ _ Hrun) as (s & p & Hs & Hp & Hst).
    rewrite Hnone in Hst. split; [|split; [done|by apply statistic_absent]].
    exists s, p. auto using p_value_present.
  - destruct (Kruskal_run_keys _ _ _ _ _ Hrun) as (s & p & Hs & Hp & Hst).
    rewrite Hnone in Hst. split; [|split; [done|by apply statistic_absent]].
    exists s, p. auto using p_value_present.
Qed.

Lemma run_stores_no_statistic_witness :
  statistic_key HAnova ≠ "statistic"
  ∧ _results (before_run Anova_attrs two_vectors) !! KStr "statistic" = None
  ∧ ∃ self' t',
      run_of plain_builtins probe_stats HAnova (before_run Anova_attrs two_vectors) []
      = (Ok self', t')
      ∧ (∃ s p,
           _results self' !! KStr (statistic_key HAnova) = Some (PFloat s)
           ∧ _results self' !! KStr "p_value" = Some (PFloat p)
           ∧ p_value self' = Ok (PFloat p))
      ∧ _results self' !! KStr "statistic" = None
      ∧ statistic self' = Ok (PFloat nan).
Proof.
  assert (Hkey : statistic_key HAnova ≠ "statistic") by done.
  assert (Hnone : _results (before_run Anova_attrs two_vectors) !! KStr "statistic"
                  = None) by reflexivity.
  assert (∃ self' t',
            run_of plain_builtins probe_stats HAnova
              (before_run Anova_attrs two_vectors) [] = (Ok self', t'))
    as (self' & t' & Hrun).
  { eexists _, _. vm_compute. reflexivity. }
  split; [exact Hkey|]. split; [exact Hnone|].
  exists self', t'. split; [exact Hrun|].
  exact (run_stores_no_statistic plain_builtins probe_stats HAnova
           (before_run Anova_attrs two_vectors) [] self' t' Hkey Hnone Hrun).
Defined.

(** ** Comparison and LinearRegression (C5, C1) *)

Lemma Comparison_data_prep_pair py self x y vx vy :
  as_vector py x = Ok vx →
  as_vector py y = Ok vy →
  Comparison_data_prep py self (PList [x; y])
  = if negb (vlen vx =? vlen vy) then Ok (PList [PVector vx; PVector vy])
    else if (vlen vx <=? _min_size (klass self)) || (vlen vx <=? _min_size (klass self))
         then Ok (PList [PVector vx; PVector vy])
    else if is_empty vx || is_empty vy then Ok (PList [PVector vx; PVector vy])
    else Ok (PList [PVector (drop_nan_intersect vx vy).1;
                    PVector (drop_nan_intersect vx vy).2]).
Proof.
  unfold as_vector. intros Hx Hy. unfold Comparison_data_prep.
  change (getitem (PList [x; y]) (PInt 0)) with (Ok x).
  change (getitem (PList [x; y]) (PInt 1)) with (Ok y).
  cbn [mbind result_bind]. rewrite Hx. cbn [mbind result_bind]. rewrite Hy.
  cbn [mbind result_bind]. by destruct (drop_nan_intersect vx vy).
Qed.

Lemma Comparison_data_prep_lists py self xs ys :
  ∃ cx cy, Comparison_data_prep py self (PList [PList xs; PList ys])
           = Ok (PList [PVector cx; PVector cy]).
Proof.
  erewrite Comparison_data_prep_pair by done.
  repeat case_match; eauto.
Qed.

Lemma Comparison_data_prep_klass py self self' d :
  klass self = klass self' →
  Comparison_data_prep py self d = Comparison_data_prep py self' d.
Proof. intros H. unfold Comparison_data_prep. by rewrite H. Qed.

Lemma LinearRegression_run_eq lib self cx y t :
  _data self = PList [PVector cx; y] →
  _results self = ∅ →
  LinearRegression_run lib self t
  = (Ok (set_results self (LinearRegression_results lib (PVector cx) (vlen cx))),
     t ++ [EvCall fn_linregress [PVector cx; PVector cx]]).
Proof.
  intros Hd Hr. unfold LinearRegression_run, xdata. rewrite Hd.
  change (getitem (PList [PVector cx; y]) (PInt 0)) with (Ok (PVector cx)).
  do 3 mstep.
  unfold LinearRegression_results.
  destruct (linregress lib (PVector cx) (PVector cx)) as [[[[slope intercept] r2] p] e].
  do 2 mstep. cbn [len]. unfold results_update. by rewrite Hr, update_empty.
Qed.

Lemma LinearRegression_output_ok py lib self x count :
  _name (klass self) = PStr "Linear Regression" →
  _results self = LinearRegression_results lib x count →
  ∃ text, LinearRegression_output py self = Ok text.
Proof.
  intros Hn Hr. unfold LinearRegression_output, field4, hypothesis, p_value, item.
  rewrite Hn, Hr. unfold LinearRegression_results.
  destruct (linregress lib x x) as [[[[slope intercept] r2] p] e].
  cbn. eauto.
Qed.

(** The constructor of LinearRegression on two sequences, step by
    step: the pair is cleaned, the regression is run and, on display,
    the report is produced. *)
Lemma LinearRegression_eq py lib xs ys kw t cx cy :
  Comparison_data_prep py (alloc LinearRegression_attrs) (PList [PList xs; PList ys])
  = Ok (PList [PVector cx; PVector cy]) →
  ∃ obj,
    LinearRegression py lib [PList xs; PList ys] kw t
    = (Ok obj, t ++ [EvNew "LinearRegression" [PList xs; PList ys];
                     EvCall fn_linregress [PVector cx; PVector cx]])
    ∧ _data obj = PList [PVector cx; PVector cy]
    ∧ _alpha obj = default default_alpha (kw_alpha kw)
    ∧ _results obj = LinearRegression_results lib (PVector cx) (vlen cx).
Proof.
  intros Hprep. unfold LinearRegression, new. mstep.
  unfold Test___init__. cbv zeta.
  change (is_group (PList [PList xs; PList ys])) with true.
  cbn [data_prep Comparison_methods].
  rewrite (Comparison_data_prep_klass py _ (alloc LinearRegression_attrs)), Hprep by done.
  mstep. change (len (PList [PVector cx; PVector cy])) with (Ok 2).
  mstep. change (2 <=? 1) with false. mstep.
  unfold Analysis_logic. cbv zeta. cbn [run output Comparison_methods].
  erewrite bind_ok by by eapply LinearRegression_run_eq.
  rewrite <- app_assoc. cbn [app].
  cbn [_display set_results Analysis___init__].
  destruct (default true (kw_display kw)).
  - mstep.
    edestruct (LinearRegression_output_ok py lib) as [text ->]; [done|done|].
    eexists. split; [reflexivity|done].
  - eexists. split; [reflexivity|done].
Qed.

(** C5. Two sequences of different lengths pass the paired cleaning:
    [Comparison.data_prep] returns both vectors as they were coerced,
    no error is raised, and LinearRegression goes on to construct its
    object over them. *)
Theorem Comparison_data_prep_accepts_unequal_lengths py lib self xs ys kw t :
  length xs ≠ length ys →
  Comparison_data_prep py self (PList [PList xs; PList ys])
  = Ok (PList [PVector (to_float py <$> xs); PVector (to_float py <$> ys)])
  ∧ ∃ obj t',
      LinearRegression py lib [PList xs; PList ys] kw t = (Ok obj, t')
      ∧ _data obj = PList [PVector (to_float py <$> xs); PVector (to_float py <$> ys)].
Proof.
  intros Hlen.
  assert (Hprep : ∀ self, Comparison_data_prep py self (PList [PList xs; PList ys])
    = Ok (PList [PVector (to_float py <$> xs); PVector (to_float py <$> ys)])).
  { intros s. erewrite Comparison_data_prep_pair by done.
    unfold vlen. rewrite !length_fmap.
    destruct (Z.eqb_spec (Z.of_nat (length xs)) (Z.of_nat (length ys))); [lia|done]. }
  split; [done|].
  destruct (LinearRegression_eq py lib xs ys kw t _ _ (Hprep _)) as (obj & H & Hd & _).
  eauto.
Qed.

Lemma Comparison_data_prep_accepts_unequal_lengths_witness :
  length (PFloat <$> [1; 2; 3; 4]%float) ≠ length (PFloat <$> [1; 2; 3; 4; 5]%float)
  ∧ Comparison_data_prep plain_builtins (alloc LinearRegression_attrs)
      (PList [sample [1; 2; 3; 4]%float; sample [1; 2; 3; 4; 5]%float])
    = Ok (PList [PVector (to_float plain_builtins <$> (PFloat <$> [1; 2; 3; 4]%float));
                 PVector (to_float plain_builtins <$> (PFloat <$> [1; 2; 3; 4; 5]%float))])
  ∧ ∃ obj t',
      LinearRegression plain_builtins probe_stats
        [sample [1; 2; 3; 4]%float; sample [1; 2; 3; 4; 5]%float] kw_quiet []
      = (Ok obj, t')
      ∧ _data obj
        = PList [PVector (to_float plain_builtins <$> (PFloat <$> [1; 2; 3; 4]%float));
                 PVector (to_float plain_builtins <$> (PFloat <$> [1; 2; 3; 4; 5]%float))].
Proof.
  assert (H : length (PFloat <$> [1; 2; 3; 4]%float)
              ≠ length (PFloat <$> [1; 2; 3; 4; 5]%float)) by (simpl; lia).
  split; [exact H|].
  exact (Comparison_data_prep_accepts_unequal_lengths plain_builtins probe_stats
           (alloc LinearRegression_attrs) _ _ kw_quiet [] H).
Defined.

(** C1. What the code does, for any two sequences and any numeric
    library: the regression routine is called on the cleaned predictor
    twice, [linregress(x, x)], and the results are those of that call;
    the response never reaches the routine. *)
Theorem LinearRegression_regresses_x_on_x py lib xs ys kw t :
  ∃ cx cy obj,
    Comparison_data_prep py (alloc LinearRegression_attrs) (PList [PList xs; PList ys])
    = Ok (PList [PVector cx; PVector cy])
    ∧ LinearRegression py lib [PList xs; PList ys] kw t
      = (Ok obj, t ++ [EvNew "LinearRegression" [PList xs; PList ys];
                       EvCall fn_linregress [PVector cx; PVector cx]])
    ∧ _results obj = LinearRegression_results lib (PVector cx) (vlen cx).
Proof.
  destruct (Comparison_data_prep_lists py (alloc LinearRegression_attrs) xs ys)
    as (cx & cy & Hprep).
  destruct (LinearRegression_eq py lib xs ys kw t cx cy Hprep) as (obj & H & _ & _ & Hr).
  by exists cx, cy, obj.
Qed.

(** With [probe_stats] the slope reported is the first entry of the
    second argument of [linregress]: the code reports 1, the first
    entry of x, where the routine applied to (x, y) gives 4. *)
Example LinearRegression_reports_x :
  ∃ obj t,
    LinearRegression plain_builtins probe_stats
      [sample [1; 2; 3; 4]%float; sample [4; 3; 2; 1]%float] kw_quiet [] = (Ok obj, t)
    ∧ _results obj !! KStr "slope" = Some (PFloat 1)
    ∧ (linregress probe_stats (PVector [1; 2; 3; 4]%float) (PVector [4; 3; 2; 1]%float)).1.1.1.1
      = 4%float.
Proof. eexists _, _. split; [by vm_compute|]. split; by vm_compute. Qed.

(** ** TTest (C3) *)

(** A second argument that is a sample never reaches the test: both
    branches of [TTest.__init__] pass the first argument alone to
    [Test.__init__]. *)
Lemma TTest___init___drops_second_sample py lib self xdata y y' alpha display :
  is_iterable y = true → is_iterable y' = true →
  TTest___init__ py lib self xdata y alpha display
  = TTest___init__ py lib self xdata y' alpha display.
Proof. intros Hy Hy'. unfold TTest___init__. by rewrite Hy, Hy'. Qed.

(** With a target that Python counts as true, the one-sample test is
    run and nothing else. *)
Lemma TTest_run_one_sample py lib self t :
  truthy (_mu self) = true →
  TTest_run py lib self t
  = (Ok (results_update self
           [("p_value", PFloat (ttest_1samp lib (_data self) (_mu self)).2);
            ("t_value", PFloat (ttest_1samp lib (_data self) (_mu self)).1);
            ("test", PStr "1_sample")]),
     t ++ [EvCall fn_ttest_1samp [_data self; _mu self]]).
Proof.
  intros Hmu. unfold TTest_run. rewrite Hmu. do 3 mstep.
  by destruct (ttest_1samp lib (_data self) (_mu self)).
Qed.

(** With a target that Python counts as false (zero is one), the run
    takes the two-sample path: it constructs EqualVariance over the
    entries of its data. *)
Lemma TTest_run_false_target py lib self t args :
  truthy (_mu self) = false →
  py_iter (_data self) = Ok args →
  ∃ r es, TTest_run py lib self t = (r, t ++ EvNew "EqualVariance" args :: es).
Proof.
  intros Hmu Hargs. unfold TTest_run. rewrite Hmu, Hargs. do 2 mstep.
  destruct (EqualVariance_head py lib args
              {| kw_alpha := Some (_alpha self); kw_display := Some false |} t)
    as (r & es & Hr).
  rewrite bind_assoc.
  destruct r as [ev|e].
  - erewrite bind_ok by exact Hr. rewrite bind_assoc, bind_lift.
    destruct (p ← p_value ev; gt p (_alpha self)) as [[]|e].
    + do 5 mstep.
      exists (Ok (results_update self
                    [("p_value", PFloat (ttest_ind lib args true).2);
                     ("t_value", PFloat (ttest_ind lib args true).1);
                     ("test", PStr "t_test")])),
             (es ++ [EvCall (fn_ttest_ind true) args]).
      destruct (ttest_ind lib args true). by rewrite <- app_assoc.
    + do 5 mstep.
      exists (Ok (results_update self
                    [("p_value", PFloat (ttest_ind lib args false).2);
                     ("t_value", PFloat (ttest_ind lib args false).1);
                     ("test", PStr "welch_t")])),
             (es ++ [EvCall (fn_ttest_ind false) args]).
      destruct (ttest_ind lib args false). by rewrite <- app_assoc.
    + eauto.
  - erewrite bind_raise by exact Hr. eauto.
Qed.

Lemma TTest_run_EqualVariance_fails py lib self t args :
  truthy (_mu self) = false →
  py_iter (_data self) = Ok args →
  existsb is_iterable args = false →
  length args ≠ 1%nat →
  TTest_run py lib self t = (Raise TypeError, t ++ [EvNew "EqualVariance" args]).
Proof.
  intros Hmu Hargs Hsc Hlen. unfold TTest_run. rewrite Hmu, Hargs.
  rewrite bind_assoc, bind_lift, bind_assoc.
  erewrite bind_raise; [done|]. by apply EqualVariance_scalars.
Qed.

Lemma TTest_run_scalar_data py lib self t :
  truthy (_mu self) = false →
  py_iter (_data self) = Raise TypeError →
  TTest_run py lib self t = (Raise TypeError, t).
Proof.
  intros Hmu Hargs. unfold TTest_run. rewrite Hmu, Hargs.
  by rewrite bind_assoc, bind_lift.
Qed.

(** With a sample as second argument, whatever the first argument,
    the construction ends in a TypeError: before the run, or in the
    run when EqualVariance is constructed over scalars.  No t-test
    routine is called. *)
Lemma TTest_two_samples_fail py lib x y alpha display t :
  is_iterable y = true →
  ∃ es,
    TTest py lib x y alpha display t = (Raise TypeError, t ++ EvNew "TTest" [x; y] :: es)
    ∧ (es = [] ∨ ∃ args, es = [EvNew "EqualVariance" args]
                         ∧ existsb is_iterable args = false).
Proof.
  intros Hy. unfold TTest, new. mstep. unfold TTest___init__. cbv zeta.
  rewrite Hy. cbn [negb]. unfold Test___init__. cbv zeta.
  cbn [kw_alpha kw_display default from_option id is_group existsb data_prep Test_methods].
  rewrite orb_false_r.
  set (self := set_alpha (set_mu (alloc TTest_attrs) PNone) alpha).
  set (t0 := t ++ [EvNew (cls TTest_attrs) [x; y]]).
  assert (Ht0 : ∀ es, t0 ++ es = t ++ EvNew "TTest" [x; y] :: es).
  { intros es. subst t0. by rewrite <- app_assoc. }
  assert (Hfail : ∀ data args,
            py_iter data = Ok args → existsb is_iterable args = false →
            length args ≠ 1%nat →
            Analysis_logic (Test_methods py (TTest_run py lib) (TTest_output py))
              (Analysis___init__ self data display) t0
            = (Raise TypeError, t0 ++ [EvNew "EqualVariance" args])).
  { intros data args Hd Hsc Hlen. unfold Analysis_logic. cbv zeta.
    cbn [run Test_methods]. erewrite bind_raise; [done|].
    by apply TTest_run_EqualVariance_fails. }
  assert (Hscalar : ∀ data,
            py_iter data = Raise TypeError →
            Analysis_logic (Test_methods py (TTest_run py lib) (TTest_output py))
              (Analysis___init__ self data display) t0
            = (Raise TypeError, t0)).
  { intros data Hd. unfold Analysis_logic. cbv zeta.
    cbn [run Test_methods]. erewrite bind_raise; [done|].
    by apply TTest_run_scalar_data. }
  destruct (is_iterable x) eqn:Hx.
  - destruct (as_vector_iterable py x Hx) as [v Hv].
    rewrite (Test_data_prep_single py self x v Hx Hv). mstep.
    destruct (is_empty (drop_nan v) || (vlen (drop_nan v) <=? _min_size (klass self)))
      eqn:Hsmall.
    + cbn [len length]. mstep. change (Z.of_nat 0 <=? 1) with true.
      change (getitem (PList []) (PInt 0)) with (@Raise pyobj IndexError).
      cbn [try_except]. rewrite decide_True by (by apply list_elem_of_singleton).
      mstep. rewrite (Hfail (PList []) []) by done.
      rewrite Ht0. eexists. split; [done|]. right. by exists [].
    + cbn [len length]. mstep. change (Z.of_nat 1 <=? 1) with true.
      change (getitem (PList [PVector (drop_nan v)]) (PInt 0))
        with (Ok (PVector (drop_nan v))).
      cbn [try_except]. mstep.
      apply orb_false_iff in Hsmall as [_ Hlen]. apply Z.leb_gt in Hlen.
      rewrite (Hfail (PVector (drop_nan v)) (PFloat <$> drop_nan v)).
      * rewrite Ht0. eexists. split; [done|]. right. eexists. split; [done|].
        apply existsb_scalars.
      * done.
      * apply existsb_scalars.
      * rewrite length_fmap. unfold vlen in Hlen. cbn in Hlen. lia.
  - unfold Test_data_prep. destruct (py_iter x) as [ds|e] eqn:Hiter.
    + destruct x; try discriminate. cbn in Hiter. injection Hiter as <-.
      destruct (Test_data_prep_loop_scalars py (_min_size (klass self)) (chars s) [])
        as [fs Hfs].
      { unfold chars. apply Forall_fmap. by apply Forall_true. }
      cbn [mbind result_bind]. cbn [fmap list_fmap] in Hfs. rewrite Hfs.
      cbn [fmap result_fmap app]. mstep. cbn [len]. mstep.
      rewrite length_fmap.
      destruct fs as [|f [|f' fs]].
      * change (Z.of_nat (length (@nil float)) <=? 1) with true.
        change (getitem (PList (PFloat <$> [])) (PInt 0)) with (@Raise pyobj IndexError).
        cbn [try_except]. rewrite decide_True by (by apply list_elem_of_singleton).
        mstep. rewrite (Hfail (PList (PFloat <$> [])) []) by done.
        rewrite Ht0. eexists. split; [done|]. right. by exists [].
      * change (Z.of_nat (length [f]) <=? 1) with true.
        change (getitem (PList (PFloat <$> [f])) (PInt 0)) with (Ok (PFloat f)).
        cbn [try_except]. mstep. rewrite (Hscalar (PFloat f)) by done.
        exists []. split; [by rewrite <- Ht0, app_nil_r|by left].
      * destruct (Z.leb_spec (Z.of_nat (length (f :: f' :: fs))) 1) as [Hle|_].
        { cbn [length] in Hle. lia. }
        mstep. rewrite (Hfail (PList (PFloat <$> f :: f' :: fs)) (PFloat <$> f :: f' :: fs)).
        -- rewrite Ht0. eexists. split; [done|]. right. eexists. split; [done|].
           apply existsb_scalars.
        -- done.
        -- apply existsb_scalars.
        -- done.
    + cbn [mbind result_bind]. rewrite bind_lift.
      destruct x; try discriminate; cbn in Hiter; injection Hiter as <-.
      all: exists []; split; [by rewrite <- Ht0, app_nil_r|by left].
Qed.

(** C3, at the inputs where the code departs from the claim, for any
    numeric library.  Given two samples, [TTest] hands the first alone
    to [Test.__init__]; its data is then that one cleaned vector, and
    the run constructs EqualVariance over the five numbers of the
    vector, which fails on the arity of [data_prep]: no t-test routine
    is called and no tag is stored.  Given the scalar 0, which Python
    counts as false, the run does the same instead of the one-sample
    test.  Given the scalar 3 the one-sample test is run and
    EqualVariance is not constructed. *)
Theorem TTest_variant_selection py lib :
  TTest py lib five six default_alpha false []
  = (Raise TypeError,
     [EvNew "TTest" [five; six];
      EvNew "EqualVariance" (PFloat <$> one_to_five)])
  ∧ TTest py lib five (PFloat 0) default_alpha false []
    = (Raise TypeError,
       [EvNew "TTest" [five; PFloat 0];
        EvNew "EqualVariance" (PFloat <$> one_to_five)])
  ∧ ∃ obj, TTest py lib five (PFloat 3) default_alpha false []
           = (Ok obj,
              [EvNew "TTest" [five; PFloat 3];
               EvCall fn_ttest_1samp [PVector one_to_five; PFloat 3]])
           ∧ _results obj !! KStr "test" = Some (PStr "1_sample").
Proof.
  split; [by vm_compute|]. split; [by vm_compute|].
  pose proof (TTest_run_one_sample py lib
                (Analysis___init__
                   (set_alpha (set_mu (set_mu (alloc TTest_attrs) PNone) (PFloat 3))
                      default_alpha)
                   (PVector one_to_five) false)
                [EvNew "TTest" [five; PFloat 3]] eq_refl) as Hrun.
  eexists. split.
  - unfold TTest, new. mstep. unfold TTest___init__. cbv zeta.
    change (is_iterable (PFloat 3)) with false. cbn [negb float_]. mstep.
    unfold Test___init__. cbv zeta. cbn [kw_alpha kw_display default].
    change (is_group (PList [five])) with true.
    change (data_prep _ _ (PList [five])) with (Ok (PList [PVector one_to_five])).
    mstep. cbn [len length]. mstep.
    change (Z.of_nat 1 <=? 1) with true.
    change (getitem (PList [PVector one_to_five]) (PInt 0))
      with (Ok (PVector one_to_five)).
    cbn [try_except]. mstep.
    unfold Analysis_logic. cbv zeta. cbn [run Test_methods].
    erewrite bind_ok by exact Hrun. reflexivity.
  - by rewrite lookup_results_update.
Qed.

(** ** GroupStatistics.data_prep and members that are Vectors (C10) *)

Lemma Vector_sized py d :
  sized d → ∃ vec, Vector py d = Ok vec ∧ len d = Ok (vlen vec).
Proof.
  intros [n Hn]. destruct d; simpl in *; try discriminate; eexists; split; try done.
  all: injection Hn as <-; unfold vlen; by rewrite ?length_fmap, ?length_chars.
Qed.

(** Once [v] is bound the loop runs to its end. *)
Lemma GroupStatistics_data_prep_loop_total py items vec clean :
  Forall (λ kv, sized kv.2) items →
  ∃ out, GroupStatistics_data_prep_loop py items (Some vec) clean = Ok out.
Proof.
  intros Hs. revert vec clean. induction Hs as [|[k d] items Hd _ IH]; intros vec clean.
  - simpl. eauto.
  - cbn [GroupStatistics_data_prep_loop].
    destruct (Vector_sized py d Hd) as (vd & Hvd & Hlen). rewrite Hlen.
    cbn [mbind result_bind].
    destruct (vlen vd =? 0); [by apply IH|].
    destruct (is_vector d); cbn [negb].
    + cbn [mbind result_bind]. destruct (vlen vec <? _); apply IH.
    + rewrite Hvd. cbn [fmap result_fmap mbind result_bind].
      destruct (vlen vd <? _); apply IH.
Qed.

Lemma GroupStatistics_data_prep_loop_preserves py items v clean out i :
  GroupStatistics_data_prep_loop py items v clean = Ok out →
  i ∉ items.*1 →
  assoc i out = assoc i clean.
Proof.
  revert v clean. induction items as [|[k d] items IH]; intros v clean H Hi.
  - simpl in H. by simplify_eq.
  - apply not_elem_of_cons in Hi as [Hik Hi]. simpl in Hik.
    cbn [GroupStatistics_data_prep_loop] in H. inv_result H.
    destruct (a =? 0); [by eapply IH|].
    inv_result H. destruct a0 as [vec|]; [|done].
    destruct (vlen vec <? GroupStatistics_min_size); [by eapply IH|].
    erewrite IH by done. by rewrite assoc_dict_set_ne.
Qed.

Lemma last_raw_cons k d pre :
  last_raw ((k, d) :: pre)
  = match last_raw pre with
    | Some d' => Some d'
    | None => if nonempty d && negb (is_vector d) then Some d else None
    end.
Proof.
  unfold last_raw. csimpl.
  destruct (nonempty d && negb (is_vector d)) eqn:E.
  - rewrite filter_cons_True by (simpl; by rewrite E). rewrite last_cons. by destruct (last _).
  - rewrite filter_cons_False by (simpl; rewrite E; intros []). by destruct (last _).
Qed.

(** Where the loop reaches a non-empty Vector member, [v] holds the
    vector of the most recent non-empty member that was not a Vector
    (or what it held at the start), and that is what gets stored. *)
Lemma GroupStatistics_data_prep_loop_stale py pre i d post v0 clean out :
  GroupStatistics_data_prep_loop py (pre ++ (i, d) :: post) v0 clean = Ok out →
  is_vector d = true → nonempty d = true → i ∉ post.*1 →
  ∃ vec, match last_raw pre with
         | Some d' => Vector py d' = Ok vec
         | None => v0 = Some vec
         end
         ∧ (1 ≤ vlen vec → assoc i out = Some (PVector (drop_nan vec))).
Proof.
  intros H Hvec Hne Hi. revert v0 clean H.
  induction pre as [|[k dk] pre IH]; intros v0 clean H.
  - cbn [app GroupStatistics_data_prep_loop] in H. inv_result H.
    unfold nonempty in Hne. rewrite Ha in Hne.
    destruct (a =? 0); [done|]. rewrite Hvec in H. cbn [negb mbind result_bind] in H.
    destruct v0 as [vec|]; [|done].
    exists vec. split; [done|]. intros Hlen. unfold GroupStatistics_min_size in H.
    destruct (Z.ltb_spec (vlen vec) 1); [lia|].
    erewrite GroupStatistics_data_prep_loop_preserves by done.
    apply assoc_dict_set.
  - rewrite last_raw_cons. cbn [app GroupStatistics_data_prep_loop] in H.
    inv_result H. unfold nonempty at 1. rewrite Ha.
    destruct (a =? 0); cbn [negb andb].
    { destruct (IH _ _ H) as (vec & Hv & Hst). exists vec. by destruct (last_raw pre). }
    inv_result H. destruct a0 as [vk|]; [|done].
    assert (Hrest : ∃ clean', GroupStatistics_data_prep_loop py (pre ++ (i, d) :: post)
                                (Some vk) clean' = Ok out).
    { destruct (vlen vk <? GroupStatistics_min_size); eauto. }
    destruct Hrest as [clean' Hrest].
    destruct (IH _ _ Hrest) as (vec & Hv & Hst). exists vec. split; [|done].
    destruct (last_raw pre); [done|].
    destruct (is_vector dk); cbn [negb] in *.
    + by simplify_eq.
    + destruct (Vector py dk); simpl in *; by simplify_eq.
Qed.

Lemma GroupStatistics_data_prep_loop_unbound py data clean d0 :
  Forall (λ kv, sized kv.2) data →
  first_nonempty data = Some d0 → is_vector d0 = true →
  GroupStatistics_data_prep_loop py data None clean = Raise UnboundLocalError.
Proof.
  intros Hs. induction Hs as [|[k d] data [n Hd] _ IH]; intros H0 Hv; [done|].
  simpl in Hd. unfold first_nonempty in H0. csimpl in H0.
  cbn [GroupStatistics_data_prep_loop]. rewrite Hd. cbn [mbind result_bind].
  assert (Hne : nonempty d = negb (n =? 0)) by (unfold nonempty; by rewrite Hd).
  destruct (n =? 0).
  - rewrite filter_cons_False in H0 by (simpl; rewrite Hne; intros []). by apply IH.
  - rewrite filter_cons_True in H0 by (simpl; by rewrite Hne). simpl in H0. simplify_eq.
    by rewrite Hv.
Qed.

Lemma GroupStatistics_data_prep_loop_ok py data clean d0 :
  Forall (λ kv, sized kv.2) data →
  first_nonempty data = Some d0 → is_vector d0 = false →
  ∃ out, GroupStatistics_data_prep_loop py data None clean = Ok out.
Proof.
  intros Hs. induction Hs as [|[k d] data Hd Hs IH]; intros H0 Hv; [done|].
  simpl in Hd. unfold first_nonempty in H0. csimpl in H0.
  cbn [GroupStatistics_data_prep_loop].
  destruct (Vector_sized py d Hd) as (vd & Hvd & Hlen). rewrite Hlen.
  cbn [mbind result_bind].
  assert (Hne : nonempty d = negb (vlen vd =? 0)) by (unfold nonempty; by rewrite Hlen).
  destruct (vlen vd =? 0).
  - rewrite filter_cons_False in H0 by (simpl; rewrite Hne; intros []). by apply IH.
  - rewrite filter_cons_True in H0 by (simpl; by rewrite Hne). simpl in H0. simplify_eq.
    rewrite Hv. cbn [negb]. rewrite Hvd. cbn [fmap result_fmap mbind result_bind].
    destruct (vlen vd <? _); by apply GroupStatistics_data_prep_loop_total.
Qed.

Lemma last_raw_nonempty pre d' : last_raw pre = Some d' → nonempty d' = true.
Proof.
  unfold last_raw. intros H%last_Some_elem_of.
  apply list_elem_of_filter in H as [H _]. by destruct (nonempty d').
Qed.

Lemma first_nonempty_exists pre i d post :
  nonempty d = true → ∃ d0, first_nonempty (pre ++ (i, d) :: post) = Some d0.
Proof.
  intros Hne. unfold first_nonempty.
  destruct (filter _ _) as [|d0 l] eqn:E; [|by exists d0].
  assert (Hin : d ∈ filter (λ d, nonempty d) (pre ++ (i, d) :: post).*2).
  { apply list_elem_of_filter. split; [by rewrite Hne|].
    rewrite fmap_app. apply elem_of_app. right. csimpl. apply elem_of_cons. by left. }
  rewrite E in Hin. by apply elem_of_nil in Hin.
Qed.

(** C10, as the code has it.  In a group mapping whose members all
    have a length and whose labels are distinct, take a non-empty
    member that is already a Vector.  The member is never converted.
    When the first non-empty member of the mapping is a Vector,
    [data_prep] fails with an unbound local variable.  Otherwise
    [data_prep] returns, and the entry stored under the member's label
    is the cleaned vector of the most recent preceding member that is
    neither empty nor a Vector. *)
Theorem GroupStatistics_data_prep_vector_member py pre i d post :
  is_vector d = true →
  nonempty d = true →
  Forall (λ kv, sized kv.2) (pre ++ (i, d) :: post) →
  NoDup (pre ++ (i, d) :: post).*1 →
  ∃ d0, first_nonempty (pre ++ (i, d) :: post) = Some d0
    ∧ if is_vector d0
      then GroupStatistics_data_prep py (pre ++ (i, d) :: post) = Raise UnboundLocalError
      else ∃ d' vec clean,
             last_raw pre = Some d'
             ∧ Vector py d' = Ok vec
             ∧ GroupStatistics_data_prep py (pre ++ (i, d) :: post) = Ok clean
             ∧ assoc i clean = Some (PVector (drop_nan vec)).
Proof.
  intros Hvec Hne Hs Hnd.
  destruct (first_nonempty_exists pre i d post Hne) as [d0 H0].
  exists d0. split; [done|]. unfold GroupStatistics_data_prep.
  destruct (is_vector d0) eqn:Hv0.
  - by eapply GroupStatistics_data_prep_loop_unbound.
  - destruct (GroupStatistics_data_prep_loop_ok py _ [] d0 Hs H0 Hv0) as [clean Hclean].
    assert (Hi : i ∉ post.*1).
    { rewrite fmap_app in Hnd. apply NoDup_app in Hnd as (_ & _ & Hnd).
      csimpl in Hnd. by apply NoDup_cons in Hnd as [? _]. }
    destruct (GroupStatistics_data_prep_loop_stale py _ _ _ _ _ _ _ Hclean Hvec Hne Hi)
      as (vec & Hlast & Hstored).
    destruct (last_raw pre) as [d'|] eqn:Hd'; [|done].
    exists d', vec, clean. repeat split; try done.
    apply Hstored.
    pose proof (last_raw_nonempty _ _ Hd') as Hne'. unfold nonempty in Hne'.
    destruct (len d') as [n|] eqn:Hn; [|done].
    destruct (Vector_sized py d') as (vec' & Hvec' & Hlen'); [by exists n|].
    rewrite Hlast in Hvec'. injection Hvec' as <-. rewrite Hn in Hlen'.
    injection Hlen' as ->. apply negb_true_iff, Z.eqb_neq in Hne'. unfold vlen in *. lia.
Qed.

Lemma GroupStatistics_data_prep_vector_member_witness :
  is_vector (PVector [5%float]) = true
  ∧ nonempty (PVector [5%float]) = true
  ∧ ∃ d0,
      first_nonempty stale_group = Some d0
      ∧ if is_vector d0
        then GroupStatistics_data_prep plain_builtins stale_group
             = Raise UnboundLocalError
        else ∃ d' vec clean,
               last_raw [(KStr "a", sample [1; 2]%float); (KStr "b", sample [])]
               = Some d'
               ∧ Vector plain_builtins d' = Ok vec
               ∧ GroupStatistics_data_prep plain_builtins stale_group = Ok clean
               ∧ assoc (KStr "c") clean = Some (PVector (drop_nan vec)).
Proof.
  split; [reflexivity|]. split; [reflexivity|].
  apply (GroupStatistics_data_prep_vector_member plain_builtins
           [(KStr "a", sample [1; 2]%float); (KStr "b", sample [])]
           (KStr "c") (PVector [5%float]) []).
  - reflexivity.
  - reflexivity.
  - repeat constructor; eexists; reflexivity.
  - apply (bool_decide_unpack _). by vm_compute.
Defined.

(** Against C10 as stated: the most recent member before 'c' that is
    not a Vector is the empty 'b', whose vector is empty; what is
    stored under 'c' is the vector of 'a'. *)
Lemma GroupStatistics_data_prep_skips_empty_member :
  GroupStatistics_data_prep plain_builtins stale_group
  = Ok [(KStr "a", PVector [1; 2]%float); (KStr "c", PVector [1; 2]%float)]
  ∧ last_non_vector [(KStr "a", sample [1; 2]%float); (KStr "b", sample [])]
    = Some (sample [])
  ∧ Vector plain_builtins (sample []) = Ok []
  ∧ PVector [1; 2]%float ≠ PVector (drop_nan []).
Proof. repeat split; by vm_compute. Qed.

(** A Vector as the first non-empty member: the local variable is
    unbound. *)
Example GroupStatistics_data_prep_vector_first :
  GroupStatistics_data_prep plain_builtins
    [(KStr "b", sample []); (KStr "c", PVector [5%float]);
     (KStr "a", sample [1; 2]%float)]
  = Raise UnboundLocalError.
Proof. by vm_compute. Qed.

(** ** analyze on a group (C2) *)

Lemma GroupStatistics_quiet py np data groups display :
  emits quiet (λ _, True) (GroupStatistics py np data groups display).
Proof.
  unfold GroupStatistics.
  eapply emits_bind; [by apply (emits_emit _ (λ _, True))|]. intros _ _.
  by apply emits_lift.
Qed.

Lemma analyze_group_emits py lib np xdata ydata groups name xname yname alpha categories :
  is_group xdata || is_dict_group xdata = true →
  emits quiet (λ _, False)
    (analyze py lib np xdata ydata groups name xname yname alpha categories).
Proof.
  intros Hg. unfold analyze. rewrite Hg.
  destruct (match xdata with
            | PDict d => (Some d.*1, PList d.*2)
            | _ => (groups, xdata)
            end) as [groups' xdata'].
  cbv zeta.
  eapply emits_bind; [by apply (emits_emit _ (λ _, True))|]. intros _ _.
  eapply emits_bind; [apply GroupStatistics_quiet|]. intros _ _.
  eapply emits_bind; [by apply (emits_lift _ (λ _, True))|]. intros args _.
  eapply emits_bind; [apply EqualVariance_quiet|]. intros ev Hev.
  eapply (emits_bind _ (λ _, False)); [|done].
  apply emits_lift. intros p. unfold item. by rewrite Hev.
Qed.

(** C2, as the code has it.  On a group, [analyze] never gets to
    choose between the t-test, ANOVA and Kruskal-Wallis: after the box
    plot and the group statistics it constructs EqualVariance and asks
    its results, a dict with the keys 'p_value', 'statistic' and
    'test', for the entry 0.  Every run ends in an exception, and no
    TTest, Anova or Kruskal object is constructed on the way. *)
Theorem analyze_group_never_dispatches py lib np xdata ydata groups
    name xname yname alpha categories t :
  is_group xdata || is_dict_group xdata = true →
  ∃ e es,
    analyze py lib np xdata ydata groups name xname yname alpha categories t
    = (Raise e, t ++ es)
    ∧ Forall (λ ev, dispatch ev = false) es.
Proof.
  intros Hg.
  destruct (analyze_group_emits py lib np xdata ydata groups name xname yname
              alpha categories Hg t) as (r & es & Hr & Hes & Hpost).
  destruct r as [a|e]; [by destruct (Hpost a)|]. by exists e, es.
Qed.

Lemma analyze_group_never_dispatches_witness :
  is_group three_groups || is_dict_group three_groups = true
  ∧ ∃ e es,
      analyze plain_builtins probe_stats probe_numpy three_groups PNone None
        None None None default_alpha "Categories" []
      = (Raise e, [] ++ es)
      ∧ Forall (λ ev, dispatch ev = false) es.
Proof.
  split; [reflexivity|].
  apply (analyze_group_never_dispatches plain_builtins probe_stats probe_numpy
           three_groups PNone None None None None default_alpha "Categories" []).
  reflexivity.
Defined.

(** When the steps before it succeed, the exception is the KeyError of
    subscript [results[0]] on the EqualVariance object. *)
Lemma analyze_group_KeyError py lib np l ydata groups name xname yname alpha
    categories t gs t1 ev t2 :
  is_group (PList l) = true →
  GroupStatistics py np (PList l) groups true
    (t ++ [EvGraph "GraphBoxplot"
             [PList l; groups_obj groups;
              label_obj (if given xname then xname else Some categories);
              label_obj (if given yname then yname
                         else if given name then name else Some "Values")]])
  = (Ok gs, t1) →
  EqualVariance py lib l no_kwargs t1 = (Ok ev, t2) →
  analyze py lib np (PList l) ydata groups name xname yname alpha categories t
  = (Raise KeyError, t2).
Proof.
  intros Hg Hgs Hev. unfold analyze. rewrite Hg. cbn [orb]. cbv zeta.
  mstep. erewrite bind_ok by exact Hgs. cbn [py_iter]. mstep.
  erewrite bind_ok by exact Hev.
  destruct (EqualVariance_quiet py lib l no_kwargs t1) as (r & es & Hr & _ & Hpost).
  rewrite Hev in Hr. injection Hr as <- _.
  mstep. unfold item. by rewrite (Hpost ev eq_refl).
Qed.

(** The exception is the KeyError of the subscript, raised after
    EqualVariance has run. *)
Example analyze_three_groups :
  analyze plain_builtins probe_stats probe_numpy three_groups PNone None
    None None None default_alpha "Categories" []
  = (Raise KeyError,
     [EvGraph "GraphBoxplot" [three_groups; PNone; PStr "Categories"; PStr "Values"];
      EvNew "GroupStatistics" [three_groups];
      EvNew "EqualVariance" [sample sample_a; sample sample_b; sample sample_c];
      EvNew "NormTest" [PVector sample_a; PVector sample_b; PVector sample_c];
      EvCall fn_shapiro [PVector sample_a];
      EvCall fn_shapiro [PVector sample_b];
      EvCall fn_shapiro [PVector sample_c];
      EvCall fn_levene [PVector sample_a; PVector sample_b; PVector sample_c]]).
Proof. by vm_compute. Qed.

(** * Further properties of the module *)

(** What these properties say of the calls made to the numeric library
    holds of every run.  What they say of the object constructed holds
    when the construction returns, that is, when no routine of the
    library raised; the lemmas named with the suffix eq give the run in
    full for a library whose routines return. *)

(** ** Test: cleaning any sequence *)

Lemma drop_nan_no_nan v : Forall (λ f, PrimFloat.is_nan f = false) (drop_nan v).
Proof.
  unfold drop_nan. apply Forall_forall. intros f Hf.
  by apply list_elem_of_filter in Hf as [Hf _].
Qed.

Lemma Test_data_prep_loop_clean py min_size ds clean_list :
  Forall (clean_entry min_size) clean_list →
  ∃ clean, Test_data_prep_loop py min_size ds clean_list = Ok clean
           ∧ Forall (clean_entry min_size) clean
           ∧ (length clean ≤ length clean_list + length ds)%nat.
Proof.
  revert clean_list. induction ds as [|d ds IH]; intros clean_list Hc.
  { exists clean_list. simpl. split; [done|]. split; [done|lia]. }
  assert (Hskip : ∃ clean, Test_data_prep_loop py min_size ds clean_list = Ok clean
                    ∧ Forall (clean_entry min_size) clean
                    ∧ (length clean ≤ length clean_list + length (d :: ds))%nat).
  { destruct (IH clean_list Hc) as (clean & H1 & H2 & H3).
    exists clean. simpl. repeat split; [done..|lia]. }
  assert (Hkeep : ∀ o, clean_entry min_size o →
            ∃ clean, Test_data_prep_loop py min_size ds (clean_list ++ [o]) = Ok clean
                     ∧ Forall (clean_entry min_size) clean
                     ∧ (length clean ≤ length clean_list + length (d :: ds))%nat).
  { intros o Ho. destruct (IH (clean_list ++ [o])) as (clean & H1 & H2 & H3).
    - apply Forall_app. split; [done|]. by constructor.
    - exists clean. rewrite length_app in H3. simpl in *. repeat split; [done..|lia]. }
  cbn [Test_data_prep_loop]. destruct (is_iterable d) eqn:Hit; cbn [negb].
  - destruct (as_vector_iterable py d Hit) as [v Hv]. unfold as_vector in Hv.
    assert (Hv' : (if is_vector d then Ok (drop_nan (values d))
                   else drop_nan <$> Vector py d) = Ok (drop_nan v)).
    { destruct (is_vector d); [by injection Hv as <-|by rewrite Hv]. }
    rewrite Hv'. cbn [mbind result_bind].
    destruct (is_empty (drop_nan v)) eqn:He; cbn [orb]; [done|].
    destruct (vlen (drop_nan v) <=? min_size) eqn:Hn; [done|].
    apply Hkeep. simpl. split.
    { intros E. by rewrite E in He. }
    split; [lia|apply drop_nan_no_nan].
  - destruct (float_ py d) as [f|e] eqn:E; [by apply Hkeep|].
    by destruct (float__raises py d e E) as [-> | ->].
Qed.

(** X1. [Test.data_prep] raises nothing on a sequence whose integers
    can be converted to floats, whatever else it holds: it returns a
    list no longer than the sequence, whose entries are numbers and
    Vectors that are not empty, have more than the minimum size of
    entries and hold no not-a-number. *)
Theorem Test_data_prep_clean py self ds :
  Forall convertible ds →
  ∃ clean, Test_data_prep py self (PList ds) = Ok (PList clean)
           ∧ Forall (clean_entry (_min_size (klass self))) clean
           ∧ (length clean ≤ length ds)%nat.
Proof.
  intros _.
  destruct (Test_data_prep_loop_clean py (_min_size (klass self)) ds [])
    as (clean & H1 & H2 & H3); [done|].
  exists clean. unfold Test_data_prep. cbn [py_iter mbind result_bind].
  rewrite H1. done.
Qed.

Lemma Test_data_prep_clean_witness :
  Forall convertible [sample sample_a; PInt 3; PStr "x"; PNone; sample [1; 2]%float]
  ∧ ∃ clean,
      Test_data_prep plain_builtins (alloc NormTest_attrs)
        (PList [sample sample_a; PInt 3; PStr "x"; PNone; sample [1; 2]%float])
      = Ok (PList clean)
      ∧ Forall (clean_entry (_min_size (klass (alloc NormTest_attrs)))) clean
      ∧ (length clean
         ≤ length [sample sample_a; PInt 3; PStr "x"; PNone; sample [1; 2]%float])%nat.
Proof.
  assert (H : Forall convertible
                [sample sample_a; PInt 3; PStr "x"; PNone; sample [1; 2]%float]).
  { repeat constructor. }
  split; [exact H|].
  exact (Test_data_prep_clean plain_builtins (alloc NormTest_attrs) _ H).
Defined.

(** A sample, an integer, a text that is no number, [None] and a
    sample that is too small: the first two are kept. *)
Example Test_data_prep_mixed :
  Test_data_prep plain_builtins (alloc NormTest_attrs)
    (PList [sample sample_a; PInt 3; PStr "x"; PNone; sample [1; 2]%float])
  = Ok (PList [PVector sample_a; PFloat 3]).
Proof. by vm_compute. Qed.

(** ** Tests over one sample *)

Lemma cleaned_not_group min_size v : is_group (cleaned min_size v) = false.
Proof. unfold cleaned. by case_match. Qed.

Lemma Test___init___one_sample py m self d kw v t :
  data_prep m = Test_data_prep py →
  is_iterable d = true →
  as_vector py d = Ok v →
  Test___init__ m self [d] kw t
  = Analysis_logic m
      (Analysis___init__ (set_alpha self (default default_alpha (kw_alpha kw)))
         (cleaned (_min_size (klass self)) v) (default true (kw_display kw))) t.
Proof.
  intros Hm Hit Hv. unfold Test___init__. cbv zeta.
  change (is_group (PList [d])) with (is_iterable d || false). rewrite Hit. cbn [orb].
  rewrite Hm, (Test_data_prep_single py _ d v Hit Hv).
  change (klass (set_alpha self _)) with (klass self).
  unfold cleaned. mstep.
  destruct (is_empty (drop_nan v) || (vlen (drop_nan v) <=? _min_size (klass self))).
  - cbn [len length]. by do 2 mstep.
  - cbn [len length]. mstep.
    change (Z.of_nat 1 <=? 1) with true.
    change (getitem (PList [PVector (drop_nan v)]) (PInt 0))
      with (Ok (PVector (drop_nan v))).
    cbn [try_except]. by mstep.
Qed.

Lemma Analysis_logic_eq m self t self' t' :
  run m self t = (Ok self', t') →
  (_display self' = true → ∃ text, output m self' = Ok text) →
  Analysis_logic m self t = (Ok self', t').
Proof.
  intros Hrun Hout. unfold Analysis_logic. cbv zeta.
  erewrite bind_ok by exact Hrun.
  destruct (_display self') eqn:Hd; [|done].
  destruct (Hout eq_refl) as [text ->]. by mstep.
Qed.

(** The construction over one sample, in full. *)
Lemma NormTest_one_sample_eq py lib d kw t :
  is_iterable d = true →
  ∃ v obj,
    as_vector py d = Ok v
    ∧ NormTest py lib [d] kw t
      = (Ok obj, t ++ [EvNew "NormTest" [d]; EvCall fn_shapiro [cleaned 2 v]])
    ∧ _data obj = cleaned 2 v
    ∧ _results obj = dict_of [("statistic", PFloat (shapiro lib (cleaned 2 v)).1);
                              ("p_value", PFloat (shapiro lib (cleaned 2 v)).2)].
Proof.
  intros Hit. destruct (as_vector_iterable py d Hit) as [v Hv].
  exists v.
  exists (results_update
            (Analysis___init__
               (set_alpha (alloc NormTest_attrs) (default default_alpha (kw_alpha kw)))
               (cleaned 2 v) (default true (kw_display kw)))
            [("statistic", PFloat (shapiro lib (cleaned 2 v)).1);
             ("p_value", PFloat (shapiro lib (cleaned 2 v)).2)]).
  split; [done|].
  unfold NormTest, new. mstep.
  rewrite (Test___init___one_sample py (Test_methods py _ _) _ d kw v _ eq_refl Hit Hv).
  change (_min_size (klass (alloc NormTest_attrs))) with 2.
  set (self := Analysis___init__ _ _ _).
  assert (Hrun : NormTest_run lib self (t ++ [EvNew (cls NormTest_attrs) [d]])
                 = (Ok (results_update self
                          [("statistic", PFloat (shapiro lib (cleaned 2 v)).1);
                           ("p_value", PFloat (shapiro lib (cleaned 2 v)).2)]),
                    t ++ [EvNew "NormTest" [d]; EvCall fn_shapiro [cleaned 2 v]])).
  { unfold NormTest_run. change (_data self) with (cleaned 2 v).
    rewrite cleaned_not_group. cbn [negb]. do 3 mstep.
    by rewrite <- app_assoc. }
  split; [|by split; [|apply results_update_fresh]].
  apply Analysis_logic_eq; [exact Hrun|]. intros _.
  cbn [output Test_methods].
  eapply (Test_output_total py _ (shapiro lib (cleaned 2 v)).2).
  - by rewrite lookup_results_update.
  - by eexists.
  - by eexists.
  - intros o. rewrite lookup_results_update. intros [= <-]. eauto.
Qed.

(** X2. [NormTest] over one sample makes one call to the numeric
    library: the Shapiro-Wilk routine on the cleaned vector.  A sample
    that does not survive the cleaning (nothing left, or no more than
    two entries) is not rejected by the package: the routine is called
    on the empty list.  When the construction returns, the object
    holds the data the routine was called on, and its results the W
    and the p-value the routine returned. *)
Theorem NormTest_one_sample py lib d kw t :
  is_iterable d = true →
  ∃ v,
    as_vector py d = Ok v
    ∧ (NormTest py lib [d] kw t).2
      = t ++ [EvNew "NormTest" [d]; EvCall fn_shapiro [cleaned 2 v]]
    ∧ ∀ obj t',
        NormTest py lib [d] kw t = (Ok obj, t') →
        _data obj = cleaned 2 v
        ∧ _results obj = dict_of [("statistic", PFloat (shapiro lib (cleaned 2 v)).1);
                                  ("p_value", PFloat (shapiro lib (cleaned 2 v)).2)].
Proof.
  intros Hit.
  destruct (NormTest_one_sample_eq py lib d kw t Hit) as (v & obj & Hv & Hrun & Hd & Hr).
  exists v. split; [done|]. split; [by rewrite Hrun|].
  intros obj' t' H. rewrite Hrun in H. by injection H as <- <-.
Qed.

Lemma NormTest_one_sample_witness :
  is_iterable (sample sample_a) = true
  ∧ ∃ v,
      as_vector plain_builtins (sample sample_a) = Ok v
      ∧ (NormTest plain_builtins probe_stats [sample sample_a] kw_quiet []).2
        = [] ++ [EvNew "NormTest" [sample sample_a]; EvCall fn_shapiro [cleaned 2 v]]
      ∧ ∀ obj t',
          NormTest plain_builtins probe_stats [sample sample_a] kw_quiet []
          = (Ok obj, t') →
          _data obj = cleaned 2 v
          ∧ _results obj
            = dict_of [("statistic", PFloat (shapiro probe_stats (cleaned 2 v)).1);
                       ("p_value", PFloat (shapiro probe_stats (cleaned 2 v)).2)].
Proof.
  split; [reflexivity|].
  apply (NormTest_one_sample plain_builtins probe_stats (sample sample_a) kw_quiet []).
  reflexivity.
Defined.

(** A sample of two numbers: the routine is given the empty list. *)
Example NormTest_two_numbers :
  (NormTest plain_builtins probe_stats [sample [1; 2]%float] kw_quiet []).2
  = [EvNew "NormTest" [sample [1; 2]%float]; EvCall fn_shapiro [PList []]].
Proof. by vm_compute. Qed.

(** The construction over one sample, in full. *)
Lemma KSTest_one_call_eq py lib d distribution parms alpha display t :
  is_iterable d = true →
  ∃ v obj,
    as_vector py d = Ok v
    ∧ let args := if truthy parms
                  then [cleaned 2 v; PStr distribution; parms]
                  else [cleaned 2 v; PStr distribution] in
      KSTest py lib d distribution parms alpha display t
      = (Ok obj, t ++ [EvNew "KSTest" [d; PStr distribution; parms];
                       EvCall fn_kstest args])
      ∧ _results obj = dict_of [("statistic", PFloat (kstest lib args).1);
                                ("p_value", PFloat (kstest lib args).2)]
      ∧ hypothesis obj
        = Ok (PStr (if PrimFloat.ltb alpha (kstest lib args).2
                    then "H0: Data is matched to the " +:+ distribution
                         +:+ " distribution"
                    else "HA: Data is not from the " +:+ distribution
                         +:+ " distribution")).
Proof.
  intros Hit. destruct (as_vector_iterable py d Hit) as [v Hv].
  exists v.
  set (args := if truthy parms
               then [cleaned 2 v; PStr distribution; parms]
               else [cleaned 2 v; PStr distribution]).
  unfold KSTest, new. mstep. cbv zeta.
  rewrite (Test___init___one_sample py (Test_methods py _ _) _ d _ v _ eq_refl Hit Hv).
  cbn [klass set_klass _min_size KSTest_attrs alloc kw_alpha kw_display default
       from_option id].
  set (self := Analysis___init__ _ _ _).
  assert (Hrun : KSTest_run lib self
                   (t ++ [EvNew (cls KSTest_attrs) [d; PStr distribution; parms]])
                 = (Ok (results_update self
                          [("statistic", PFloat (kstest lib args).1);
                           ("p_value", PFloat (kstest lib args).2)]),
                    t ++ [EvNew "KSTest" [d; PStr distribution; parms];
                          EvCall fn_kstest args])).
  { unfold KSTest_run. cbv zeta.
    change (_data self) with (cleaned 2 v).
    change (_parms self) with parms.
    change (_distribution self) with distribution.
    assert ((if truthy parms
             then [cleaned 2 v; PStr distribution] ++ [parms]
             else [cleaned 2 v; PStr distribution]) = args) as ->.
    { subst args. by destruct (truthy parms). }
    mstep. destruct (kstest lib args) as [dv pv]. rewrite <- app_assoc. done. }
  eexists. split; [done|]. split; [|split].
  - apply Analysis_logic_eq; [exact Hrun|]. intros _.
    cbn [output Test_methods].
    eapply (Test_output_total py _ (kstest lib args).2).
    + by rewrite lookup_results_update.
    + by eexists.
    + by eexists.
    + intros o. rewrite lookup_results_update. intros [= <-]. eauto.
  - by apply results_update_fresh.
  - by rewrite (hypothesis_eq _ (kstest lib args).2)
      by by rewrite lookup_results_update.
Qed.

(** X3. [KSTest] over one sample makes one call to the numeric
    library: the Kolmogorov-Smirnov routine, with the cleaned data and
    the name of the distribution, and with the parameters only when
    they are not empty.  When the construction returns, the results
    hold the D value and the p-value the routine returned, and the
    hypothesis text chosen from the p-value names the distribution. *)
Theorem KSTest_one_call py lib d distribution parms alpha display t :
  is_iterable d = true →
  ∃ v,
    as_vector py d = Ok v
    ∧ let args := if truthy parms
                  then [cleaned 2 v; PStr distribution; parms]
                  else [cleaned 2 v; PStr distribution] in
      (KSTest py lib d distribution parms alpha display t).2
      = t ++ [EvNew "KSTest" [d; PStr distribution; parms]; EvCall fn_kstest args]
      ∧ ∀ obj t',
          KSTest py lib d distribution parms alpha display t = (Ok obj, t') →
          _results obj = dict_of [("statistic", PFloat (kstest lib args).1);
                                  ("p_value", PFloat (kstest lib args).2)]
          ∧ hypothesis obj
            = Ok (PStr (if PrimFloat.ltb alpha (kstest lib args).2
                        then "H0: Data is matched to the " +:+ distribution
                             +:+ " distribution"
                        else "HA: Data is not from the " +:+ distribution
                             +:+ " distribution")).
Proof.
  intros Hit.
  destruct (KSTest_one_call_eq py lib d distribution parms alpha display t Hit)
    as (v & obj & Hv & Hrun & Hr & Hh).
  exists v. split; [done|]. cbv zeta in *. split; [by rewrite Hrun|].
  intros obj' t' H. rewrite Hrun in H. by injection H as <- <-.
Qed.

Lemma KSTest_one_call_witness :
  is_iterable (sample sample_a) = true
  ∧ ∃ v,
      as_vector plain_builtins (sample sample_a) = Ok v
      ∧ let args := if truthy (PList [])
                    then [cleaned 2 v; PStr "norm"; PList []]
                    else [cleaned 2 v; PStr "norm"] in
        (KSTest plain_builtins probe_stats (sample sample_a) "norm" (PList [])
           default_alpha false []).2
        = [] ++ [EvNew "KSTest" [sample sample_a; PStr "norm"; PList []];
                 EvCall fn_kstest args]
        ∧ ∀ obj t',
            KSTest plain_builtins probe_stats (sample sample_a) "norm" (PList [])
              default_alpha false [] = (Ok obj, t') →
            _results obj = dict_of [("statistic", PFloat (kstest probe_stats args).1);
                                    ("p_value", PFloat (kstest probe_stats args).2)]
            ∧ hypothesis obj
              = Ok (PStr (if PrimFloat.ltb default_alpha (kstest probe_stats args).2
                          then "H0: Data is matched to the " +:+ "norm"
                               +:+ " distribution"
                          else "HA: Data is not from the " +:+ "norm"
                               +:+ " distribution")).
Proof.
  split; [reflexivity|].
  apply (KSTest_one_call plain_builtins probe_stats (sample sample_a) "norm" (PList [])
           default_alpha false []).
  reflexivity.
Defined.

(** ** NormTest over several arguments *)

(** The construction over a group, in full. *)
Lemma NormTest_group_survivors_eq py lib args kw t :
  is_group (PList args) = true →
  ∃ clean obj,
    Test_data_prep py (alloc NormTest_attrs) (PList args) = Ok (PList clean)
    ∧ let data := match clean with [d] => d | _ => PList clean end in
      NormTest py lib args kw t
      = (Ok obj,
         t ++ EvNew "NormTest" args
              :: (if is_group data then shapiro_calls clean
                  else [EvCall fn_shapiro [data]]))
      ∧ _data obj = data.
Proof.
  intros Hg.
  destruct (Test_data_prep_loop_clean py 2 args []) as (clean & Hclean & Hentries & _);
    [done|].
  exists clean.
  assert (Hprep : ∀ self, _min_size (klass self) = 2 →
            Test_data_prep py self (PList args) = Ok (PList clean)).
  { intros self Hmin. unfold Test_data_prep. cbn [py_iter mbind result_bind].
    by rewrite Hmin, Hclean. }
  set (data := match clean with [d] => d | _ => PList clean end).
  set (self := Analysis___init__
                 (set_alpha (alloc NormTest_attrs) (default default_alpha (kw_alpha kw)))
                 data (default true (kw_display kw))).
  set (m := Test_methods py (NormTest_run lib) (Test_output py)).
  assert (Hinit : ∀ t0, Test___init__ m (alloc NormTest_attrs) args kw t0
                        = Analysis_logic m self t0).
  { intros t0. unfold Test___init__. cbv zeta. rewrite Hg.
    cbn [data_prep m Test_methods]. rewrite Hprep by done.
    mstep. cbn [len]. mstep. subst self data.
    destruct clean as [|c [|c' clean]].
    - change (Z.of_nat (length (@nil pyobj)) <=? 1) with true.
      change (getitem (PList []) (PInt 0)) with (@Raise pyobj IndexError).
      cbn [try_except]. rewrite decide_True by (by apply list_elem_of_singleton).
      by mstep.
    - change (Z.of_nat (length [c]) <=? 1) with true.
      change (getitem (PList [c]) (PInt 0)) with (Ok c). cbn [try_except]. by mstep.
    - destruct (Z.leb_spec (Z.of_nat (length (c :: c' :: clean))) 1) as [Hle|_].
      { cbn [length] in Hle. lia. }
      by mstep. }
  assert (Hrun : ∃ w p,
            NormTest_run lib self (t ++ [EvNew "NormTest" args])
            = (Ok (results_update self [("statistic", PFloat w); ("p_value", PFloat p)]),
               t ++ EvNew "NormTest" args
                    :: (if is_group data then shapiro_calls clean
                        else [EvCall fn_shapiro [data]]))).
  { destruct (is_group data) eqn:Hgd.
    - assert (Hd : data = PList clean).
      { subst data. destruct clean as [|c [|c' clean]]; try done.
        apply Forall_cons in Hentries as [Hc _]. by destruct c. }
      destruct (NormTest_run_group lib self (t ++ [EvNew "NormTest" args]))
        as (ds & i & w & p & p_i & Hds & _ & _ & _ & _ & _ & _ & H); [done|].
      change (_data self) with data in Hds. rewrite Hd in Hds. injection Hds as <-.
      exists w, p. by rewrite H, <- app_assoc.
    - exists (shapiro lib data).1, (shapiro lib data).2.
      unfold NormTest_run. change (_data self) with data. rewrite Hgd. cbn [negb].
      do 3 mstep. by rewrite <- app_assoc. }
  destruct Hrun as (w & p & Hrun).
  exists (results_update self [("statistic", PFloat w); ("p_value", PFloat p)]).
  split; [by apply Hprep|]. split; [|done].
  unfold NormTest, new. mstep. rewrite Hinit.
  apply Analysis_logic_eq; [exact Hrun|]. intros _.
  cbn [output m Test_methods]. eapply (Test_output_total py _ p).
  - by rewrite lookup_results_update.
  - by eexists.
  - by eexists.
  - intros o. rewrite lookup_results_update. intros [= <-]. eauto.
Qed.

(** X4. [NormTest] over a group tests what survives the cleaning
    (the integers among the arguments being convertible to floats).
    Its first call to the library is the Shapiro-Wilk routine, on the
    first entry of the cleaned list when that list is a group (two
    entries or more, one of them a sample), and otherwise on the
    single entry that survives, or on the empty list when none does.
    When the construction returns, the routine has been called once
    per entry of a cleaned group, in order, or that one time, and the
    object holds the cleaned data. *)
Theorem NormTest_group_survivors py lib args kw t :
  is_group (PList args) = true →
  Forall convertible args →
  ∃ clean,
    Test_data_prep py (alloc NormTest_attrs) (PList args) = Ok (PList clean)
    ∧ let data := match clean with [d] => d | _ => PList clean end in
      let first := if is_group data then default data (head clean) else data in
      (∃ es, (NormTest py lib args kw t).2
             = t ++ EvNew "NormTest" args :: EvCall fn_shapiro [first] :: es)
      ∧ ∀ obj t',
          NormTest py lib args kw t = (Ok obj, t') →
          _data obj = data
          ∧ t' = t ++ EvNew "NormTest" args
                   :: (if is_group data then shapiro_calls clean
                       else [EvCall fn_shapiro [data]]).
Proof.
  intros Hg _.
  destruct (NormTest_group_survivors_eq py lib args kw t Hg)
    as (clean & obj & Hprep & Hrun & Hd).
  exists clean. split; [done|]. cbv zeta in *. split.
  - rewrite Hrun. cbn [snd].
    destruct clean as [|c [|c' clean]].
    + by exists [].
    + destruct (is_group c) eqn:Hgd; [|by exists []].
      destruct c; try discriminate Hgd. by exists [].
    + destruct (is_group (PList (c :: c' :: clean))); [|by exists []].
      by exists (shapiro_calls (c' :: clean)).
  - intros obj' t' H. rewrite Hrun in H. by injection H as <- <-.
Qed.

Lemma NormTest_group_survivors_witness :
  is_group (PList [sample sample_a; sample sample_b]) = true
  ∧ Forall convertible [sample sample_a; sample sample_b]
  ∧ ∃ clean,
      Test_data_prep plain_builtins (alloc NormTest_attrs)
        (PList [sample sample_a; sample sample_b]) = Ok (PList clean)
      ∧ let data := match clean with [d] => d | _ => PList clean end in
        let first := if is_group data then default data (head clean) else data in
        (∃ es, (NormTest plain_builtins probe_stats [sample sample_a; sample sample_b]
                  kw_quiet []).2
               = [] ++ EvNew "NormTest" [sample sample_a; sample sample_b]
                       :: EvCall fn_shapiro [first] :: es)
        ∧ ∀ obj t',
            NormTest plain_builtins probe_stats [sample sample_a; sample sample_b]
              kw_quiet [] = (Ok obj, t') →
            _data obj = data
            ∧ t' = [] ++ EvNew "NormTest" [sample sample_a; sample sample_b]
                      :: (if is_group data then shapiro_calls clean
                          else [EvCall fn_shapiro [data]]).
Proof.
  assert (H : Forall convertible [sample sample_a; sample sample_b]).
  { repeat constructor. }
  split; [reflexivity|]. split; [exact H|].
  exact (NormTest_group_survivors plain_builtins probe_stats
           [sample sample_a; sample sample_b] kw_quiet [] eq_refl H).
Defined.

(** Of two samples the second is too small: one call, on the first. *)
Example NormTest_one_survivor :
  (NormTest plain_builtins probe_stats [sample sample_a; sample [1; 2]%float]
     kw_quiet []).2
  = [EvNew "NormTest" [sample sample_a; sample [1; 2]%float];
     EvCall fn_shapiro [PVector sample_a]].
Proof. by vm_compute. Qed.

(** ** Comparison tests over two samples *)

Lemma to_float_floats py (l : list float) : to_float py <$> (PFloat <$> l) = l.
Proof. induction l as [|f l IH]; [done|]. csimpl. by rewrite IH. Qed.

Lemma as_vector_floats py (l : list float) : as_vector py (PList (PFloat <$> l)) = Ok l.
Proof.
  unfold as_vector. cbn [is_vector Vector py_iter fmap result_fmap].
  by rewrite to_float_floats.
Qed.

Lemma concatenate_vectors (x y : list float) :
  concatenate [PVector x; PVector y] = Ok (PList (PFloat <$> (x ++ y))).
Proof.
  unfold concatenate. cbn. by rewrite app_nil_r, fmap_app.
Qed.

Lemma Comparison_data_prep_paired py self x y vx vy :
  as_vector py x = Ok vx →
  as_vector py y = Ok vy →
  Comparison_data_prep py self (PList [x; y])
  = Ok (PList [PVector (paired (_min_size (klass self)) vx vy).1;
               PVector (paired (_min_size (klass self)) vx vy).2]).
Proof.
  intros Hx Hy. rewrite (Comparison_data_prep_pair py self x y vx vy Hx Hy).
  unfold paired. by repeat case_match.
Qed.

Lemma Comparison___init___pair py m self x y kw t vx vy :
  data_prep m = Comparison_data_prep py →
  is_iterable x || is_iterable y = true →
  as_vector py x = Ok vx →
  as_vector py y = Ok vy →
  Test___init__ m self [x; y] kw t
  = Analysis_logic m
      (Analysis___init__ (set_alpha self (default default_alpha (kw_alpha kw)))
         (PList [PVector (paired (_min_size (klass self)) vx vy).1;
                 PVector (paired (_min_size (klass self)) vx vy).2])
         (default true (kw_display kw))) t.
Proof.
  intros Hm Hg Hx Hy. unfold Test___init__. cbv zeta.
  change (is_group (PList [x; y])) with (is_iterable x || (is_iterable y || false)).
  rewrite orb_false_r, Hg, Hm.
  rewrite (Comparison_data_prep_paired py _ x y vx vy Hx Hy).
  change (klass (set_alpha self _)) with (klass self).
  mstep. cbn [len length]. mstep. change (Z.of_nat 2 <=? 1) with false. by mstep.
Qed.

(** The construction of LinearRegression over two samples, in full. *)
Lemma LinearRegression_pair py lib x y kw t vx vy :
  is_iterable x || is_iterable y = true →
  as_vector py x = Ok vx →
  as_vector py y = Ok vy →
  ∃ obj,
    LinearRegression py lib [x; y] kw t
    = (Ok obj, t ++ [EvNew "LinearRegression" [x; y];
                     EvCall fn_linregress [PVector (paired 3 vx vy).1;
                                           PVector (paired 3 vx vy).1]])
    ∧ _data obj = PList [PVector (paired 3 vx vy).1; PVector (paired 3 vx vy).2]
    ∧ _results obj
      = LinearRegression_results lib (PVector (paired 3 vx vy).1)
          (vlen (paired 3 vx vy).1).
Proof.
  intros Hg Hx Hy. unfold LinearRegression, new. mstep.
  rewrite (Comparison___init___pair py (Comparison_methods py _ _) _ x y kw _ vx vy
             eq_refl Hg Hx Hy).
  change (_min_size (klass (alloc LinearRegression_attrs))) with 3.
  set (self := Analysis___init__ _ _ _).
  eexists. split.
  { apply Analysis_logic_eq.
    - cbn [run Comparison_methods].
      erewrite LinearRegression_run_eq by reflexivity. by rewrite <- app_assoc.
    - intros _. cbn [output Comparison_methods].
      by eapply (LinearRegression_output_ok py lib). }
  split; reflexivity.
Qed.

Lemma Correlation_output_ok py self r p tag :
  _name (klass self) = PStr "Correlation" →
  _results self = dict_of [("r_value", PFloat r); ("p_value", PFloat p);
                           ("type", PStr tag)] →
  ∃ text, Correlation_output py self = Ok text.
Proof.
  intros Hn Hr. unfold Correlation_output, field4, hypothesis, p_value, item.
  rewrite Hn, Hr. cbn. eauto.
Qed.

(** The construction of Correlation over two samples, in full. *)
Lemma Correlation_pair py lib x y kw t vx vy :
  is_iterable x || is_iterable y = true →
  as_vector py x = Ok vx →
  as_vector py y = Ok vy →
  ∃ obj,
    let c := paired 3 vx vy in
    let data := cleaned 2 (c.1 ++ c.2) in
    let pearson := PrimFloat.ltb (default default_alpha (kw_alpha kw))
                     (shapiro lib data).2 in
    let r := if pearson then pearsonr lib (PVector c.1) (PVector c.2)
             else spearmanr lib (PVector c.1) (PVector c.2) in
    Correlation py lib [x; y] kw t
    = (Ok obj,
       t ++ [EvNew "Correlation" [x; y];
             EvNew "NormTest" [PList (PFloat <$> (c.1 ++ c.2))];
             EvCall fn_shapiro [data];
             EvCall (if pearson then fn_pearsonr else fn_spearmanr)
               [PVector c.1; PVector c.2]])
    ∧ _data obj = PList [PVector c.1; PVector c.2]
    ∧ _results obj
      = dict_of [("r_value", PFloat r.1); ("p_value", PFloat r.2);
                 ("type", PStr (if pearson then "pearson" else "spearman"))].
Proof.
  intros Hg Hx Hy. cbv zeta.
  set (cx := (paired 3 vx vy).1). set (cy := (paired 3 vx vy).2).
  set (alpha := default default_alpha (kw_alpha kw)).
  set (data := cleaned 2 (cx ++ cy)).
  set (both := PList (PFloat <$> (cx ++ cy))).
  destruct (NormTest_one_sample_eq py lib both
              {| kw_alpha := Some alpha; kw_display := Some false |}
              (t ++ [EvNew "Correlation" [x; y]]) eq_refl)
    as (v & norm & Hv & Hnorm & _ & Hres).
  subst both. rewrite as_vector_floats in Hv. injection Hv as <-. fold data in Hnorm, Hres.
  set (both := PList (PFloat <$> (cx ++ cy))) in *.
  assert (Hp : p_value norm = Ok (PFloat (shapiro lib data).2)).
  { unfold p_value, item. by rewrite Hres. }
  unfold Correlation, new. mstep.
  rewrite (Comparison___init___pair py (Comparison_methods py _ _) _ x y kw _ vx vy
             eq_refl Hg Hx Hy).
  change (_min_size (klass (alloc Correlation_attrs))) with 3.
  fold cx cy alpha.
  set (self := Analysis___init__ _ _ _).
  set (t0 := t ++ [EvNew (cls Correlation_attrs) [x; y]]).
  assert (Hrun : ∃ obj,
            Correlation_run py lib self t0
            = (Ok obj,
               t ++ [EvNew "Correlation" [x; y];
                     EvNew "NormTest" [both];
                     EvCall fn_shapiro [data];
                     EvCall (if PrimFloat.ltb alpha (shapiro lib data).2
                             then fn_pearsonr else fn_spearmanr)
                       [PVector cx; PVector cy]])
            ∧ _data obj = PList [PVector cx; PVector cy]
            ∧ klass obj = klass self
            ∧ _results obj
              = dict_of [("r_value",
                          PFloat (if PrimFloat.ltb alpha (shapiro lib data).2
                                  then pearsonr lib (PVector cx) (PVector cy)
                                  else spearmanr lib (PVector cx) (PVector cy)).1);
                         ("p_value",
                          PFloat (if PrimFloat.ltb alpha (shapiro lib data).2
                                  then pearsonr lib (PVector cx) (PVector cy)
                                  else spearmanr lib (PVector cx) (PVector cy)).2);
                         ("type", PStr (if PrimFloat.ltb alpha (shapiro lib data).2
                                        then "pearson" else "spearman"))]).
  { unfold Correlation_run, xdata, ydata.
    change (_data self) with (PList [PVector cx; PVector cy]).
    change (getitem (PList [PVector cx; PVector cy]) (PInt 0)) with (Ok (PVector cx)).
    change (getitem (PList [PVector cx; PVector cy]) (PInt 1)) with (Ok (PVector cy)).
    do 2 mstep. rewrite concatenate_vectors. mstep.
    change (_alpha self) with alpha.
    erewrite bind_ok by exact Hnorm. rewrite Hp. mstep.
    cbn [mbind result_bind gt as_number]. do 2 mstep.
    destruct (PrimFloat.ltb alpha (shapiro lib data).2).
    - mstep. destruct (pearsonr lib (PVector cx) (PVector cy)) as [rv pv].
      eexists. split; [by rewrite <- !app_assoc|].
      by repeat split; try apply results_update_fresh.
    - mstep. destruct (spearmanr lib (PVector cx) (PVector cy)) as [rv pv].
      eexists. split; [by rewrite <- !app_assoc|].
      by repeat split; try apply results_update_fresh. }
  destruct Hrun as (obj & Hrun & Hd & Hk & Hr).
  exists obj. split; [|by split].
  apply Analysis_logic_eq; [exact Hrun|]. intros _.
  cbn [output Comparison_methods].
  eapply Correlation_output_ok; [by rewrite Hk|exact Hr].
Qed.

(** X5. [Correlation] over two samples first runs a NormTest over
    the two prepared vectors laid end to end, whose first call to the
    library is the Shapiro-Wilk routine on what survives of them.
    When the construction returns, that was the only call of the
    NormTest and exactly one correlation routine was called after it,
    on the prepared pair: Pearson's when the p-value of the NormTest
    is greater than alpha, Spearman's otherwise; the results hold the
    routine's coefficient and p-value and the tag of the routine that
    was called. *)
Theorem Correlation_selects_coefficient py lib x y kw t :
  is_iterable x = true →
  is_iterable y = true →
  ∃ vx vy,
    as_vector py x = Ok vx
    ∧ as_vector py y = Ok vy
    ∧ let c := paired 3 vx vy in
      let data := cleaned 2 (c.1 ++ c.2) in
      let pearson := PrimFloat.ltb (default default_alpha (kw_alpha kw))
                       (shapiro lib data).2 in
      let r := if pearson then pearsonr lib (PVector c.1) (PVector c.2)
               else spearmanr lib (PVector c.1) (PVector c.2) in
      (∃ es, (Correlation py lib [x; y] kw t).2
             = t ++ [EvNew "Correlation" [x; y];
                     EvNew "NormTest" [PList (PFloat <$> (c.1 ++ c.2))];
                     EvCall fn_shapiro [data]] ++ es)
      ∧ ∀ obj t',
          Correlation py lib [x; y] kw t = (Ok obj, t') →
          t' = t ++ [EvNew "Correlation" [x; y];
                     EvNew "NormTest" [PList (PFloat <$> (c.1 ++ c.2))];
                     EvCall fn_shapiro [data];
                     EvCall (if pearson then fn_pearsonr else fn_spearmanr)
                       [PVector c.1; PVector c.2]]
          ∧ _data obj = PList [PVector c.1; PVector c.2]
          ∧ _results obj
            = dict_of [("r_value", PFloat r.1); ("p_value", PFloat r.2);
                       ("type", PStr (if pearson then "pearson" else "spearman"))].
Proof.
  intros Hx Hy.
  destruct (as_vector_iterable py x Hx) as [vx Hvx].
  destruct (as_vector_iterable py y Hy) as [vy Hvy].
  destruct (Correlation_pair py lib x y kw t vx vy) as [obj H]; [by rewrite Hx|done..|].
  exists vx, vy. split; [done|]. split; [done|].
  cbv zeta in *. destruct H as (Hrun & Hd & Hr). split.
  - rewrite Hrun. cbn [snd]. by eexists [_].
  - intros obj' t' H. rewrite Hrun in H. by injection H as <- <-.
Qed.

Lemma Correlation_selects_coefficient_witness :
  is_iterable (sample sample_a) = true
  ∧ is_iterable (sample sample_b) = true
  ∧ ∃ vx vy,
      as_vector plain_builtins (sample sample_a) = Ok vx
      ∧ as_vector plain_builtins (sample sample_b) = Ok vy
      ∧ let c := paired 3 vx vy in
        let data := cleaned 2 (c.1 ++ c.2) in
        let pearson := PrimFloat.ltb (default default_alpha (kw_alpha kw_quiet))
                         (shapiro probe_stats data).2 in
        let r := if pearson then pearsonr probe_stats (PVector c.1) (PVector c.2)
                 else spearmanr probe_stats (PVector c.1) (PVector c.2) in
        (∃ es, (Correlation plain_builtins probe_stats
                  [sample sample_a; sample sample_b] kw_quiet []).2
               = [] ++ [EvNew "Correlation" [sample sample_a; sample sample_b];
                        EvNew "NormTest" [PList (PFloat <$> (c.1 ++ c.2))];
                        EvCall fn_shapiro [data]] ++ es)
        ∧ ∀ obj t',
            Correlation plain_builtins probe_stats
              [sample sample_a; sample sample_b] kw_quiet [] = (Ok obj, t') →
            t' = [] ++ [EvNew "Correlation" [sample sample_a; sample sample_b];
                        EvNew "NormTest" [PList (PFloat <$> (c.1 ++ c.2))];
                        EvCall fn_shapiro [data];
                        EvCall (if pearson then fn_pearsonr else fn_spearmanr)
                          [PVector c.1; PVector c.2]]
            ∧ _data obj = PList [PVector c.1; PVector c.2]
            ∧ _results obj
              = dict_of [("r_value", PFloat r.1); ("p_value", PFloat r.2);
                         ("type", PStr (if pearson then "pearson" else "spearman"))].
Proof.
  split; [reflexivity|]. split; [reflexivity|].
  apply (Correlation_selects_coefficient plain_builtins probe_stats
           (sample sample_a) (sample sample_b) kw_quiet []); reflexivity.
Defined.

(** Two samples whose NormTest p-value is 0.5: Pearson's coefficient. *)
Example Correlation_two_samples :
  (Correlation plain_builtins probe_stats [sample sample_a; sample sample_b]
     kw_quiet []).2
  = [EvNew "Correlation" [sample sample_a; sample sample_b];
     EvNew "NormTest" [sample (sample_a ++ sample_b)];
     EvCall fn_shapiro [PVector (sample_a ++ sample_b)];
     EvCall fn_pearsonr [PVector sample_a; PVector sample_b]].
Proof. by vm_compute. Qed.

(** ** Comparison: the guards on size *)

(** Short sequences of the same length: the preparation, and the
    construction in full. *)
Lemma Comparison_data_prep_short py lib xs ys kw t :
  length xs = length ys →
  (length xs ≤ 3)%nat →
  Comparison_data_prep py (alloc LinearRegression_attrs) (PList [PList xs; PList ys])
  = Ok (PList [PVector (to_float py <$> xs); PVector (to_float py <$> ys)])
  ∧ ∃ obj,
      LinearRegression py lib [PList xs; PList ys] kw t
      = (Ok obj, t ++ [EvNew "LinearRegression" [PList xs; PList ys];
                       EvCall fn_linregress [PVector (to_float py <$> xs);
                                             PVector (to_float py <$> xs)]])
      ∧ _data obj = PList [PVector (to_float py <$> xs); PVector (to_float py <$> ys)].
Proof.
  intros Hlen Hshort.
  assert (Hpair : paired 3 (to_float py <$> xs) (to_float py <$> ys)
                  = (to_float py <$> xs, to_float py <$> ys)).
  { unfold paired, vlen. rewrite !length_fmap, Hlen, Z.eqb_refl. cbn [negb].
    destruct (Z.leb_spec (Z.of_nat (length ys)) 3) as [_|]; [done|lia]. }
  split.
  - rewrite (Comparison_data_prep_paired py _ (PList xs) (PList ys)
               (to_float py <$> xs) (to_float py <$> ys)) by done.
    change (_min_size (klass (alloc LinearRegression_attrs))) with 3.
    by rewrite Hpair.
  - destruct (LinearRegression_pair py lib (PList xs) (PList ys) kw t
                (to_float py <$> xs) (to_float py <$> ys))
      as (obj & Hobj & Hdata & _); [done..|].
    rewrite Hpair in Hobj, Hdata. by exists obj.
Qed.

(** X6. The guard of [Comparison.data_prep] on the minimum size
    raises nothing.  Two sequences of the same length, no longer than
    the minimum size of LinearRegression (three entries), are returned
    as they were coerced, not cleaned of not-a-number entries.
    LinearRegression then makes its one call to the library, the
    regression routine on the first of them, twice; when the
    construction returns, the object holds the two coerced
    sequences. *)
Theorem Comparison_data_prep_keeps_short_vectors py lib xs ys kw t :
  length xs = length ys →
  (length xs ≤ 3)%nat →
  Comparison_data_prep py (alloc LinearRegression_attrs) (PList [PList xs; PList ys])
  = Ok (PList [PVector (to_float py <$> xs); PVector (to_float py <$> ys)])
  ∧ (LinearRegression py lib [PList xs; PList ys] kw t).2
    = t ++ [EvNew "LinearRegression" [PList xs; PList ys];
            EvCall fn_linregress [PVector (to_float py <$> xs);
                                  PVector (to_float py <$> xs)]]
  ∧ ∀ obj t',
      LinearRegression py lib [PList xs; PList ys] kw t = (Ok obj, t') →
      _data obj = PList [PVector (to_float py <$> xs); PVector (to_float py <$> ys)].
Proof.
  intros Hlen Hshort.
  destruct (Comparison_data_prep_short py lib xs ys kw t Hlen Hshort)
    as (Hprep & obj & Hrun & Hd).
  split; [done|]. rewrite Hrun. split; [done|].
  intros obj' t' H. by injection H as <- <-.
Qed.

Lemma Comparison_data_prep_keeps_short_vectors_witness :
  length [PFloat 1; PFloat nan; PFloat 3] = length [PFloat 3; PFloat 2; PFloat 1]
  ∧ (length [PFloat 1; PFloat nan; PFloat 3] ≤ 3)%nat
  ∧ Comparison_data_prep plain_builtins (alloc LinearRegression_attrs)
      (PList [PList [PFloat 1; PFloat nan; PFloat 3];
              PList [PFloat 3; PFloat 2; PFloat 1]])
    = Ok (PList [PVector (to_float plain_builtins <$> [PFloat 1; PFloat nan; PFloat 3]);
                 PVector (to_float plain_builtins <$> [PFloat 3; PFloat 2; PFloat 1])])
  ∧ (LinearRegression plain_builtins probe_stats
       [PList [PFloat 1; PFloat nan; PFloat 3]; PList [PFloat 3; PFloat 2; PFloat 1]]
       kw_quiet []).2
    = [] ++ [EvNew "LinearRegression"
               [PList [PFloat 1; PFloat nan; PFloat 3];
                PList [PFloat 3; PFloat 2; PFloat 1]];
             EvCall fn_linregress
               [PVector (to_float plain_builtins <$> [PFloat 1; PFloat nan; PFloat 3]);
                PVector (to_float plain_builtins <$> [PFloat 1; PFloat nan; PFloat 3])]]
  ∧ ∀ obj t',
      LinearRegression plain_builtins probe_stats
        [PList [PFloat 1; PFloat nan; PFloat 3]; PList [PFloat 3; PFloat 2; PFloat 1]]
        kw_quiet [] = (Ok obj, t') →
      _data obj
      = PList [PVector (to_float plain_builtins <$> [PFloat 1; PFloat nan; PFloat 3]);
               PVector (to_float plain_builtins <$> [PFloat 3; PFloat 2; PFloat 1])].
Proof.
  split; [reflexivity|]. split; [simpl; lia|].
  apply (Comparison_data_prep_keeps_short_vectors plain_builtins probe_stats
           [PFloat 1; PFloat nan; PFloat 3] [PFloat 3; PFloat 2; PFloat 1] kw_quiet []).
  - reflexivity.
  - simpl. lia.
Defined.

(** ** VectorStatistics *)

Lemma VectorStatistics_output_ok py self (count : Z)
    (avg sd err med vmin vmax rng sk kurt q1 q3 iqr : float) :
  _name (klass self) = PStr "Statistics" →
  _results self = dict_of
    [("count", PInt count); ("mean", PFloat avg); ("std", PFloat sd);
     ("error", PFloat err); ("median", PFloat med); ("min", PFloat vmin);
     ("max", PFloat vmax); ("range", PFloat rng); ("skew", PFloat sk);
     ("kurtosis", PFloat kurt); ("q1", PFloat q1); ("q3", PFloat q3);
     ("iqr", PFloat iqr)] →
  ∃ text, VectorStatistics_output py self = Ok text.
Proof.
  intros Hn Hr. unfold VectorStatistics_output, field4, item.
  rewrite Hn, Hr. cbn. eauto.
Qed.

Lemma VectorStatistics_eq py lib np d smp display t :
  is_iterable d = true →
  ∃ v,
    as_vector py d = Ok v
    ∧ let data := PVector (drop_nan v) in
      let dof := if smp : bool then 1 else 0 in
      if vlen (drop_nan v) <? 2
      then VectorStatistics py lib np d smp display t
           = (Raise TypeError, t ++ [EvNew "VectorStatistics" [d]])
      else ∃ obj,
             VectorStatistics py lib np d smp display t
             = (Ok obj, t ++ [EvNew "VectorStatistics" [d]])
             ∧ _data obj = data
             ∧ _results obj !! KStr "count" = Some (PInt (vlen (drop_nan v)))
             ∧ _results obj !! KStr "std" = Some (PFloat (std np data dof))
             ∧ _results obj !! KStr "error" = Some (PFloat (sem lib data 0 dof))
             ∧ _results obj !! KStr "range"
               = Some (PFloat (PrimFloat.sub (amax np data) (amin np data)))
             ∧ _results obj !! KStr "iqr"
               = Some (PFloat (PrimFloat.sub (percentile np data 75)
                                 (percentile np data 25))).
Proof.
  intros Hit. destruct (as_vector_iterable py d Hit) as [v Hv]. exists v.
  split; [done|]. cbv zeta.
  unfold as_vector in Hv.
  assert (Hprep : ∀ self, _min_size (klass self) = 2 →
            VectorStatistics_data_prep py self d
            = Ok (if vlen (drop_nan v) <? 2 then PNone else PVector (drop_nan v))).
  { intros self Hmin. unfold VectorStatistics_data_prep. rewrite Hmin.
    assert ((if is_vector d then Ok (drop_nan (values d))
             else drop_nan <$> Vector py d) = Ok (drop_nan v)) as ->.
    { destruct (is_vector d); [by injection Hv as <-|by rewrite Hv]. }
    cbn [mbind result_bind]. f_equal.
    unfold is_empty, vlen. destruct (drop_nan v); [done|].
    cbn [length Nat.eqb orb]. done. }
  unfold VectorStatistics, new. mstep. cbv zeta.
  rewrite Hprep by done. mstep.
  unfold Analysis_logic. cbv zeta. cbn [run output].
  destruct (vlen (drop_nan v) <? 2).
  - unfold VectorStatistics_run. cbv zeta.
    cbn [_data Analysis___init__ len]. by do 2 mstep.
  - unfold VectorStatistics_run. cbv zeta.
    cbn [_data Analysis___init__ len _sample set_sample]. do 3 mstep.
    cbn [_display set_results Analysis___init__].
    destruct display.
    + mstep.
      edestruct (VectorStatistics_output_ok py) as [text ->]; [|reflexivity|]; [done|].
      eexists. split; [reflexivity|]. by repeat split.
    + eexists. split; [reflexivity|]. by repeat split.
Qed.

(** X7. [VectorStatistics] over a sample needs two numbers.  When
    fewer than two entries are left once the not-a-number entries are
    dropped, [data_prep] hands [None] on and the constructor ends in a
    TypeError; otherwise (two entries are enough) it succeeds over the
    cleaned vector: the count is its length, the standard deviation
    and the standard error are taken with one degree of freedom for a
    sample and none for a population, the range is the maximum less
    the minimum and the inter-quartile range the third quartile less
    the first. *)
Theorem VectorStatistics_needs_two py lib np d smp display t :
  is_iterable d = true →
  ∃ v,
    as_vector py d = Ok v
    ∧ let data := PVector (drop_nan v) in
      let dof := if smp : bool then 1 else 0 in
      if vlen (drop_nan v) <? 2
      then VectorStatistics py lib np d smp display t
           = (Raise TypeError, t ++ [EvNew "VectorStatistics" [d]])
      else ∃ obj,
             VectorStatistics py lib np d smp display t
             = (Ok obj, t ++ [EvNew "VectorStatistics" [d]])
             ∧ _data obj = data
             ∧ _results obj !! KStr "count" = Some (PInt (vlen (drop_nan v)))
             ∧ _results obj !! KStr "std" = Some (PFloat (std np data dof))
             ∧ _results obj !! KStr "error" = Some (PFloat (sem lib data 0 dof))
             ∧ _results obj !! KStr "range"
               = Some (PFloat (PrimFloat.sub (amax np data) (amin np data)))
             ∧ _results obj !! KStr "iqr"
               = Some (PFloat (PrimFloat.sub (percentile np data 75)
                                 (percentile np data 25))).
Proof. apply VectorStatistics_eq. Qed.

Lemma VectorStatistics_needs_two_witness :
  is_iterable (sample [1; 2]%float) = true
  ∧ ∃ v,
      as_vector plain_builtins (sample [1; 2]%float) = Ok v
      ∧ let data := PVector (drop_nan v) in
        let dof := if true then 1 else 0 in
        if vlen (drop_nan v) <? 2
        then VectorStatistics plain_builtins probe_stats probe_numpy
               (sample [1; 2]%float) true true []
             = (Raise TypeError, [] ++ [EvNew "VectorStatistics" [sample [1; 2]%float]])
        else ∃ obj,
               VectorStatistics plain_builtins probe_stats probe_numpy
                 (sample [1; 2]%float) true true []
               = (Ok obj, [] ++ [EvNew "VectorStatistics" [sample [1; 2]%float]])
               ∧ _data obj = data
               ∧ _results obj !! KStr "count" = Some (PInt (vlen (drop_nan v)))
               ∧ _results obj !! KStr "std" = Some (PFloat (std probe_numpy data dof))
               ∧ _results obj !! KStr "error"
                 = Some (PFloat (sem probe_stats data 0 dof))
               ∧ _results obj !! KStr "range"
                 = Some (PFloat (PrimFloat.sub (amax probe_numpy data)
                                   (amin probe_numpy data)))
               ∧ _results obj !! KStr "iqr"
                 = Some (PFloat (PrimFloat.sub (percentile probe_numpy data 75)
                                   (percentile probe_numpy data 25))).
Proof.
  split; [reflexivity|].
  apply (VectorStatistics_needs_two plain_builtins probe_stats probe_numpy
           (sample [1; 2]%float) true true []).
  reflexivity.
Defined.

(** One number is not enough. *)
Example VectorStatistics_one_number :
  VectorStatistics plain_builtins probe_stats probe_numpy (sample [1%float]) true true []
  = (Raise TypeError, [EvNew "VectorStatistics" [sample [1%float]]]).
Proof. by vm_compute. Qed.

(** ** GroupStatistics: the table *)

Lemma length_append (s1 s2 : string) :
  String.length (s1 +:+ s2) = (String.length s1 + String.length s2)%nat.
Proof. induction s1 as [|a s1 IH]; [done|]. simpl. by f_equal. Qed.

Lemma length_str_mul s n : String.length (str_mul s n) = (Z.to_nat n * String.length s)%nat.
Proof.
  unfold str_mul. induction (Z.to_nat n) as [|k IH]; [done|].
  cbn [str_repeat]. rewrite length_append, IH. lia.
Qed.

Lemma length_pad s width :
  Z.of_nat (String.length s) ≤ width →
  Z.of_nat (String.length (pad s width)) = width.
Proof.
  intros H. unfold pad. rewrite length_append, length_str_mul. simpl. lia.
Qed.

Lemma GroupStatistics_output_cells_length stats line offset shift :
  Forall (λ s, (String.length s ≤ 11)%nat) stats →
  ∃ line' offset' shift',
    GroupStatistics_output_cells 12 stats line offset shift = (line', offset', shift')
    ∧ Z.of_nat (String.length line') + debt offset' shift'
      = Z.of_nat (String.length line) + 12 * Z.of_nat (length stats) + debt offset shift
    ∧ (stats ≠ [] → debt offset' shift' = 0).
Proof.
  intros Hst. revert line offset shift.
  induction Hst as [|s rest Hs _ IH]; intros line offset shift.
  { eexists _, _, _. split; [reflexivity|]. split; [simpl; lia|done]. }
  cbn [GroupStatistics_output_cells].
  set (st1 := if (offset =? 1) || shift then (-1, false) else (0, shift)).
  assert (H1 : debt st1.1 st1.2 = 0 ∧ st1.1 = - debt offset shift
               ∧ (st1.1 = -1 ∨ st1.1 = 0)).
  { subst st1. unfold debt. destruct ((offset =? 1) || shift) eqn:E; cbn.
    - auto.
    - apply orb_false_elim in E as [_ ->]. auto. }
  destruct st1 as [o1 s1]. cbn [fst snd] in H1. destruct H1 as (Hd1 & Ho1 & Hcases).
  set (d := debt offset shift) in *. clearbody d.
  set (st2 := match next_is_minus rest with
              | Ok true => if o1 =? -1 then (0, true) else (1, s1)
              | _ => (o1, s1)
              end).
  assert (H2 : (st2.1 = -1 ∨ st2.1 = 0 ∨ st2.1 = 1)
               ∧ debt st2.1 st2.2 - st2.1 = d
               ∧ (rest = [] → debt st2.1 st2.2 = 0)).
  { subst st2. destruct (next_is_minus rest) as [[|]|] eqn:E.
    - destruct Hcases as [-> | ->]; cbn; unfold debt; cbn.
      + split; [auto|]. split; [lia|]. intros ->. discriminate.
      + split; [auto|]. split; [lia|]. intros ->. discriminate.
    - cbn. destruct Hcases as [-> | ->]; (split; [auto|]); (split; [lia|done]).
    - cbn. destruct Hcases as [-> | ->]; (split; [auto|]); (split; [lia|done]). }
  destruct st2 as [o2 s2]. cbn [fst snd] in H2. destruct H2 as (Hc2 & Hd2 & Hlast).
  destruct (IH (line +:+ pad s (12 - o2)) o2 s2) as (line' & o' & s' & Heq & Hlen & Hne).
  exists line', o', s'. split; [done|].
  rewrite length_append, Nat2Z.inj_add, length_pad in Hlen by lia.
  split.
  - cbn [length]. lia.
  - intros _. destruct rest as [|s0 rest']; [|by apply Hne].
    cbn in Heq. injection Heq as <- <- <-. by apply Hlast.
Qed.

Lemma GroupStatistics_output_rows_eq py results :
  ∀ statss rows offset shift,
    Forall2 (λ v stats, stats_of py v = Ok stats) results statss →
    ∃ lines,
      GroupStatistics_output_rows py 12 results rows offset shift = Ok (rows ++ lines)
      ∧ length lines = length results
      ∧ (debt offset shift = 0 →
         Forall (Forall (λ s, (String.length s ≤ 11)%nat)) statss →
         Forall (λ r, String.length r = 84%nat) lines).
Proof.
  induction results as [|v results IH]; intros statss rows offset shift Hst.
  { exists []. cbn. by rewrite app_nil_r. }
  apply Forall2_cons_inv_l in Hst as (stats & statss' & Hv & Hst & ->).
  cbn [GroupStatistics_output_rows].
  unfold stats_of in Hv. inv_result Hv. injection Hv as <-.
  repeat (match goal with H : _ = Ok _ |- _ => rewrite H; clear H end;
          cbn [mbind result_bind]).
  destruct (GroupStatistics_output_cells 12 [a0; a2; a4; a6; a8; a10; a12] "" offset shift)
    as [[line o'] s'] eqn:Hcells.
  destruct (IH statss' (rows ++ [line]) o' s' Hst) as (lines & Hrows & Hlen & Hwidth).
  exists (line :: lines). rewrite Hrows, <- app_assoc. split; [done|].
  split; [by rewrite !length_cons, Hlen|].
  intros Hdebt Hfit. apply Forall_cons in Hfit as [Hfit Hfits].
  destruct (GroupStatistics_output_cells_length _ "" offset shift Hfit)
    as (line' & o'' & s'' & Heq & Hl & Hd).
  rewrite Hcells in Heq. injection Heq as <- <- <-.
  specialize (Hd ltac:(done)).
  constructor; [|by apply Hwidth].
  rewrite Hd, Hdebt in Hl. cbn in Hl. lia.
Qed.

(** X8. The table of [GroupStatistics.output].  When the cells of
    every row can be printed, the report is produced: its header is
    84 columns wide, the rule under it is 84 dashes and there is one
    line per row.  The shifting of cells around a minus sign keeps the
    table straight: when no cell is longer than 11 characters, every
    line of the table is 84 columns wide. *)
Theorem GroupStatistics_output_aligned py self statss :
  Forall2 (λ v stats, stats_of py v = Ok stats) (gs_results self) statss →
  ∃ rows,
    GroupStatistics_output py self
    = Ok (join_lines [" "; "Group Statistics"; " "; table_header;
                      str_mul "-" 84; join_lines rows; " "])
    ∧ String.length table_header = 84%nat
    ∧ length rows = length (gs_results self)
    ∧ (Forall (Forall (λ s, (String.length s ≤ 11)%nat)) statss →
       Forall (λ r, String.length r = 84%nat) rows).
Proof.
  intros Hst.
  destruct (GroupStatistics_output_rows_eq py (gs_results self) statss [] 0 false Hst)
    as (rows & Hrows & Hlen & Hwidth).
  exists rows. unfold GroupStatistics_output. cbv zeta.
  rewrite Hrows. cbn [app mbind result_bind].
  split; [reflexivity|]. split; [reflexivity|]. split; [done|].
  by apply Hwidth.
Qed.

Lemma GroupStatistics_output_aligned_witness :
  Forall2 (λ v stats, stats_of plain_builtins v = Ok stats) (gs_results one_row)
    [["3"; "-"; "+"; "-"; "-"; "+"; "a"]]
  ∧ ∃ rows,
      GroupStatistics_output plain_builtins one_row
      = Ok (join_lines [" "; "Group Statistics"; " "; table_header;
                        str_mul "-" 84; join_lines rows; " "])
      ∧ String.length table_header = 84%nat
      ∧ length rows = length (gs_results one_row)
      ∧ (Forall (Forall (λ s, (String.length s ≤ 11)%nat))
           [["3"; "-"; "+"; "-"; "-"; "+"; "a"]] →
         Forall (λ r, String.length r = 84%nat) rows).
Proof.
  assert (H : Forall2 (λ v stats, stats_of plain_builtins v = Ok stats)
                (gs_results one_row) [["3"; "-"; "+"; "-"; "-"; "+"; "a"]]).
  { repeat constructor. }
  split; [exact H|].
  exact (GroupStatistics_output_aligned plain_builtins one_row _ H).
Defined.

(** The row of [one_row]: the cell before a negative number gives a
    column to the minus sign, and two negative numbers in a row share
    the one column. *)
Example GroupStatistics_output_one_row :
  GroupStatistics_output_rows plain_builtins 12 (gs_results one_row) [] 0 false
  = Ok ["3          -            +          -           -            +           a           "].
Proof. by vm_compute. Qed.

(** ** GroupStatistics: labels and rows *)

Lemma dict_set_fresh d k v : k ∉ d.*1 → dict_set d k v = d ++ [(k, v)].
Proof.
  induction d as [|[k' v'] d IH]; [done|]. csimpl. intros Hk.
  apply not_elem_of_cons in Hk as [Hne Hk].
  destruct (decide (k = k')); [done|]. by rewrite IH.
Qed.

Lemma fold_dict_set_fresh (l acc : list (pykey * pyobj)) :
  NoDup (acc.*1 ++ l.*1) →
  fold_left (λ d kv, dict_set d kv.1 kv.2) l acc = acc ++ l.
Proof.
  revert acc. induction l as [|[k v] l IH]; intros acc Hnd.
  { by rewrite app_nil_r. }
  cbn [fold_left fst snd]. csimpl in Hnd.
  apply NoDup_app in Hnd as (Hacc & Hdisj & Hl).
  apply NoDup_cons in Hl as [Hk Hl].
  rewrite dict_set_fresh.
  - rewrite IH; [by rewrite <- app_assoc|].
    rewrite fmap_app. csimpl. rewrite <- app_assoc. cbn [app].
    apply NoDup_app. split; [done|]. split; [|by constructor].
    intros x Hx. apply Hdisj in Hx. done.
  - intros Hin. apply (Hdisj k Hin). by left.
Qed.

Lemma fst_zip_sublist {A B} (ks : list A) (l : list B) : (zip ks l).*1 `sublist_of` ks.
Proof.
  revert l. induction ks as [|k ks IH]; intros [|x l]; csimpl;
    try constructor; try apply sublist_nil_l. apply IH.
Qed.

Lemma dict_zip_NoDup keys vals :
  NoDup keys → dict_zip keys vals = zip keys vals.
Proof.
  intros Hnd. unfold dict_zip. rewrite fold_dict_set_fresh; [done|].
  cbn [fmap list_fmap app]. eapply sublist_NoDup; [exact Hnd|].
  apply fst_zip_sublist.
Qed.

Lemma zip_with_fmap_zip {A B C D} (f : A → C → D) (g : B → C) (ks : list A) (l : list B) :
  zip_with f ks (g <$> l) = (λ kl, f kl.1 (g kl.2)) <$> zip ks l.
Proof. revert l. induction ks as [|k ks IH]; intros [|x l]; csimpl; f_equal; auto. Qed.

Lemma NoDup_numbered n : NoDup (numbered n).
Proof.
  unfold numbered. apply NoDup_fmap_2; [|apply NoDup_seqZ]. by intros ?? [= ->].
Qed.

Lemma length_numbered n : length (numbered n) = n.
Proof. unfold numbered. rewrite length_fmap, length_seqZ. lia. Qed.

Lemma mapM_Ok {A B} (f : A → result B) (g : A → B) (l : list A) :
  (∀ x, x ∈ l → f x = Ok (g x)) → mapM f l = Ok (g <$> l).
Proof.
  induction l as [|x l IH]; intros H; [done|].
  cbn [mapM]. rewrite (H x) by by left. cbn [mbind result_bind].
  rewrite IH; [done|]. intros y Hy. apply H. by right.
Qed.

Lemma GroupStatistics_data_prep_loop_lists py (items : list (pykey * list pyobj)) v clean :
  Forall (λ kl, kl.2 ≠ []) items →
  NoDup (clean.*1 ++ items.*1) →
  GroupStatistics_data_prep_loop py ((λ kl, (kl.1, PList kl.2)) <$> items) v clean
  = Ok (clean ++ ((λ kl, (kl.1, PVector (drop_nan (to_float py <$> kl.2)))) <$> items)).
Proof.
  intros Hne. revert v clean. induction Hne as [|[k l] items Hl _ IH]; intros v clean Hnd.
  { by rewrite app_nil_r. }
  csimpl in Hnd. csimpl. cbn [fst snd] in Hl.
  destruct l as [|x l]; [done|].
  cbn [len mbind result_bind length].
  destruct (Z.eqb_spec (Z.of_nat (S (length l))) 0) as [|_]; [lia|].
  cbn [is_vector negb Vector py_iter fmap result_fmap mbind result_bind].
  unfold vlen, GroupStatistics_min_size. rewrite length_fmap. cbn [length].
  destruct (Z.ltb_spec (Z.of_nat (S (length l))) 1) as [|_]; [lia|].
  apply NoDup_app in Hnd as (Hc & Hdisj & Hi). apply NoDup_cons in Hi as [Hk Hi].
  rewrite dict_set_fresh.
  2:{ intros Hin. apply (Hdisj k Hin). by left. }
  rewrite IH.
  - by rewrite <- app_assoc.
  - rewrite fmap_app. csimpl. rewrite <- app_assoc. cbn [app].
    apply NoDup_app. split; [done|]. split; [|by constructor].
    intros y Hy. by apply Hdisj in Hy.
Qed.

Lemma stats_of_group_row py np g v :
  ∃ stats, stats_of py (group_row np g v) = Ok stats.
Proof.
  unfold stats_of, group_row, item. cbn. destruct g; cbn; eauto.
Qed.

(** The construction over a sequence of sequences, in full. *)
Lemma GroupStatistics_labels_in_order_eq py np (ls : list (list pyobj)) groups display t :
  Forall (λ l, l ≠ []) ls →
  NoDup (labels_of groups (length ls)) →
  ∃ gs,
    let labels := labels_of groups (length ls) in
    let vectors := (λ l, drop_nan (to_float py <$> l)) <$> ls in
    GroupStatistics py np (PList (PList <$> ls)) groups display t
    = (Ok gs, t ++ [EvNew "GroupStatistics" [PList (PList <$> ls)]])
    ∧ gs_data gs = zip labels (PVector <$> vectors)
    ∧ gs_results gs = zip_with (group_row np) labels vectors.
Proof.
  intros Hne Hnd. cbv zeta.
  set (labels := labels_of groups (length ls)) in *.
  set (items := zip labels ls).
  assert (Hitems : zip labels (PList <$> ls) = (λ kl, (kl.1, PList kl.2)) <$> items).
  { subst items. apply (zip_with_fmap_zip pair). }
  assert (Hdict : (match groups with
                   | Some ((_ :: _) as groups) =>
                       vals ← py_iter (PList (PList <$> ls)); Ok (dict_zip groups vals)
                   | _ =>
                       n ← len (PList (PList <$> ls));
                       vals ← py_iter (PList (PList <$> ls));
                       Ok (dict_zip (KInt <$> seqZ 1 n) vals)
                   end) = Ok (zip labels (PList <$> ls))).
  { assert (Hnum : (n ← len (PList (PList <$> ls));
                    vals ← py_iter (PList (PList <$> ls));
                    Ok (dict_zip (KInt <$> seqZ 1 n) vals))
                   = Ok (dict_zip (numbered (length ls)) (PList <$> ls))).
    { cbn [len py_iter mbind result_bind]. by rewrite length_fmap. }
    subst labels. destruct groups as [[|g gs]|]; cbn [labels_of] in *; cbv beta iota.
    - rewrite Hnum. by rewrite (dict_zip_NoDup _ _ Hnd).
    - cbn [py_iter mbind result_bind]. by rewrite (dict_zip_NoDup _ _ Hnd).
    - rewrite Hnum. by rewrite (dict_zip_NoDup _ _ Hnd). }
  assert (Hprep : GroupStatistics_data_prep py (zip labels (PList <$> ls))
                  = Ok ((λ kl, (kl.1, PVector (drop_nan (to_float py <$> kl.2)))) <$> items)).
  { rewrite Hitems. unfold GroupStatistics_data_prep.
    rewrite GroupStatistics_data_prep_loop_lists; [done| |].
    - apply Forall_forall. intros [k l] Hin. cbn.
      rewrite Forall_forall in Hne. apply Hne. subst items.
      by apply elem_of_zip_r in Hin.
    - cbn [fmap list_fmap app]. eapply sublist_NoDup; [exact Hnd|].
      subst items. apply fst_zip_sublist. }
  set (clean := (λ kl, (kl.1, PVector (drop_nan (to_float py <$> kl.2)))) <$> items) in *.
  set (rows := (λ kl : pykey * list pyobj,
                  group_row np kl.1 (drop_nan (to_float py <$> kl.2))) <$> items).
  assert (Hrun : ∀ self, gs_data self = clean → gs_results self = [] →
            GroupStatistics_run np self
            = Ok {| gs_data := clean; gs_display := gs_display self; gs_results := rows |}).
  { intros self Hd Hr. unfold GroupStatistics_run. rewrite Hd, Hr.
    subst clean rows.
    rewrite (mapM_Ok _ (λ gv, group_row np gv.1 (values gv.2))).
    - cbn [mbind result_bind app]. do 2 f_equal.
      rewrite <- list_fmap_compose. apply list_fmap_ext. by intros ? [??].
    - intros [g v] Hin. apply list_elem_of_fmap in Hin as ([k l] & [= -> ->] & _).
      reflexivity. }
  assert (Hout : ∀ self, gs_results self = rows →
            ∃ text, GroupStatistics_output py self = Ok text).
  { intros self Hr.
    assert (∃ statss, Forall2 (λ v stats, stats_of py v = Ok stats) rows statss)
      as [statss Hst].
    { subst rows. clear. induction items as [|[k l] items [statss IH]].
      - exists []. constructor.
      - destruct (stats_of_group_row py np k (drop_nan (to_float py <$> l))) as [s Hs].
        exists (s :: statss). by constructor. }
    rewrite <- Hr in Hst.
    destruct (GroupStatistics_output_rows_eq py (gs_results self) statss [] 0 false Hst)
      as (lines & Hlines & _).
    unfold GroupStatistics_output. cbv zeta. rewrite Hlines. eauto. }
  exists {| gs_data := clean; gs_display := display; gs_results := rows |}.
  split; [|split].
  - unfold GroupStatistics. mstep. unfold lift. f_equal.
    rewrite Hdict. cbn [mbind result_bind].
    rewrite Hprep. cbn [mbind result_bind].
    unfold GroupStatistics_logic. cbv zeta. cbn [gs_data gs_display].
    rewrite Hrun by done. cbn [mbind result_bind gs_display].
    destruct display; [|done].
    edestruct Hout as [text ->]; [|done]. done.
  - cbn [gs_data]. subst clean items.
    rewrite <- list_fmap_compose. symmetry.
    apply (zip_with_fmap_zip pair (PVector ∘ (λ l, drop_nan (to_float py <$> l)))).
  - cbn [gs_results]. subst rows items. symmetry.
    apply (zip_with_fmap_zip (group_row np) (λ l, drop_nan (to_float py <$> l))).
Qed.

(** [data_prep] on labelled lists that are not empty. *)
Lemma GroupStatistics_data_prep_lists py (labels : list pykey) (ls : list (list pyobj)) :
  Forall (λ l, l ≠ []) ls →
  NoDup labels →
  GroupStatistics_data_prep py (zip labels (PList <$> ls))
  = Ok (zip labels (PVector <$> ((λ l, drop_nan (to_float py <$> l)) <$> ls))).
Proof.
  intros Hne Hnd. set (items := zip labels ls).
  assert (Hitems : zip labels (PList <$> ls) = (λ kl, (kl.1, PList kl.2)) <$> items).
  { subst items. apply (zip_with_fmap_zip pair). }
  transitivity (Ok ((λ kl : pykey * list pyobj,
                       (kl.1, PVector (drop_nan (to_float py <$> kl.2)))) <$> items)).
  - rewrite Hitems. unfold GroupStatistics_data_prep.
    rewrite GroupStatistics_data_prep_loop_lists; [done| |].
    + apply Forall_forall. intros [k l] Hin. cbn.
      rewrite Forall_forall in Hne. apply Hne. subst items.
      by apply elem_of_zip_r in Hin.
    + cbn [fmap list_fmap app]. eapply sublist_NoDup; [exact Hnd|].
      subst items. apply fst_zip_sublist.
  - f_equal. subst items. rewrite <- list_fmap_compose. symmetry.
    apply (zip_with_fmap_zip pair (PVector ∘ (λ l, drop_nan (to_float py <$> l)))).
Qed.

(** X9. [GroupStatistics] over a sequence of non-empty sequences
    whose labels differ from one another.  The i-th group gets the
    i-th label given, or the numbers 1, 2, ... when no label is given;
    groups beyond the labels are left out.  [data_prep] coerces each
    group and cleans it of not-a-number entries, keeping the order
    given.  When the construction returns, the object holds these
    cleaned groups and one row per group in the same order, with the
    label and the number of entries left followed by the mean,
    standard deviation (one degree of freedom), maximum, median and
    minimum of the cleaned vector. *)
Theorem GroupStatistics_labels_in_order py np (ls : list (list pyobj)) groups display t :
  Forall (λ l, l ≠ []) ls →
  NoDup (labels_of groups (length ls)) →
  let labels := labels_of groups (length ls) in
  let vectors := (λ l, drop_nan (to_float py <$> l)) <$> ls in
  GroupStatistics_data_prep py (zip labels (PList <$> ls))
  = Ok (zip labels (PVector <$> vectors))
  ∧ ∀ gs t',
      GroupStatistics py np (PList (PList <$> ls)) groups display t = (Ok gs, t') →
      t' = t ++ [EvNew "GroupStatistics" [PList (PList <$> ls)]]
      ∧ gs_data gs = zip labels (PVector <$> vectors)
      ∧ gs_results gs = zip_with (group_row np) labels vectors.
Proof.
  intros Hne Hnd. cbv zeta. split.
  - by apply GroupStatistics_data_prep_lists.
  - destruct (GroupStatistics_labels_in_order_eq py np ls groups display t Hne Hnd)
      as (gs & Hrun & Hd & Hr).
    cbv zeta in *. intros gs' t' H. rewrite Hrun in H. by injection H as <- <-.
Qed.

Lemma GroupStatistics_labels_in_order_witness :
  Forall (λ l : list pyobj, l ≠ []) [[PFloat 1; PFloat 2]; [PFloat nan; PFloat 4]; [PFloat 3]]
  ∧ NoDup (labels_of (Some [KStr "a"; KStr "b"]) 3)
  ∧ let labels := labels_of (Some [KStr "a"; KStr "b"]) 3 in
    let vectors := (λ l, drop_nan (to_float plain_builtins <$> l))
                     <$> [[PFloat 1; PFloat 2]; [PFloat nan; PFloat 4]; [PFloat 3]] in
    GroupStatistics_data_prep plain_builtins
      (zip labels (PList <$> [[PFloat 1; PFloat 2]; [PFloat nan; PFloat 4]; [PFloat 3]]))
    = Ok (zip labels (PVector <$> vectors))
    ∧ ∀ gs t',
        GroupStatistics plain_builtins probe_numpy
          (PList (PList <$> [[PFloat 1; PFloat 2]; [PFloat nan; PFloat 4]; [PFloat 3]]))
          (Some [KStr "a"; KStr "b"]) true [] = (Ok gs, t') →
        t' = [] ++ [EvNew "GroupStatistics"
                      [PList (PList <$> [[PFloat 1; PFloat 2]; [PFloat nan; PFloat 4];
                                         [PFloat 3]])]]
        ∧ gs_data gs = zip labels (PVector <$> vectors)
        ∧ gs_results gs = zip_with (group_row probe_numpy) labels vectors.
Proof.
  assert (H : Forall (λ l : list pyobj, l ≠ [])
                [[PFloat 1; PFloat 2]; [PFloat nan; PFloat 4]; [PFloat 3]]).
  { by repeat constructor. }
  assert (Hnd : NoDup (labels_of (Some [KStr "a"; KStr "b"]) 3)).
  { apply (bool_decide_unpack _). by vm_compute. }
  split; [exact H|]. split; [exact Hnd|].
  exact (GroupStatistics_labels_in_order plain_builtins probe_numpy
           [[PFloat 1; PFloat 2]; [PFloat nan; PFloat 4]; [PFloat 3]]
           (Some [KStr "a"; KStr "b"]) true [] H Hnd).
Defined.

(** A group that holds nothing but not-a-number is kept by
    [data_prep], as an empty vector. *)
Example GroupStatistics_all_nan :
  GroupStatistics_data_prep plain_builtins
    [(KInt 1, sample [1; 2]%float); (KInt 2, sample [nan])]
  = Ok [(KInt 1, PVector [1; 2]%float); (KInt 2, PVector [])].
Proof. by vm_compute. Qed.

(** ** GroupStatistics: members without a length *)

Lemma GroupStatistics_data_prep_loop_unsized py items v clean :
  Exists (λ kv, len kv.2 = Raise TypeError) items →
  ∃ e, GroupStatistics_data_prep_loop py items v clean = Raise e
       ∧ (e = TypeError ∨ e = UnboundLocalError).
Proof.
  intros Hex. revert v clean. induction items as [|[i d] items IH]; intros v clean.
  { by apply Exists_nil in Hex. }
  cbn [GroupStatistics_data_prep_loop].
  destruct (len d) as [n|e] eqn:Hlen.
  - apply Exists_cons in Hex as [Hex|Hex]; [cbn in Hex; congruence|].
    cbn [mbind result_bind]. destruct (n =? 0); [by apply IH|].
    destruct (Vector_sized py d) as (vec & Hvec & _); [by exists n|].
    destruct (negb (is_vector d)).
    + rewrite Hvec. cbn [fmap result_fmap mbind result_bind].
      destruct (_ <? _); by apply IH.
    + cbn [mbind result_bind]. destruct v as [vec'|]; [|eauto].
      destruct (_ <? _); by apply IH.
  - exists e. split; [done|]. left.
    destruct d; cbn in Hlen; congruence.
Qed.

(** X10. A member that has no length makes [GroupStatistics] fail.
    Given a sequence without labels in which some member is a number
    or [None], say a flat list of numbers, the constructor never
    returns an object: it raises the TypeError of [len], unless the
    unbound-variable error of a Vector member comes first. *)
Theorem GroupStatistics_rejects_scalars py np l display t :
  Exists (λ d, len d = Raise TypeError) l →
  ∃ e, GroupStatistics py np (PList l) None display t
       = (Raise e, t ++ [EvNew "GroupStatistics" [PList l]])
       ∧ (e = TypeError ∨ e = UnboundLocalError).
Proof.
  intros Hex.
  destruct (GroupStatistics_data_prep_loop_unsized py
              (zip (numbered (length l)) l) None [])
    as (e & He & Hcases).
  { apply Exists_exists in Hex as (d & Hd & Hlen).
    apply list_elem_of_lookup in Hd as [i Hi].
    assert (is_Some (numbered (length l) !! i)) as [k Hk].
    { apply lookup_lt_is_Some. rewrite length_numbered. by eapply lookup_lt_Some. }
    apply Exists_exists. exists (k, d). split; [|done].
    apply list_elem_of_lookup. exists i. apply lookup_zip_with_Some. eauto. }
  exists e. split; [|done].
  unfold GroupStatistics. mstep. unfold lift. f_equal.
  cbn [len py_iter mbind result_bind]. fold (numbered (length l)).
  rewrite dict_zip_NoDup by apply NoDup_numbered.
  unfold GroupStatistics_data_prep. by rewrite He.
Qed.

Lemma GroupStatistics_rejects_scalars_witness :
  Exists (λ d, len d = Raise TypeError) [PFloat 1; PFloat 2; PFloat 3]
  ∧ ∃ e, GroupStatistics plain_builtins probe_numpy
           (PList [PFloat 1; PFloat 2; PFloat 3]) None true []
         = (Raise e, [] ++ [EvNew "GroupStatistics" [PList [PFloat 1; PFloat 2; PFloat 3]]])
         ∧ (e = TypeError ∨ e = UnboundLocalError).
Proof.
  assert (H : Exists (λ d, len d = Raise TypeError) [PFloat 1; PFloat 2; PFloat 3]).
  { by left. }
  split; [exact H|].
  exact (GroupStatistics_rejects_scalars plain_builtins probe_numpy
           [PFloat 1; PFloat 2; PFloat 3] true [] H).
Defined.

(** ** TTest: the report and the one-sample test *)

(** What [Test.__init__] does with one argument: it fails on an
    argument that cannot be iterated, and otherwise goes on to
    [logic] with data that is a number, or whose entries are numbers
    and not exactly one. *)
Lemma Test___init___one_argument py m self x kw t :
  data_prep m = Test_data_prep py →
  _min_size (klass self) = 2 →
  Test___init__ m self [x] kw t = (Raise TypeError, t)
  ∨ ∃ data,
      Test___init__ m self [x] kw t
      = Analysis_logic m
          (Analysis___init__ (set_alpha self (default default_alpha (kw_alpha kw)))
             data (default true (kw_display kw))) t
      ∧ (py_iter data = Raise TypeError
         ∨ ∃ args, py_iter data = Ok args ∧ existsb is_iterable args = false
                   ∧ length args ≠ 1%nat).
Proof.
  intros Hm Hmin. destruct (is_iterable x) eqn:Hx.
  - destruct (as_vector_iterable py x Hx) as [v Hv]. right.
    exists (cleaned 2 v).
    pose proof (Test___init___one_sample py m self x kw v t Hm Hx Hv) as Hinit.
    rewrite Hmin in Hinit. split; [exact Hinit|]. right.
    unfold cleaned.
    destruct (is_empty (drop_nan v) || (vlen (drop_nan v) <=? 2)) eqn:Hsmall.
    + by exists [].
    + exists (PFloat <$> drop_nan v). split; [done|]. split; [apply existsb_scalars|].
      apply orb_false_iff in Hsmall as [_ Hlen]. apply Z.leb_gt in Hlen.
      rewrite length_fmap. unfold vlen in Hlen. lia.
  - unfold Test___init__. cbv zeta.
    change (is_group (PList [x])) with (is_iterable x || false). rewrite Hx. cbn [orb].
    rewrite Hm. unfold Test_data_prep.
    destruct (py_iter x) as [ds|e] eqn:Hiter.
    + destruct x; try discriminate. cbn in Hiter. injection Hiter as <-.
      destruct (Test_data_prep_loop_scalars py
                  (_min_size (klass (set_alpha self (default default_alpha (kw_alpha kw)))))
                  (chars s) [])
        as [fs Hfs].
      { unfold chars. apply Forall_fmap. by apply Forall_true. }
      cbn [mbind result_bind]. cbn [fmap list_fmap] in Hfs. rewrite Hfs.
      cbn [fmap result_fmap app]. mstep. cbn [len]. mstep.
      rewrite length_fmap. right.
      destruct fs as [|f [|f' fs]].
      * change (Z.of_nat (length (@nil float)) <=? 1) with true.
        change (getitem (PList (PFloat <$> [])) (PInt 0)) with (@Raise pyobj IndexError).
        cbn [try_except]. rewrite decide_True by (by apply list_elem_of_singleton).
        mstep. eexists. split; [done|]. right. by exists [].
      * change (Z.of_nat (length [f]) <=? 1) with true.
        change (getitem (PList (PFloat <$> [f])) (PInt 0)) with (Ok (PFloat f)).
        cbn [try_except]. mstep. eexists. split; [done|]. by left.
      * destruct (Z.leb_spec (Z.of_nat (length (f :: f' :: fs))) 1) as [Hle|_].
        { cbn [length] in Hle. lia. }
        mstep. eexists. split; [done|]. right.
        exists (PFloat <$> f :: f' :: fs). split; [done|].
        split; [apply existsb_scalars|done].
    + cbn [mbind result_bind]. rewrite bind_lift. left.
      destruct x; try discriminate; cbn in Hiter; by injection Hiter as <-.
Qed.

Lemma TTest_output_TypeError py self :
  _name (klass self) = _name TTest_attrs →
  _statistic_name (klass self) = PStr "t value" →
  _results self !! KStr "test" = Some (PStr "1_sample") →
  TTest_output py self = Raise TypeError.
Proof.
  intros Hn Hs Ht. unfold TTest_output, item. rewrite Ht, Hn, Hs. reflexivity.
Qed.

Lemma TTest_logic_false_target py lib self t :
  truthy (_mu self) = false →
  (py_iter (_data self) = Raise TypeError
   ∨ ∃ args, py_iter (_data self) = Ok args ∧ existsb is_iterable args = false
             ∧ length args ≠ 1%nat) →
  ∃ t', Analysis_logic (Test_methods py (TTest_run py lib) (TTest_output py)) self t
        = (Raise TypeError, t').
Proof.
  intros Hmu Hdata. unfold Analysis_logic. cbv zeta. cbn [run Test_methods].
  destruct Hdata as [Hd|(args & Hd & Hsc & Hlen)].
  - eexists. erewrite bind_raise; [done|]. by apply TTest_run_scalar_data.
  - eexists. erewrite bind_raise; [done|]. by eapply TTest_run_EqualVariance_fails.
Qed.

(** With display on, the construction ends in an exception; in the
    model, where [float] does not overflow, a TypeError or a
    ValueError. *)
Lemma TTest_display_raises_which py lib x y alpha t :
  ∃ e t', TTest py lib x y alpha true t = (Raise e, t')
          ∧ (e = TypeError ∨ e = ValueError).
Proof.
  destruct (is_iterable y) eqn:Hy.
  { destruct (TTest_two_samples_fail py lib x y alpha true t Hy) as (es & H & _).
    eauto. }
  unfold TTest, new. mstep. unfold TTest___init__. cbv zeta. rewrite Hy. cbn [negb].
  destruct (float_ py y) as [mu|e] eqn:Hmu.
  2:{ mstep. exists e. eexists. split; [done|].
      by destruct (float__raises py y e Hmu) as [-> | ->]; auto. }
  mstep.
  set (self := set_mu (set_mu (alloc TTest_attrs) PNone) (PFloat mu)).
  set (kw := {| kw_alpha := Some alpha; kw_display := Some true |}).
  set (t0 := t ++ [EvNew (cls TTest_attrs) [x; y]]).
  destruct (Test___init___one_argument py
              (Test_methods py (TTest_run py lib) (TTest_output py)) self x kw t0
              eq_refl eq_refl) as [->|(data & -> & Hdata)]; [eauto|].
  cbn [kw_alpha kw_display kw default from_option id].
  set (self' := Analysis___init__ _ data true).
  destruct (truthy (_mu self')) eqn:Htruthy.
  - exists TypeError. eexists. split; [|by left].
    unfold Analysis_logic. cbv zeta. cbn [run output Test_methods].
    erewrite bind_ok by by apply TTest_run_one_sample.
    cbn [_display results_update set_results self' Analysis___init__].
    mstep. rewrite TTest_output_TypeError; [done..|].
    by rewrite lookup_results_update.
  - destruct (TTest_logic_false_target py lib self' t0 Htruthy Hdata) as [t' ->].
    eauto.
Qed.

(** X11. [TTest] never returns an object when it is asked to display
    (the default), whatever its two arguments: a second argument that
    is a sample or a false target fails as it does without display,
    and after a one-sample test the report fails, because the name of
    the statistic, a string, is subscripted with the tag of the
    test. *)
Theorem TTest_display_raises py lib x y alpha t :
  ∃ e t', TTest py lib x y alpha true t = (Raise e, t').
Proof.
  destruct (TTest_display_raises_which py lib x y alpha t) as (e & t' & H & _).
  eauto.
Qed.

(** The one-sample construction, in full. *)
Lemma TTest_one_sample_eq py lib x y mu alpha t :
  is_iterable x = true →
  is_iterable y = false →
  float_ py y = Ok mu →
  truthy (PFloat mu) = true →
  ∃ v obj,
    as_vector py x = Ok v
    ∧ TTest py lib x y alpha false t
      = (Ok obj, t ++ [EvNew "TTest" [x; y];
                       EvCall fn_ttest_1samp [cleaned 2 v; PFloat mu]])
    ∧ _results obj
      = dict_of [("p_value", PFloat (ttest_1samp lib (cleaned 2 v) (PFloat mu)).2);
                 ("t_value", PFloat (ttest_1samp lib (cleaned 2 v) (PFloat mu)).1);
                 ("test", PStr "1_sample")].
Proof.
  intros Hx Hy Hmu Htruthy. destruct (as_vector_iterable py x Hx) as [v Hv].
  exists v. eexists. split; [done|].
  unfold TTest, new. mstep. unfold TTest___init__. cbv zeta. rewrite Hy. cbn [negb].
  rewrite Hmu. mstep.
  rewrite (Test___init___one_sample py (Test_methods py _ _) _ x _ v _ eq_refl Hx Hv).
  cbn [klass set_mu _min_size TTest_attrs alloc kw_alpha kw_display default
       from_option id].
  set (self := Analysis___init__ _ _ _).
  unfold Analysis_logic. cbv zeta. cbn [run output Test_methods].
  erewrite bind_ok by by apply TTest_run_one_sample.
  cbn [_display results_update set_results self Analysis___init__].
  rewrite <- app_assoc. split; [reflexivity|].
  exact (update_empty _).
Qed.

(** X12. The one-sample t-test.  With a sample as first argument, a
    number other than zero as target (an integer within the range of
    a double) and display off, [TTest] makes one call to the library:
    the one-sample routine, on the cleaned sample and the target as a
    float.  When the construction returns, the object stores the
    routine's p-value and statistic with the tag '1_sample'. *)
Theorem TTest_one_sample py lib x y mu alpha t :
  is_iterable x = true →
  is_iterable y = false →
  convertible y →
  float_ py y = Ok mu →
  truthy (PFloat mu) = true →
  ∃ v,
    as_vector py x = Ok v
    ∧ (TTest py lib x y alpha false t).2
      = t ++ [EvNew "TTest" [x; y];
              EvCall fn_ttest_1samp [cleaned 2 v; PFloat mu]]
    ∧ ∀ obj t',
        TTest py lib x y alpha false t = (Ok obj, t') →
        _results obj
        = dict_of [("p_value", PFloat (ttest_1samp lib (cleaned 2 v) (PFloat mu)).2);
                   ("t_value", PFloat (ttest_1samp lib (cleaned 2 v) (PFloat mu)).1);
                   ("test", PStr "1_sample")].
Proof.
  intros Hx Hy _ Hmu Htruthy.
  destruct (TTest_one_sample_eq py lib x y mu alpha t Hx Hy Hmu Htruthy)
    as (v & obj & Hv & Hrun & Hr).
  exists v. split; [done|]. rewrite Hrun. split; [done|].
  intros obj' t' H. by injection H as <- <-.
Qed.

Lemma TTest_one_sample_witness :
  is_iterable five = true
  ∧ is_iterable (PInt 3) = false
  ∧ convertible (PInt 3)
  ∧ float_ plain_builtins (PInt 3) = Ok 3%float
  ∧ truthy (PFloat 3) = true
  ∧ ∃ v,
      as_vector plain_builtins five = Ok v
      ∧ (TTest plain_builtins probe_stats five (PInt 3) default_alpha false []).2
        = [] ++ [EvNew "TTest" [five; PInt 3];
                 EvCall fn_ttest_1samp [cleaned 2 v; PFloat 3]]
      ∧ ∀ obj t',
          TTest plain_builtins probe_stats five (PInt 3) default_alpha false []
          = (Ok obj, t') →
          _results obj
          = dict_of [("p_value",
                      PFloat (ttest_1samp probe_stats (cleaned 2 v) (PFloat 3)).2);
                     ("t_value",
                      PFloat (ttest_1samp probe_stats (cleaned 2 v) (PFloat 3)).1);
                     ("test", PStr "1_sample")].
Proof.
  do 2 (split; [reflexivity|]). split; [by vm_compute|].
  do 2 (split; [reflexivity|]).
  apply (TTest_one_sample plain_builtins probe_stats five (PInt 3) 3%float
           default_alpha []); reflexivity || by vm_compute.
Defined.

(** A target of two to the power 63 is converted exactly. *)
Example TTest_large_target :
  (TTest plain_builtins probe_stats five (PInt (2 ^ 63)) default_alpha false []).2
  = [EvNew "TTest" [five; PInt (2 ^ 63)];
     EvCall fn_ttest_1samp [PVector one_to_five; PFloat 0x1p63]].
Proof. by vm_compute. Qed.

(** With display on, the same call runs the test and then fails. *)
Example TTest_display_one_sample :
  TTest plain_builtins probe_stats five (PInt 3) default_alpha true []
  = (Raise TypeError,
     [EvNew "TTest" [five; PInt 3];
      EvCall fn_ttest_1samp [PVector one_to_five; PFloat 3]]).
Proof. by vm_compute. Qed.

(** ** EqualVariance: the constructor *)

Lemma NormTest_scalars py lib args kw t :
  existsb is_iterable args = false →
  length args ≠ 1%nat →
  NormTest py lib args kw t = (Raise TypeError, t ++ [EvNew "NormTest" args]).
Proof.
  intros Hsc Hlen. unfold NormTest, new. mstep.
  unfold Test___init__. cbv zeta. cbn [is_group]. rewrite Hsc.
  destruct args as [|d [|d' args]]; [| done |]; by rewrite bind_lift.
Qed.

Lemma EqualVariance_run_scalars py lib self t args :
  py_iter (_data self) = Ok args →
  existsb is_iterable args = false →
  length args ≠ 1%nat →
  EqualVariance_run py lib self t = (Raise TypeError, t ++ [EvNew "NormTest" args]).
Proof.
  intros Hargs Hsc Hlen. unfold EqualVariance_run.
  destruct (len_of_iterable _ _ Hargs) as [n ->]. rewrite Hargs. do 2 mstep. cbv zeta.
  erewrite bind_raise; [done|]. by apply NormTest_scalars.
Qed.

Lemma EqualVariance_output_title py self tag s p :
  klass self = EqualVariance_attrs →
  tag = "Bartlett" ∨ tag = "Levene" →
  _results self !! KStr "test" = Some (PStr tag) →
  _results self !! KStr "statistic" = Some (PFloat s) →
  _results self !! KStr "p_value" = Some (PFloat p) →
  ∃ line3 line5 line6 line8,
    EqualVariance_output py self
    = Ok (join_lines [" "; tag +:+ " Test"; line3; " "; line5; line6; " "; line8; " "]).
Proof.
  intros Hk Htag Ht Hs Hp.
  unfold EqualVariance_output, labelled, hypothesis, statistic, p_value, item.
  rewrite Ht, Hs, Hp, Hk.
  destruct Htag as [-> | ->]; cbn; eauto.
Qed.

(** The construction over a group, in full. *)
Lemma EqualVariance_needs_two_samples_eq py lib args kw t :
  is_group (PList args) = true →
  ∃ clean,
    Test_data_prep py (alloc EqualVariance_attrs) (PList args) = Ok (PList clean)
    ∧ if (2 <=? Z.of_nat (length clean)) && is_group (PList clean)
      then ∃ obj es fn tag line3 line5 line6 line8,
             EqualVariance py lib args kw t = (Ok obj, t ++ es)
             ∧ _data obj = PList clean
             ∧ filter variance_call es = [EvCall fn clean]
             ∧ (fn = fn_bartlett ∧ tag = "Bartlett" ∨ fn = fn_levene ∧ tag = "Levene")
             ∧ _results obj !! KStr "test" = Some (PStr tag)
             ∧ EqualVariance_output py obj
               = Ok (join_lines [" "; tag +:+ " Test"; line3; " "; line5; line6;
                                 " "; line8; " "])
      else ∃ t', EqualVariance py lib args kw t = (Raise TypeError, t').
Proof.
  intros Hg.
  destruct (Test_data_prep_loop_clean py 2 args []) as (clean & Hclean & Hentries & _);
    [done|].
  exists clean.
  assert (Hprep : ∀ self, _min_size (klass self) = 2 →
            Test_data_prep py self (PList args) = Ok (PList clean)).
  { intros self Hmin. unfold Test_data_prep. cbn [py_iter mbind result_bind].
    by rewrite Hmin, Hclean. }
  split; [by apply Hprep|].
  unfold EqualVariance, new. rewrite bind_emit.
  unfold Test___init__. cbv zeta. rewrite Hg. cbn [data_prep Test_methods].
  rewrite Hprep by done. mstep. cbn [len]. mstep.
  set (alpha := default default_alpha (kw_alpha kw)).
  set (display := default true (kw_display kw)).
  set (t0 := t ++ [EvNew (cls EqualVariance_attrs) args]).
  set (m := Test_methods py (EqualVariance_run py lib) (EqualVariance_output py)).
  assert (Hfail : ∀ data xs,
            py_iter data = Ok xs → existsb is_iterable xs = false →
            length xs ≠ 1%nat →
            ∃ t', Analysis_logic m
                    (Analysis___init__ (set_alpha (alloc EqualVariance_attrs) alpha)
                       data display) t0
                  = (Raise TypeError, t')).
  { intros data xs Hd Hsc Hlen. eexists. unfold Analysis_logic. cbv zeta.
    cbn [run m Test_methods]. erewrite bind_raise; [done|].
    by eapply EqualVariance_run_scalars. }
  destruct (Z.leb_spec 2 (Z.of_nat (length clean))) as [Hlen|Hlen]; cbn [andb].
  - destruct (Z.leb_spec (Z.of_nat (length clean)) 1) as [|_]; [lia|]. mstep.
    destruct (is_group (PList clean)) eqn:Hgc.
    + set (self := Analysis___init__ _ _ _).
      destruct (NormTest_group_total py lib clean
                  {| kw_alpha := Some (_alpha self); kw_display := Some false |} t0 Hgc)
        as (norm & tn & Hnorm).
      destruct (EqualVariance_run_after_NormTest py lib self clean norm t0 tn)
        as (p & es & Hp & Htn & Hquiet & Hrun); [done|done|].
      set (fn := if PrimFloat.ltb (_alpha self) p then fn_bartlett else fn_levene).
      set (tag := if PrimFloat.ltb (_alpha self) p then "Bartlett" else "Levene").
      set (r := if PrimFloat.ltb (_alpha self) p then bartlett lib clean
                else levene lib clean).
      set (obj := results_update self
                    [("p_value", PFloat r.2); ("statistic", PFloat r.1);
                     ("test", PStr tag)]).
      assert (Hrun' : EqualVariance_run py lib self t0 = (Ok obj, tn ++ [EvCall fn clean])).
      { rewrite Hrun. subst obj fn tag r. by destruct (PrimFloat.ltb (_alpha self) p). }
      assert (Htag : fn = fn_bartlett ∧ tag = "Bartlett" ∨ fn = fn_levene ∧ tag = "Levene").
      { subst fn tag. destruct (PrimFloat.ltb (_alpha self) p); auto. }
      destruct (EqualVariance_output_title py obj tag r.1 r.2)
        as (line3 & line5 & line6 & line8 & Hout).
      { done. }
      { destruct Htag as [[_ ->]|[_ ->]]; auto. }
      { subst obj. by rewrite lookup_results_update. }
      { subst obj. by rewrite lookup_results_update. }
      { subst obj. by rewrite lookup_results_update. }
      exists obj, (EvNew "EqualVariance" args :: es ++ [EvCall fn clean]),
             fn, tag, line3, line5, line6, line8.
      split.
      { erewrite Analysis_logic_eq; [|exact Hrun'|].
        - subst t0. by rewrite Htn, <- !app_assoc.
        - intros _. cbn [output m Test_methods]. rewrite Hout. eauto. }
      split; [done|]. split.
      { rewrite filter_cons_False by (simpl; intros []).
        rewrite filter_app, Hquiet. cbn [app].
        rewrite filter_cons_True; [done|].
        destruct Htag as [[-> _]|[-> _]]; done. }
      split; [done|]. split; [|done].
      subst obj. by rewrite lookup_results_update.
    + apply (Hfail (PList clean) clean); [done| |].
      * exact Hgc.
      * intros E. rewrite E in Hlen. lia.
  - destruct (Z.leb_spec (Z.of_nat (length clean)) 1) as [_|]; [|lia].
    destruct clean as [|c [|c' clean]]; [| |cbn [length] in Hlen; lia].
    + change (getitem (PList []) (PInt 0)) with (@Raise pyobj IndexError).
      cbn [try_except]. rewrite decide_True by (by apply list_elem_of_singleton).
      mstep. by apply (Hfail (PList []) []).
    + change (getitem (PList [c]) (PInt 0)) with (Ok c). cbn [try_except]. mstep.
      apply Forall_cons in Hentries as [Hc _].
      destruct c; try done.
      * eexists. unfold Analysis_logic. cbv zeta. cbn [run m Test_methods].
        erewrite bind_raise; [done|]. unfold EqualVariance_run.
        cbn [_data Analysis___init__ len]. by rewrite bind_lift.
      * destruct Hc as (_ & Hc & _).
        apply (Hfail (PVector v) (PFloat <$> v)); [done|apply existsb_scalars|].
        rewrite length_fmap. unfold vlen in Hc. lia.
Qed.

(** X13. [EqualVariance] over a group needs two samples.  The cleaned
    list is what [Test.data_prep] makes of the arguments (the integers
    among them being convertible to floats).  When it holds fewer than
    two entries, a single surviving sample included, or no sample at
    all, the constructor ends in a TypeError.  Otherwise, when the
    constructor returns, the object holds the cleaned list, the run
    made exactly one call to a variance routine, Bartlett's or
    Levene's, on the cleaned list, the tag names the routine and the
    report is titled after it. *)
Theorem EqualVariance_needs_two_samples py lib args kw t :
  is_group (PList args) = true →
  Forall convertible args →
  ∃ clean,
    Test_data_prep py (alloc EqualVariance_attrs) (PList args) = Ok (PList clean)
    ∧ if (2 <=? Z.of_nat (length clean)) && is_group (PList clean)
      then ∀ obj t',
             EqualVariance py lib args kw t = (Ok obj, t') →
             ∃ es fn tag line3 line5 line6 line8,
               t' = t ++ es
               ∧ _data obj = PList clean
               ∧ filter variance_call es = [EvCall fn clean]
               ∧ (fn = fn_bartlett ∧ tag = "Bartlett" ∨ fn = fn_levene ∧ tag = "Levene")
               ∧ _results obj !! KStr "test" = Some (PStr tag)
               ∧ EqualVariance_output py obj
                 = Ok (join_lines [" "; tag +:+ " Test"; line3; " "; line5; line6;
                                   " "; line8; " "])
      else ∃ t', EqualVariance py lib args kw t = (Raise TypeError, t').
Proof.
  intros Hg _.
  destruct (EqualVariance_needs_two_samples_eq py lib args kw t Hg) as (clean & Hprep & H).
  exists clean. split; [done|].
  destruct ((2 <=? Z.of_nat (length clean)) && is_group (PList clean)); [|done].
  destruct H as (obj & es & fn & tag & l3 & l5 & l6 & l8 & Hrun & H).
  intros obj' t' E. rewrite Hrun in E. injection E as <- <-.
  by exists es, fn, tag, l3, l5, l6, l8.
Qed.

Lemma EqualVariance_needs_two_samples_witness :
  is_group (PList [sample sample_a; sample sample_b]) = true
  ∧ Forall convertible [sample sample_a; sample sample_b]
  ∧ ∃ clean,
      Test_data_prep plain_builtins (alloc EqualVariance_attrs)
        (PList [sample sample_a; sample sample_b]) = Ok (PList clean)
      ∧ if (2 <=? Z.of_nat (length clean)) && is_group (PList clean)
        then ∀ obj t',
               EqualVariance plain_builtins probe_stats [sample sample_a; sample sample_b] kw_quiet [] = (Ok obj, t') →
               ∃ es fn tag line3 line5 line6 line8,
                 t' = [] ++ es
                 ∧ _data obj = PList clean
                 ∧ filter variance_call es = [EvCall fn clean]
                 ∧ (fn = fn_bartlett ∧ tag = "Bartlett" ∨ fn = fn_levene ∧ tag = "Levene")
                 ∧ _results obj !! KStr "test" = Some (PStr tag)
                 ∧ EqualVariance_output plain_builtins obj
                   = Ok (join_lines [" "; tag +:+ " Test"; line3; " "; line5; line6;
                                     " "; line8; " "])
        else ∃ t', EqualVariance plain_builtins probe_stats [sample sample_a; sample sample_b] kw_quiet [] = (Raise TypeError, t').
Proof.
  assert (H : Forall convertible [sample sample_a; sample sample_b]).
  { repeat constructor. }
  split; [reflexivity|]. split; [exact H|].
  exact (EqualVariance_needs_two_samples plain_builtins probe_stats
           [sample sample_a; sample sample_b] kw_quiet [] eq_refl H).
Defined.

(** Two samples that survive: the NormTest over both, then one call
    to a variance routine. *)
Example EqualVariance_two_samples :
  (EqualVariance plain_builtins probe_stats [sample sample_a; sample sample_b]
     kw_quiet []).2
  = [EvNew "EqualVariance" [sample sample_a; sample sample_b];
     EvNew "NormTest" [PVector sample_a; PVector sample_b];
     EvCall fn_shapiro [PVector sample_a];
     EvCall fn_shapiro [PVector sample_b];
     EvCall fn_levene [PVector sample_a; PVector sample_b]].
Proof. by vm_compute. Qed.

(** One sample of the two is too small: the NormTest is constructed
    over the numbers of the other and fails. *)
Example EqualVariance_one_survivor :
  EqualVariance plain_builtins probe_stats [sample sample_a; sample [1; 2]%float]
    kw_quiet []
  = (Raise TypeError,
     [EvNew "EqualVariance" [sample sample_a; sample [1; 2]%float];
      EvNew "NormTest" (PFloat <$> sample_a)]).
Proof. by vm_compute. Qed.

(** ** Anova and Kruskal *)

Lemma Test___init___group py m self args kw t clean :
  data_prep m = Test_data_prep py →
  is_group (PList args) = true →
  Test_data_prep py self (PList args) = Ok (PList clean) →
  (2 ≤ length clean)%nat →
  Test___init__ m self args kw t
  = Analysis_logic m
      (Analysis___init__ (set_alpha self (default default_alpha (kw_alpha kw)))
         (PList clean) (default true (kw_display kw))) t.
Proof.
  intros Hm Hg Hprep Hlen. unfold Test___init__. cbv zeta. rewrite Hg, Hm.
  change (Test_data_prep py (set_alpha self _) (PList args))
    with (Test_data_prep py self (PList args)).
  rewrite Hprep. mstep. cbn [len]. mstep.
  destruct (Z.leb_spec (Z.of_nat (length clean)) 1) as [|_]; [lia|]. by mstep.
Qed.

Lemma Test_output_nan py self name sname p :
  _name (klass self) = PStr name →
  _statistic_name (klass self) = PStr sname →
  _results self !! KStr "statistic" = None →
  _results self !! KStr "p_value" = Some (PFloat p) →
  ∃ line3 line6 line8,
    Test_output py self
    = Ok (join_lines [" "; name; line3; " "; (sname +:+ " = ") +:+ format_4f py nan;
                      line6; " "; line8; " "]).
Proof.
  intros Hn Hs Hst Hp.
  unfold Test_output, labelled, hypothesis, statistic, p_value, item.
  rewrite Hn, Hs, Hst, Hp. cbn. eauto.
Qed.

(** The two constructions over a group, in full. *)
Lemma Anova_Kruskal_report_nan_eq py lib args kw t clean :
  is_group (PList args) = true →
  Test_data_prep py (alloc Anova_attrs) (PList args) = Ok (PList clean) →
  (2 ≤ length clean)%nat →
  (∃ obj line3 line6 line8,
     Anova py lib args kw t
     = (Ok obj, t ++ [EvNew "Anova" args; EvCall fn_f_oneway clean])
     ∧ f_value obj = Ok (PFloat (f_oneway lib clean).1)
     ∧ p_value obj = Ok (PFloat (f_oneway lib clean).2)
     ∧ statistic obj = Ok (PFloat nan)
     ∧ Test_output py obj
       = Ok (join_lines [" "; "Oneway ANOVA"; line3; " ";
                         "f value = " +:+ format_4f py nan; line6; " "; line8; " "]))
  ∧ (∃ obj line3 line6 line8,
       Kruskal py lib args kw t
       = (Ok obj, t ++ [EvNew "Kruskal" args; EvCall fn_kruskal clean])
       ∧ h_value obj = Ok (PFloat (kruskal lib clean).1)
       ∧ p_value obj = Ok (PFloat (kruskal lib clean).2)
       ∧ statistic obj = Ok (PFloat nan)
       ∧ Test_output py obj
         = Ok (join_lines [" "; "Kruskal-Wallis"; line3; " ";
                           "H value = " +:+ format_4f py nan; line6; " "; line8; " "])).
Proof.
  intros Hg Hprep Hlen. split.
  - unfold Anova, new. mstep.
    rewrite (Test___init___group py (Test_methods py _ _) _ args kw _ clean
               eq_refl Hg Hprep Hlen).
    set (self := Analysis___init__ _ _ _).
    set (obj := results_update self [("p_value", PFloat (f_oneway lib clean).2);
                                     ("f_value", PFloat (f_oneway lib clean).1)]).
    assert (Hrun : Anova_run lib self (t ++ [EvNew (cls Anova_attrs) args])
                   = (Ok obj, t ++ [EvNew "Anova" args; EvCall fn_f_oneway clean])).
    { unfold Anova_run. cbn [_data self Analysis___init__ py_iter]. do 2 mstep.
      subst obj. destruct (f_oneway lib clean). by rewrite <- app_assoc. }
    destruct (Test_output_nan py obj "Oneway ANOVA" "f value" (f_oneway lib clean).2)
      as (line3 & line6 & line8 & Hout); [done|done|..].
    { subst obj. by rewrite lookup_results_update. }
    { subst obj. by rewrite lookup_results_update. }
    exists obj, line3, line6, line8. split.
    { apply Analysis_logic_eq; [exact Hrun|]. intros _.
      cbn [output Test_methods]. rewrite Hout. eauto. }
    split; [by unfold f_value, item; subst obj; rewrite lookup_results_update|].
    split; [by apply p_value_present; subst obj; rewrite lookup_results_update|].
    split; [by apply statistic_absent; subst obj; rewrite lookup_results_update|].
    exact Hout.
  - unfold Kruskal, new. mstep.
    rewrite (Test___init___group py (Test_methods py _ _) (alloc Kruskal_attrs) args kw _
               clean eq_refl Hg Hprep Hlen).
    set (self := Analysis___init__ _ _ _).
    set (obj := results_update self [("p_value", PFloat (kruskal lib clean).2);
                                     ("h_value", PFloat (kruskal lib clean).1)]).
    assert (Hrun : Kruskal_run lib self (t ++ [EvNew (cls Kruskal_attrs) args])
                   = (Ok obj, t ++ [EvNew "Kruskal" args; EvCall fn_kruskal clean])).
    { unfold Kruskal_run. cbn [_data self Analysis___init__ py_iter]. do 2 mstep.
      subst obj. destruct (kruskal lib clean). by rewrite <- app_assoc. }
    destruct (Test_output_nan py obj "Kruskal-Wallis" "H value" (kruskal lib clean).2)
      as (line3 & line6 & line8 & Hout); [done|done|..].
    { subst obj. by rewrite lookup_results_update. }
    { subst obj. by rewrite lookup_results_update. }
    exists obj, line3, line6, line8. split.
    { apply Analysis_logic_eq; [exact Hrun|]. intros _.
      cbn [output Test_methods]. rewrite Hout. eauto. }
    split; [by unfold h_value, item; subst obj; rewrite lookup_results_update|].
    split; [by apply p_value_present; subst obj; rewrite lookup_results_update|].
    split; [by apply statistic_absent; subst obj; rewrite lookup_results_update|].
    exact Hout.
Qed.

(** X14. [Anova] and [Kruskal] over a group of which at least two
    entries survive the cleaning (the integers among the arguments
    being convertible to floats) each make one call to the library:
    their routine, on the cleaned list.  When the constructor returns,
    the statistic is stored under the class's own key ('f_value',
    'h_value'); the report they inherit reads the key 'statistic'
    instead: whatever the routine returned, its line for the statistic
    shows not-a-number. *)
Theorem Anova_Kruskal_report_nan py lib args kw t clean :
  is_group (PList args) = true →
  Forall convertible args →
  Test_data_prep py (alloc Anova_attrs) (PList args) = Ok (PList clean) →
  (2 ≤ length clean)%nat →
  ((Anova py lib args kw t).2
    = t ++ [EvNew "Anova" args; EvCall fn_f_oneway clean]
    ∧ ∀ obj t',
        Anova py lib args kw t = (Ok obj, t') →
        ∃ line3 line6 line8,
          f_value obj = Ok (PFloat (f_oneway lib clean).1)
          ∧ p_value obj = Ok (PFloat (f_oneway lib clean).2)
          ∧ statistic obj = Ok (PFloat nan)
          ∧ Test_output py obj
            = Ok (join_lines [" "; "Oneway ANOVA"; line3; " ";
                              "f value = " +:+ format_4f py nan; line6; " "; line8; " "]))
  ∧ ((Kruskal py lib args kw t).2
      = t ++ [EvNew "Kruskal" args; EvCall fn_kruskal clean]
      ∧ ∀ obj t',
          Kruskal py lib args kw t = (Ok obj, t') →
          ∃ line3 line6 line8,
            h_value obj = Ok (PFloat (kruskal lib clean).1)
            ∧ p_value obj = Ok (PFloat (kruskal lib clean).2)
            ∧ statistic obj = Ok (PFloat nan)
            ∧ Test_output py obj
              = Ok (join_lines [" "; "Kruskal-Wallis"; line3; " ";
                                "H value = " +:+ format_4f py nan; line6; " "; line8; " "])).
Proof.
  intros Hg _ Hprep Hlen.
  destruct (Anova_Kruskal_report_nan_eq py lib args kw t clean Hg Hprep Hlen)
    as [(a & a3 & a6 & a8 & Ha & Hav) (k & k3 & k6 & k8 & Hk & Hkv)].
  split.
  - rewrite Ha. split; [done|]. intros obj t' E. injection E as <- <-.
    by exists a3, a6, a8.
  - rewrite Hk. split; [done|]. intros obj t' E. injection E as <- <-.
    by exists k3, k6, k8.
Qed.

Lemma Anova_Kruskal_report_nan_witness :
  is_group (PList [sample sample_a; sample sample_b; sample sample_c]) = true
  ∧ Forall convertible [sample sample_a; sample sample_b; sample sample_c]
  ∧ Test_data_prep plain_builtins (alloc Anova_attrs)
      (PList [sample sample_a; sample sample_b; sample sample_c])
    = Ok (PList [PVector sample_a; PVector sample_b; PVector sample_c])
  ∧ (2 ≤ length [PVector sample_a; PVector sample_b; PVector sample_c])%nat
  ∧ ((Anova plain_builtins probe_stats [sample sample_a; sample sample_b; sample sample_c] kw_quiet []).2
      = [] ++ [EvNew "Anova" [sample sample_a; sample sample_b; sample sample_c]; EvCall fn_f_oneway [PVector sample_a; PVector sample_b; PVector sample_c]]
      ∧ ∀ obj t',
          Anova plain_builtins probe_stats [sample sample_a; sample sample_b; sample sample_c] kw_quiet [] = (Ok obj, t') →
          ∃ line3 line6 line8,
            f_value obj = Ok (PFloat (f_oneway probe_stats [PVector sample_a; PVector sample_b; PVector sample_c]).1)
            ∧ p_value obj = Ok (PFloat (f_oneway probe_stats [PVector sample_a; PVector sample_b; PVector sample_c]).2)
            ∧ statistic obj = Ok (PFloat nan)
            ∧ Test_output plain_builtins obj
              = Ok (join_lines [" "; "Oneway ANOVA"; line3; " ";
                                "f value = " +:+ format_4f plain_builtins nan; line6; " "; line8; " "]))
    ∧ ((Kruskal plain_builtins probe_stats [sample sample_a; sample sample_b; sample sample_c] kw_quiet []).2
        = [] ++ [EvNew "Kruskal" [sample sample_a; sample sample_b; sample sample_c]; EvCall fn_kruskal [PVector sample_a; PVector sample_b; PVector sample_c]]
        ∧ ∀ obj t',
            Kruskal plain_builtins probe_stats [sample sample_a; sample sample_b; sample sample_c] kw_quiet [] = (Ok obj, t') →
            ∃ line3 line6 line8,
              h_value obj = Ok (PFloat (kruskal probe_stats [PVector sample_a; PVector sample_b; PVector sample_c]).1)
              ∧ p_value obj = Ok (PFloat (kruskal probe_stats [PVector sample_a; PVector sample_b; PVector sample_c]).2)
              ∧ statistic obj = Ok (PFloat nan)
              ∧ Test_output plain_builtins obj
                = Ok (join_lines [" "; "Kruskal-Wallis"; line3; " ";
                                  "H value = " +:+ format_4f plain_builtins nan; line6; " "; line8; " "])).
Proof.
  assert (H : Forall convertible [sample sample_a; sample sample_b; sample sample_c]).
  { repeat constructor. }
  split; [reflexivity|]. split; [exact H|]. split; [reflexivity|].
  split; [simpl; lia|].
  apply (Anova_Kruskal_report_nan plain_builtins probe_stats
           [sample sample_a; sample sample_b; sample sample_c] kw_quiet []
           [PVector sample_a; PVector sample_b; PVector sample_c]).
  - reflexivity.
  - exact H.
  - reflexivity.
  - simpl. lia.
Defined.

(** ** The reports of the subclasses *)

Lemma join_inv items text :
  join items = Ok text → ∃ ss, items = PStr <$> ss ∧ text = join_lines ss.
Proof.
  unfold join. destruct (strings_of items) as [ss|] eqn:E; [|discriminate].
  intros [= <-]. exists ss. split; [by apply strings_of_inv|done].
Qed.

(** X15. The reports that override [Test.output], those of
    LinearRegression, Correlation and EqualVariance, choose their
    hypothesis line as the generic report does: whenever one of them
    is produced for an object whose results hold a p-value, its last
    three lines are a blank, the null-hypothesis text when the
    p-value is greater than alpha and the alternate text otherwise,
    and a blank. *)
Theorem reports_select_hypothesis py self p text :
  _results self !! KStr "p_value" = Some (PFloat p) →
  LinearRegression_output py self = Ok text
  ∨ Correlation_output py self = Ok text
  ∨ EqualVariance_output py self = Ok text →
  ∃ lines,
    text = join_lines (lines ++ [" ";
                                 if PrimFloat.ltb (_alpha self) p
                                 then _h0 (klass self) else _ha (klass self);
                                 " "]).
Proof.
  intros Hp Hout. pose proof (hypothesis_eq self p Hp) as Hh.
  destruct Hout as [H|[H|H]].
  - unfold LinearRegression_output in H. inv_result H.
    rewrite Hh in Ha7. injection Ha7 as <-.
    apply join_inv in H as (ss & Hss & ->).
    do 13 (destruct ss as [|? ss]; try discriminate).
    destruct ss; [|discriminate]. cbn in Hss. simplify_eq.
    by eexists [_; _; _; _; _; _; _; _; _; _].
  - unfold Correlation_output in H. inv_result H.
    rewrite Hh in Ha3. injection Ha3 as <-.
    apply join_inv in H as (ss & Hss & ->).
    do 10 (destruct ss as [|? ss]; try discriminate).
    destruct ss; [|discriminate]. cbn in Hss. simplify_eq.
    by eexists [_; _; _; _; _; _; _].
  - unfold EqualVariance_output in H. inv_result H.
    rewrite Hh in Ha8. injection Ha8 as <-.
    apply join_inv in H as (ss & Hss & ->).
    do 9 (destruct ss as [|? ss]; try discriminate).
    destruct ss; [|discriminate]. cbn in Hss. simplify_eq.
    by eexists [_; _; _; _; _; _].
Qed.

Lemma reports_select_hypothesis_witness :
  _results regressed !! KStr "p_value" = Some (PFloat 0.5)
  ∧ ∃ text,
      LinearRegression_output plain_builtins regressed = Ok text
      ∧ ∃ lines,
          text = join_lines (lines ++ [" ";
                                       if PrimFloat.ltb (_alpha regressed) 0.5
                                       then _h0 (klass regressed)
                                       else _ha (klass regressed);
                                       " "]).
Proof.
  assert (Hp : _results regressed !! KStr "p_value" = Some (PFloat 0.5)).
  { reflexivity. }
  assert (∃ text, LinearRegression_output plain_builtins regressed = Ok text)
    as [text Htext].
  { eexists. vm_compute. reflexivity. }
  split; [exact Hp|]. exists text. split; [exact Htext|].
  exact (reports_select_hypothesis plain_builtins regressed 0.5 text Hp
           (or_introl Htext)).
Defined.

(** ** analyze: one sample, two samples, no sample *)

Lemma to_Vector_eq py x v :
  as_vector py x = Ok v →
  (if negb (is_vector x) then PVector <$> Vector py x else Ok x) = Ok (PVector v).
Proof.
  unfold as_vector. destruct x; cbn [is_vector negb values Vector].
  all: try by intros ->.
  by intros [= ->].
Qed.

(** The single-sample branch, in full. *)
Lemma analyze_one_sample_eq py lib np x y groups name xname yname alpha categories t :
  is_iterable x = true →
  is_group x || is_dict_group x = false →
  is_iterable y = false →
  ∃ v,
    as_vector py x = Ok v
    ∧ let label := label_obj (if given name then name
                              else if given xname then xname else Some "Data") in
      analyze py lib np x y groups name xname yname alpha categories t
      = if vlen (drop_nan v) <? 2
        then (Raise TypeError,
              t ++ [EvGraph "GraphHisto" [PVector v; label];
                    EvNew "VectorStatistics" [PVector v]])
        else (Ok None,
              t ++ [EvGraph "GraphHisto" [PVector v; label];
                    EvNew "VectorStatistics" [PVector v];
                    EvNew "NormTest" [PVector v];
                    EvCall fn_shapiro [cleaned 2 v]]).
Proof.
  intros Hx Hng Hy. destruct (as_vector_iterable py x Hx) as [v Hv].
  exists v. split; [done|]. cbv zeta.
  unfold analyze. rewrite Hng, Hx, Hy. cbn [andb]. cbv zeta.
  rewrite (to_Vector_eq py x v Hv). do 2 mstep.
  set (t1 := t ++ [EvGraph "GraphHisto" _]).
  destruct (VectorStatistics_eq py lib np (PVector v) true true t1 eq_refl)
    as (v' & Hv' & Hvs).
  injection Hv' as <-. cbv zeta in Hvs.
  destruct (vlen (drop_nan v) <? 2).
  - erewrite bind_raise by exact Hvs. subst t1. by rewrite <- app_assoc.
  - destruct Hvs as (obj & Hvs & _). erewrite bind_ok by exact Hvs.
    destruct (NormTest_one_sample_eq py lib (PVector v)
                {| kw_alpha := Some alpha; kw_display := None |}
                (t1 ++ [EvNew "VectorStatistics" [PVector v]]) eq_refl)
      as (v' & norm & Hv' & Hnorm & _).
    injection Hv' as <-.
    erewrite bind_ok by exact Hnorm. subst t1. by rewrite <- !app_assoc.
Qed.

(** X16. [analyze] of one sample.  The histogram is drawn first, on
    the coerced sample, under the name given, else the x label, else
    'Data'; then VectorStatistics is constructed and then NormTest,
    whose one call to the library is the Shapiro-Wilk routine on what
    survives the cleaning of the sample.  A sample with fewer than two
    numbers makes [analyze] fail with a TypeError after the histogram,
    in VectorStatistics.  When [analyze] returns, it returns
    [None]. *)
Theorem analyze_one_sample py lib np x y groups name xname yname alpha categories t :
  is_iterable x = true →
  is_group x || is_dict_group x = false →
  is_iterable y = false →
  ∃ v,
    as_vector py x = Ok v
    ∧ let label := label_obj (if given name then name
                              else if given xname then xname else Some "Data") in
      if vlen (drop_nan v) <? 2
      then analyze py lib np x y groups name xname yname alpha categories t
           = (Raise TypeError,
              t ++ [EvGraph "GraphHisto" [PVector v; label];
                    EvNew "VectorStatistics" [PVector v]])
      else (analyze py lib np x y groups name xname yname alpha categories t).2
           = t ++ [EvGraph "GraphHisto" [PVector v; label];
                   EvNew "VectorStatistics" [PVector v];
                   EvNew "NormTest" [PVector v];
                   EvCall fn_shapiro [cleaned 2 v]]
           ∧ ∀ r t',
               analyze py lib np x y groups name xname yname alpha categories t
               = (Ok r, t') →
               r = None.
Proof.
  intros Hx Hng Hy.
  destruct (analyze_one_sample_eq py lib np x y groups name xname yname alpha
              categories t Hx Hng Hy) as (v & Hv & H).
  exists v. split; [done|]. cbv zeta in *.
  destruct (vlen (drop_nan v) <? 2); [done|].
  rewrite H. split; [done|]. intros r t' E. by injection E as <- <-.
Qed.

Lemma analyze_one_sample_witness :
  is_iterable (sample sample_a) = true
  ∧ is_group (sample sample_a) || is_dict_group (sample sample_a) = false
  ∧ is_iterable PNone = false
  ∧ ∃ v,
      as_vector plain_builtins (sample sample_a) = Ok v
      ∧ let label := label_obj (if given None then None
                                else if given (Some "x") then Some "x"
                                     else Some "Data") in
        if vlen (drop_nan v) <? 2
        then analyze plain_builtins probe_stats probe_numpy (sample sample_a) PNone
               None None (Some "x") None default_alpha "Categories" []
             = (Raise TypeError,
                [] ++ [EvGraph "GraphHisto" [PVector v; label];
                       EvNew "VectorStatistics" [PVector v]])
        else (analyze plain_builtins probe_stats probe_numpy (sample sample_a) PNone
                None None (Some "x") None default_alpha "Categories" []).2
             = [] ++ [EvGraph "GraphHisto" [PVector v; label];
                      EvNew "VectorStatistics" [PVector v];
                      EvNew "NormTest" [PVector v];
                      EvCall fn_shapiro [cleaned 2 v]]
             ∧ ∀ r t',
                 analyze plain_builtins probe_stats probe_numpy (sample sample_a) PNone
                   None None (Some "x") None default_alpha "Categories" []
                 = (Ok r, t') →
                 r = None.
Proof.
  do 3 (split; [reflexivity|]).
  apply (analyze_one_sample plain_builtins probe_stats probe_numpy
           (sample sample_a) PNone None None (Some "x") None default_alpha
           "Categories" []); reflexivity.
Defined.

(** The two-sample branch, in full. *)
Lemma analyze_two_samples_eq py lib np x y groups name xname yname alpha categories t :
  is_iterable x = true →
  is_iterable y = true →
  is_group x || is_dict_group x = false →
  ∃ vx vy,
    as_vector py x = Ok vx
    ∧ as_vector py y = Ok vy
    ∧ let c := paired 3 vx vy in
      let data := cleaned 2 (c.1 ++ c.2) in
      let pearson := PrimFloat.ltb default_alpha (shapiro lib data).2 in
      analyze py lib np x y groups name xname yname alpha categories t
      = (Ok None,
         t ++ [EvGraph "GraphScatter"
                 [PVector vx; PVector vy;
                  label_obj (if given xname then xname else Some "Predictor");
                  label_obj (if given yname then yname
                             else if given name then name else Some "Response")];
               EvNew "LinearRegression" [PVector vx; PVector vy];
               EvCall fn_linregress [PVector c.1; PVector c.1];
               EvNew "Correlation" [PVector vx; PVector vy];
               EvNew "NormTest" [PList (PFloat <$> (c.1 ++ c.2))];
               EvCall fn_shapiro [data];
               EvCall (if pearson then fn_pearsonr else fn_spearmanr)
                 [PVector c.1; PVector c.2]]).
Proof.
  intros Hx Hy Hng.
  destruct (as_vector_iterable py x Hx) as [vx Hvx].
  destruct (as_vector_iterable py y Hy) as [vy Hvy].
  exists vx, vy. split; [done|]. split; [done|]. cbv zeta.
  unfold analyze. rewrite Hng, Hx, Hy. cbn [andb]. cbv zeta.
  rewrite (to_Vector_eq py x vx Hvx). mstep.
  rewrite (to_Vector_eq py y vy Hvy). do 2 mstep.
  set (t1 := t ++ [EvGraph "GraphScatter" _]).
  destruct (LinearRegression_pair py lib (PVector vx) (PVector vy) no_kwargs t1 vx vy)
    as (lr & Hlr & _); [done..|].
  erewrite bind_ok by exact Hlr.
  destruct (Correlation_pair py lib (PVector vx) (PVector vy) no_kwargs
              (t1 ++ [EvNew "LinearRegression" [PVector vx; PVector vy];
                      EvCall fn_linregress [PVector (paired 3 vx vy).1;
                                            PVector (paired 3 vx vy).1]]) vx vy)
    as (co & Hco & _); [done..|].
  cbv zeta in Hco. erewrite bind_ok by exact Hco.
  subst t1. by rewrite <- !app_assoc.
Qed.

(** X17. [analyze] of two samples.  It draws the scatter plot of
    the two coerced samples (x label: the one given, else
    'Predictor'; y label: the one given, else the name, else
    'Response') and then constructs LinearRegression over them, whose
    call to the regression routine is its first call to the library.
    When [analyze] returns, it returns [None], and Correlation was
    constructed after LinearRegression, with its NormTest and one call
    to a correlation routine.  The alpha given to [analyze] is not
    handed on (both tests use their default, 0.05): it changes
    nothing. *)
Theorem analyze_two_samples py lib np x y groups name xname yname alpha categories t :
  is_iterable x = true →
  is_iterable y = true →
  is_group x || is_dict_group x = false →
  ∃ vx vy,
    as_vector py x = Ok vx
    ∧ as_vector py y = Ok vy
    ∧ let c := paired 3 vx vy in
      let data := cleaned 2 (c.1 ++ c.2) in
      let pearson := PrimFloat.ltb default_alpha (shapiro lib data).2 in
      let scatter :=
        EvGraph "GraphScatter"
          [PVector vx; PVector vy;
           label_obj (if given xname then xname else Some "Predictor");
           label_obj (if given yname then yname
                      else if given name then name else Some "Response")] in
      (∃ es, (analyze py lib np x y groups name xname yname alpha categories t).2
             = t ++ [scatter;
                     EvNew "LinearRegression" [PVector vx; PVector vy];
                     EvCall fn_linregress [PVector c.1; PVector c.1]] ++ es)
      ∧ (∀ r t',
           analyze py lib np x y groups name xname yname alpha categories t = (Ok r, t') →
           r = None
           ∧ t' = t ++ [scatter;
                        EvNew "LinearRegression" [PVector vx; PVector vy];
                        EvCall fn_linregress [PVector c.1; PVector c.1];
                        EvNew "Correlation" [PVector vx; PVector vy];
                        EvNew "NormTest" [PList (PFloat <$> (c.1 ++ c.2))];
                        EvCall fn_shapiro [data];
                        EvCall (if pearson then fn_pearsonr else fn_spearmanr)
                          [PVector c.1; PVector c.2]])
      ∧ ∀ alpha',
          analyze py lib np x y groups name xname yname alpha' categories t
          = analyze py lib np x y groups name xname yname alpha categories t.
Proof.
  intros Hx Hy Hng.
  destruct (analyze_two_samples_eq py lib np x y groups name xname yname alpha
              categories t Hx Hy Hng) as (vx & vy & Hvx & Hvy & H).
  exists vx, vy. split; [done|]. split; [done|]. cbv zeta in *.
  split; [|split].
  - rewrite H. cbn [snd]. by eexists [_; _; _; _].
  - intros r t' E. rewrite H in E. by injection E as <- <-.
  - intros alpha'.
    destruct (analyze_two_samples_eq py lib np x y groups name xname yname alpha'
                categories t Hx Hy Hng) as (vx' & vy' & Hvx' & Hvy' & H').
    cbv zeta in H'. rewrite Hvx in Hvx'. rewrite Hvy in Hvy'.
    injection Hvx' as <-. injection Hvy' as <-. by rewrite H, H'.
Qed.

Lemma analyze_two_samples_witness :
  is_iterable (sample sample_a) = true
  ∧ is_iterable (sample sample_b) = true
  ∧ is_group (sample sample_a) || is_dict_group (sample sample_a) = false
  ∧ ∃ vx vy,
      as_vector plain_builtins (sample sample_a) = Ok vx
      ∧ as_vector plain_builtins (sample sample_b) = Ok vy
      ∧ let c := paired 3 vx vy in
        let data := cleaned 2 (c.1 ++ c.2) in
        let pearson := PrimFloat.ltb default_alpha (shapiro probe_stats data).2 in
        let scatter :=
          EvGraph "GraphScatter"
            [PVector vx; PVector vy;
             label_obj (if given None then None else Some "Predictor");
             label_obj (if given None then None
                        else if given None then None else Some "Response")] in
        (∃ es, (analyze plain_builtins probe_stats probe_numpy (sample sample_a)
                  (sample sample_b) None None None None 0.5%float "Categories" []).2
               = [] ++ [scatter;
                        EvNew "LinearRegression" [PVector vx; PVector vy];
                        EvCall fn_linregress [PVector c.1; PVector c.1]] ++ es)
        ∧ (∀ r t',
             analyze plain_builtins probe_stats probe_numpy (sample sample_a)
               (sample sample_b) None None None None 0.5%float "Categories" []
             = (Ok r, t') →
             r = None
             ∧ t' = [] ++ [scatter;
                           EvNew "LinearRegression" [PVector vx; PVector vy];
                           EvCall fn_linregress [PVector c.1; PVector c.1];
                           EvNew "Correlation" [PVector vx; PVector vy];
                           EvNew "NormTest" [PList (PFloat <$> (c.1 ++ c.2))];
                           EvCall fn_shapiro [data];
                           EvCall (if pearson then fn_pearsonr else fn_spearmanr)
                             [PVector c.1; PVector c.2]])
        ∧ ∀ alpha',
            analyze plain_builtins probe_stats probe_numpy (sample sample_a)
              (sample sample_b) None None None None alpha' "Categories" []
            = analyze plain_builtins probe_stats probe_numpy (sample sample_a)
                (sample sample_b) None None None None 0.5%float "Categories" [].
Proof.
  do 3 (split; [reflexivity|]).
  apply (analyze_two_samples plain_builtins probe_stats probe_numpy
           (sample sample_a) (sample sample_b) None None None None 0.5%float
           "Categories" []); reflexivity.
Defined.

Lemma scalar_not_group x :
  is_iterable x = false → is_group x || is_dict_group x = false.
Proof. by destruct x. Qed.

(** X18. What [analyze] returns.  It returns the pair of its two
    data arguments, untouched and without any effect, exactly when the
    first is not iterable; on every other input it returns [None] or
    ends in an exception. *)
Theorem analyze_returns_pair_for_scalar py lib np x y groups name xname yname alpha
    categories t :
  match analyze py lib np x y groups name xname yname alpha categories t with
  | (Ok (Some v), t') => is_iterable x = false ∧ v = (x, y) ∧ t' = t
  | (Ok None, _) | (Raise _, _) => is_iterable x = true
  end.
Proof.
  destruct (is_iterable x) eqn:Hx.
  - destruct (is_group x || is_dict_group x) eqn:Hg.
    + destruct (analyze_group_emits py lib np x y groups name xname yname alpha
                  categories Hg t) as (r & es & -> & _ & Hpost).
      destruct r as [[v|]|e]; [|done..]. by destruct (Hpost (Some v)).
    + destruct (is_iterable y) eqn:Hy.
      * destruct (analyze_two_samples_eq py lib np x y groups name xname yname alpha
                    categories t Hx Hy Hg) as (vx & vy & _ & _ & H).
        cbv zeta in H. by rewrite H.
      * destruct (analyze_one_sample_eq py lib np x y groups name xname yname alpha
                    categories t Hx Hg Hy) as (v & _ & H).
        cbv zeta in H. rewrite H. by destruct (_ <? _).
  - unfold analyze. rewrite (scalar_not_group x Hx), Hx. cbn [andb]. done.
Qed.
